(** * Scoring strategies and adaptive question selection

    A shallow embedding of the scoring-and-adaptive-difficulty core of the
    Filipino adaptive quiz application:

    - the scoring strategies module ([ScoringStrategy] and its subclasses,
      [ScoringStrategyFactory], [CompositeScoring]), which sits in
      [src/backend/src/controllers/authController.ts] from line 259 on;
    - the quiz controller's [selectAdaptiveQuestions], which sits in
      [src/backend/src/routes/quizRoutes.ts], lines 370-393.

    Modelling conventions.

    - A JavaScript [number] is an exact rational extended with [Infinity],
      [-Infinity] and [NaN].  Division by zero, arithmetic on the special
      values, comparisons with [NaN] and truthiness follow ECMAScript; the
      rounding of binary64 and the sign of zero are not modelled.
    - An optional field ([confidenceLevel?], [timeSpent?], [userPerformance?])
      is an [option]; [None] is [undefined].
    - Text built by a template literal is kept as the list of its parts:
      literal text, [${n}] and [n.toFixed(d)].  How the engine prints a number
      is not modelled; [render] turns the parts into a string for any given
      printer.
    - [Array.prototype.sort] with the comparator [() => Math.random() - 0.5]
      is a section variable of which only "permutes its array" is assumed.
    - The quiz controller's handlers ([startQuiz], [submitAnswer],
      [completeQuiz], [getSessionStatus]) take the fields of the request they
      read and the [activeSessions] map, and return the response with the
      map.  The values of [Math.random()], [Date.now()] and
      [generateSessionId()] come in as arguments; the loop of
      [generateMockQuestions] runs on fuel.
    - The strategies are given twice: as functions from a context to a
      result, and ([Runtime]) as computations on a store of objects and
      arrays that can also call [Math.random()].  The second form is proved
      to return what the first computes; what a call leaves in the store and
      whether it draws is stated on the second. *)

From Stdlib Require Import QArith Qcanon Qround Lqa.
From stdpp Require Import base numbers list strings pretty gmap.

Local Open Scope Z_scope.

(** ** JavaScript numbers *)

Module JS.

Inductive number : Type :=
| Num (q : Qc)
| Infinity
| NegInfinity
| NaN.

Definition ofZ (n : Z) : number := Num (Qc_of_Z n).

(** [n / d] for a literal such as [0.25]. *)
Definition ofFrac (n : Z) (d : positive) : number := Num (Q2Qc (n # d)).

(** Sign of a number that is not [NaN]; zero is taken as [+0]. *)
Definition sign (x : number) : comparison :=
  match x with
  | Num q => (q ?= 0)%Qc
  | Infinity => Gt
  | NegInfinity => Lt
  | NaN => Eq
  end.

Definition neg (x : number) : number :=
  match x with
  | Num q => Num (- q)%Qc
  | Infinity => NegInfinity
  | NegInfinity => Infinity
  | NaN => NaN
  end.

Definition add (x y : number) : number :=
  match x, y with
  | NaN, _ | _, NaN => NaN
  | Num a, Num b => Num (a + b)%Qc
  | Infinity, NegInfinity | NegInfinity, Infinity => NaN
  | Infinity, _ | _, Infinity => Infinity
  | NegInfinity, _ | _, NegInfinity => NegInfinity
  end.

Definition sub (x y : number) : number := add x (neg y).

(** The infinity carrying the product of two signs; [0 * Infinity] is [NaN]. *)
Definition signedInfinity (s t : comparison) : number :=
  match s, t with
  | Eq, _ | _, Eq => NaN
  | Gt, Gt | Lt, Lt => Infinity
  | Gt, Lt | Lt, Gt => NegInfinity
  end.

Definition mul (x y : number) : number :=
  match x, y with
  | NaN, _ | _, NaN => NaN
  | Num a, Num b => Num (a * b)%Qc
  | _, _ => signedInfinity (sign x) (sign y)
  end.

(** Sign of a divisor: a zero divisor is [+0]. *)
Definition divisorSign (x : number) : comparison :=
  match sign x with Lt => Lt | _ => Gt end.

Definition div (x y : number) : number :=
  match x, y with
  | NaN, _ | _, NaN => NaN
  | Num a, Num b =>
      if decide (b = 0%Qc)
      then signedInfinity (sign x) Gt
      else Num (a / b)%Qc
  | Num _, _ => Num 0%Qc
  | _, Num _ => signedInfinity (sign x) (divisorSign y)
  | _, _ => NaN
  end.

(** [x < y]; every comparison with [NaN] is false. *)
Definition ltb (x y : number) : bool :=
  match x, y with
  | NaN, _ | _, NaN => false
  | Num a, Num b => match (a ?= b)%Qc with Lt => true | _ => false end
  | _, NegInfinity => false
  | NegInfinity, _ => true
  | Infinity, _ => false
  | _, Infinity => true
  end.

(** [x <= y]. *)
Definition leb (x y : number) : bool :=
  match x, y with
  | NaN, _ | _, NaN => false
  | Num a, Num b => match (a ?= b)%Qc with Gt => false | _ => true end
  | NegInfinity, _ => true
  | _, Infinity => true
  | _, NegInfinity => false
  | Infinity, _ => false
  end.

Definition gtb (x y : number) : bool := ltb y x.
Definition geb (x y : number) : bool := leb y x.

(** [Math.min], [Math.max] and [Math.abs]. *)
Definition min (x y : number) : number :=
  match x, y with
  | NaN, _ | _, NaN => NaN
  | _, _ => if leb x y then x else y
  end.

Definition max (x y : number) : number :=
  match x, y with
  | NaN, _ | _, NaN => NaN
  | _, _ => if leb x y then y else x
  end.

Definition abs (x : number) : number :=
  match x with
  | Num q => match (q ?= 0)%Qc with Lt => Num (- q)%Qc | _ => x end
  | NegInfinity => Infinity
  | _ => x
  end.

(** [x === y]; [NaN] is not equal to itself. *)
Definition eqb (x y : number) : bool :=
  match x, y with
  | Num a, Num b => Qeq_bool a b
  | Infinity, Infinity | NegInfinity, NegInfinity => true
  | _, _ => false
  end.

(** Finite numbers: the ordinary rationals among the numbers. *)
Definition finite (x : number) : Prop := exists a, x = Num a.

(** ToBoolean on a number: [0] and [NaN] are falsy. *)
Definition truthy (x : number) : bool :=
  match x with
  | Num q => if decide (q = 0%Qc) then false else true
  | NaN => false
  | _ => true
  end.

(** [o || d] where [o] is an optional number. *)
Definition orElse (o : option number) (d : number) : number :=
  match o with
  | Some x => if truthy x then x else d
  | None => d
  end.

(** ToIntegerOrInfinity followed by the clamping of a relative index into
    [0 .. len], as [Array.prototype.slice] does with each of its arguments. *)
Definition relativeIndex (x : number) (len : nat) : nat :=
  match x with
  | NaN => 0%nat
  | Infinity => len
  | NegInfinity => 0%nat
  | Num q =>
      let i := Z.quot (Qnum q) (Zpos (Qden q)) in
      if Z.ltb i 0
      then Z.to_nat (Z.max (Z.of_nat len + i) 0)
      else Z.to_nat (Z.min i (Z.of_nat len))
  end.

(** [arr.slice(start, end)]. *)
Definition slice {A : Type} (arr : list A) (start stop : number) : list A :=
  let len := length arr in
  let k := relativeIndex start len in
  let final := relativeIndex stop len in
  take (final - k) (drop k arr).

End JS.

Export JS.

Declare Scope js_scope.
Delimit Scope js_scope with js.
Bind Scope js_scope with number.
Infix "+" := add : js_scope.
Infix "-" := sub : js_scope.
Infix "*" := mul : js_scope.
Infix "/" := div : js_scope.
Notation "- x" := (neg x) : js_scope.
Infix "<?" := ltb : js_scope.
Infix "<=?" := leb : js_scope.
Infix ">?" := gtb : js_scope.
Infix ">=?" := geb : js_scope.

Coercion ofZ : Z >-> number.

(** ** Text assembled by template literals *)

Inductive part : Type :=
| Lit (s : string)               (* literal text *)
| Str (n : number)               (* [${n}] *)
| Fixed (n : number) (d : nat).  (* [${n.toFixed(d)}] *)

Definition text : Type := list part.

Section Render.
Variable numberToString : number -> string.
Variable toFixed : number -> nat -> string.

Definition renderPart (p : part) : string :=
  match p with
  | Lit s => s
  | Str n => numberToString n
  | Fixed n d => toFixed n d
  end.

Definition render (t : text) : string :=
  foldr (fun p acc => String.app (renderPart p) acc) EmptyString t.

End Render.

(** [texts.join(sep)]. *)
Fixpoint join (sep : text) (texts : list text) : text :=
  match texts with
  | [] => []
  | [t] => t
  | t :: rest => t ++ sep ++ join sep rest
  end.

(** ** Types and interfaces *)

Record QuestionOption : Type := {
  opt_id : string;
  opt_isCorrect : bool;
  partialCreditPercentage : number
}.

Record Question : Type := {
  q_id : string;
  points : number;
  difficultyLevel : number;
  options : list QuestionOption
}.

Record Answer : Type := {
  questionId : string;
  selectedOptionId : string;
  isCorrect : bool;
  confidenceLevel : option number;  (* 1-5 scale *)
  timeSpent : option number         (* seconds *)
}.

Record ScoringResult : Type := {
  pointsEarned : number;
  pointsPossible : number;
  percentage : number;
  feedback : text;
  appliedMultipliers : list text
}.

Record UserPerformanceMetrics : Type := {
  recentAccuracy : number;        (* percentage *)
  averageResponseTime : number;   (* seconds *)
  consecutiveCorrect : number;
  consecutiveIncorrect : number;
  currentStreak : number
}.

Record ScoringContext : Type := {
  question : Question;
  answer : Answer;
  userPerformance : option UserPerformanceMetrics
}.

(** ** The abstract strategy class: shared helpers *)

Local Open Scope js_scope.

(** [question.options.find(opt => opt.id === answer.selectedOptionId)] *)
Definition getSelectedOption (q : Question) (a : Answer) : option QuestionOption :=
  List.find (fun opt => String.eqb (opt_id opt) (selectedOptionId a)) (options q).

Definition getCorrectOption (q : Question) : option QuestionOption :=
  List.find (fun opt => opt_isCorrect opt) (options q).

Definition formatFeedback (isCorrect : bool) (pointsEarned : number)
    (language : string) : text :=
  if String.eqb language "tl" then
    if isCorrect then
      if pointsEarned >? 0
      then [Lit "Tama! Nakakuha ka ng "; Fixed pointsEarned 1; Lit " puntos."]
      else [Lit "Tama ang sagot!"]
    else
      if pointsEarned <? 0
      then [Lit "Mali. Nabawasan ng "; Fixed (abs pointsEarned) 1; Lit " puntos."]
      else [Lit "Mali ang sagot. Subukan muli."]
  else
    if isCorrect then
      if pointsEarned >? 0
      then [Lit "Correct! You earned "; Fixed pointsEarned 1; Lit " points."]
      else [Lit "Correct answer!"]
    else
      if pointsEarned <? 0
      then [Lit "Incorrect. Lost "; Fixed (abs pointsEarned) 1; Lit " points."]
      else [Lit "Incorrect answer. Try again."].

(** The default value of the [language] parameter. *)
Definition defaultLanguage : string := "tl".

(** ** Concrete strategies *)

Definition StandardScoring_calculateScore (context : ScoringContext) : ScoringResult :=
  let question := question context in
  let answer := answer context in
  let pointsEarned := if isCorrect answer then points question else 0 in
  {| pointsEarned := pointsEarned;
     pointsPossible := points question;
     percentage := (pointsEarned / points question) * 100;
     feedback := formatFeedback (isCorrect answer) pointsEarned defaultLanguage;
     appliedMultipliers := [[Lit "standard"]] |}.

Definition NegativePenaltyScoring_calculateScore (penaltyPercentage : number)
    (context : ScoringContext) : ScoringResult :=
  let question := question context in
  let answer := answer context in
  let pointsEarned :=
    if isCorrect answer
    then points question
    else - (points question * (penaltyPercentage / 100)) in
  {| pointsEarned := pointsEarned;
     pointsPossible := points question;
     percentage := if isCorrect answer then 100 else penaltyPercentage * (-1)%Z;
     feedback := formatFeedback (isCorrect answer) pointsEarned defaultLanguage;
     appliedMultipliers :=
       [[Lit "negative_penalty"]; [Str penaltyPercentage; Lit "%"]] |}.

Definition PartialCreditScoring_calculateScore (context : ScoringContext) : ScoringResult :=
  let question := question context in
  let answer := answer context in
  match getSelectedOption question answer with
  | None =>
      {| pointsEarned := 0;
         pointsPossible := points question;
         percentage := 0;
         feedback := [Lit "Walang napiling sagot / No answer selected"];
         appliedMultipliers := [] |}
  | Some selectedOption =>
      let '(pointsEarned, percentage) :=
        if opt_isCorrect selectedOption then
          (points question, ofZ 100)
        else if partialCreditPercentage selectedOption >? 0 then
          (points question * (partialCreditPercentage selectedOption / 100),
           partialCreditPercentage selectedOption)
        else
          (ofZ 0, ofZ 0) in
      let feedback :=
        if (percentage >? 0) && (percentage <? 100)
        then [Lit "Bahagyang tama! Nakakuha ka ng "; Str percentage;
              Lit "% ng puntos. / Partially correct! You earned "; Str percentage;
              Lit "% of the points."]
        else formatFeedback (isCorrect answer) pointsEarned defaultLanguage in
      {| pointsEarned := pointsEarned;
         pointsPossible := points question;
         percentage := percentage;
         feedback := feedback;
         appliedMultipliers := [[Lit "partial_credit"]; [Str percentage; Lit "%"]] |}
  end.

Definition ConfidenceBasedScoring_calculateScore
    (highConfidenceThreshold highConfidenceMultiplier basePenaltyPercentage : number)
    (context : ScoringContext) : ScoringResult :=
  let question := question context in
  let answer := answer context in
  let confidence := orElse (confidenceLevel answer) 3 in  (* default to medium *)
  let isHighConfidence := confidence >=? highConfidenceThreshold in
  let '(pointsEarned, multipliers) :=
    if isCorrect answer then
      if isHighConfidence then
        (points question * highConfidenceMultiplier,
         [[Lit "confidence_based"];
          [Lit "high_confidence_bonus_"; Str highConfidenceMultiplier; Lit "x"]])
      else
        (points question, [[Lit "confidence_based"]])
    else
      let basePenalty := - (points question * (basePenaltyPercentage / 100)) in
      if isHighConfidence then
        (basePenalty * highConfidenceMultiplier,
         [[Lit "confidence_based"];
          [Lit "high_confidence_penalty_"; Str highConfidenceMultiplier; Lit "x"]])
      else
        (basePenalty * ofFrac 1 2,  (* reduced penalty for low confidence *)
         [[Lit "confidence_based"];
          [Lit "low_confidence_reduced_penalty_"; Str (ofFrac 1 2); Lit "x"]]) in
  let percentage := (pointsEarned / points question) * 100 in
  let confidenceFeedback :=
    if isHighConfidence
    then [Lit " (Mataas na kumpiyansa / High confidence)"]
    else [Lit " (Mababang kumpiyansa / Low confidence)"] in
  {| pointsEarned := pointsEarned;
     pointsPossible :=
       points question *
       (if isHighConfidence && isCorrect answer then highConfidenceMultiplier else 1);
     percentage := JS.min 100 (JS.max (-100)%Z percentage);
     feedback :=
       formatFeedback (isCorrect answer) pointsEarned defaultLanguage ++ confidenceFeedback;
     appliedMultipliers := multipliers |}.

(** [ThresholdScoring.calculateScore] once the wrapped strategy has produced
    [baseResult]. *)
Definition ThresholdScoring_apply (minimumThreshold : number)
    (baseResult : ScoringResult) : ScoringResult :=
  if percentage baseResult <? minimumThreshold then
    {| pointsEarned := 0;
       pointsPossible := pointsPossible baseResult;
       percentage := 0;
       feedback :=
         feedback baseResult ++
         [Lit " (Mas mababa sa minimum threshold / Below minimum threshold)"];
       appliedMultipliers :=
         appliedMultipliers baseResult ++
         [[Lit "threshold_"; Str minimumThreshold; Lit "%"]] |}
  else
    {| pointsEarned := pointsEarned baseResult;
       pointsPossible := pointsPossible baseResult;
       percentage := percentage baseResult;
       feedback := feedback baseResult;
       appliedMultipliers :=
         appliedMultipliers baseResult ++ [[Lit "threshold_passed"]] |}.

Definition TimeBasedScoring_calculateScore
    (fastThresholdSeconds slowThresholdSeconds maxSpeedBonus : number)
    (context : ScoringContext) : ScoringResult :=
  let question := question context in
  let answer := answer context in
  let timeSpent := orElse (timeSpent answer) slowThresholdSeconds in
  let pointsEarned0 := if isCorrect answer then points question else 0 in
  let '(pointsEarned, speedBonus, multipliers) :=
    if isCorrect answer && (timeSpent <=? fastThresholdSeconds) then
      (* fast and correct: full speed bonus *)
      let speedBonus := points question * maxSpeedBonus in
      (pointsEarned0 + speedBonus, speedBonus,
       [[Lit "time_based"];
        [Lit "speed_bonus_"; Str (maxSpeedBonus * 100); Lit "%"]])
    else if isCorrect answer && (timeSpent <? slowThresholdSeconds) then
      (* medium speed: partial bonus *)
      let speedRatio :=
        1 - ((timeSpent - fastThresholdSeconds)
             / (slowThresholdSeconds - fastThresholdSeconds)) in
      let speedBonus := points question * maxSpeedBonus * speedRatio in
      (pointsEarned0 + speedBonus, speedBonus,
       [[Lit "time_based"];
        [Lit "speed_bonus_"; Fixed (speedBonus / points question * 100) 0; Lit "%"]])
    else
      (pointsEarned0, ofZ 0, [[Lit "time_based"]]) in
  let percentage := (pointsEarned / points question) * 100 in
  let timeFeedback :=
    if speedBonus >? 0
    then [Lit " (Mabilis na sagot! Bonus: +"; Fixed speedBonus 1;
          Lit " / Fast answer! Bonus: +"; Fixed speedBonus 1; Lit ")"]
    else [] in
  {| pointsEarned := pointsEarned;
     pointsPossible := points question * (1 + maxSpeedBonus);
     percentage := JS.min (100 + (maxSpeedBonus * 100)) percentage;
     feedback :=
       formatFeedback (isCorrect answer) pointsEarned defaultLanguage ++ timeFeedback;
     appliedMultipliers := multipliers |}.

(** Base difficulty multiplier of [AdaptiveDifficultyScoring]. *)
Definition difficultyMultiplier (question : Question) : number :=
  1 + ((difficultyLevel question - 1) * ofFrac 1 4).

Definition performanceMultiplier (userPerformance : option UserPerformanceMetrics)
    : number :=
  match userPerformance with
  | Some perf =>
      if recentAccuracy perf <? 60 then ofFrac 12 10
      else if recentAccuracy perf >? 90 then ofFrac 9 10
      else 1
  | None => 1
  end.

Definition AdaptiveDifficultyScoring_calculateScore (context : ScoringContext)
    : ScoringResult :=
  let question := question context in
  let answer := answer context in
  let difficultyMultiplier := difficultyMultiplier question in
  let performanceMultiplier := performanceMultiplier (userPerformance context) in
  let adjustedPoints := points question * difficultyMultiplier in
  let pointsEarned :=
    if isCorrect answer then adjustedPoints * performanceMultiplier else 0 in
  let percentage : number := if isCorrect answer then 100 else 0 in
  let difficultyFeedback :=
    if difficultyLevel question >=? 4
    then [Lit " (Mahirap na tanong! / Difficult question!)"]
    else if difficultyLevel question <=? 2
    then [Lit " (Madaling tanong / Easy question)"]
    else [] in
  {| pointsEarned := pointsEarned;
     pointsPossible := adjustedPoints;
     percentage := percentage;
     feedback :=
       formatFeedback (isCorrect answer) pointsEarned defaultLanguage ++ difficultyFeedback;
     appliedMultipliers :=
       [[Lit "adaptive_difficulty"];
        [Lit "difficulty_"; Fixed difficultyMultiplier 2; Lit "x"];
        [Lit "performance_"; Fixed performanceMultiplier 2; Lit "x"]] |}.

Definition ComboStreakScoring_calculateScore
    (streakBonusPerCorrect maxStreakMultiplier : number)
    (context : ScoringContext) : ScoringResult :=
  let question := question context in
  let answer := answer context in
  let consecutiveCorrect :=
    orElse (consecutiveCorrect <$> userPerformance context) 0 in
  let streakMultiplier :=
    JS.min maxStreakMultiplier (1 + (consecutiveCorrect * streakBonusPerCorrect)) in
  let '(pointsEarned, multipliers) :=
    if isCorrect answer then
      (points question * streakMultiplier,
       if consecutiveCorrect >? 0
       then [[Lit "combo_streak"];
             [Lit "streak_"; Str consecutiveCorrect];
             [Lit "multiplier_"; Fixed streakMultiplier 2; Lit "x"]]
       else [[Lit "combo_streak"]])
    else
      (ofZ 0, [[Lit "combo_streak"]]) in
  let percentage : number := if isCorrect answer then 100 else 0 in
  let streakFeedback :=
    if (consecutiveCorrect >=? 3) && isCorrect answer
    then [Lit " (Combo x"; Str (consecutiveCorrect + 1); Lit "! Multiplier: ";
          Fixed streakMultiplier 2; Lit "x)"]
    else if (consecutiveCorrect >? 0) && negb (isCorrect answer)
    then [Lit " (Combo broken / Naputol ang combo)"]
    else [] in
  {| pointsEarned := pointsEarned;
     pointsPossible := points question * streakMultiplier;
     percentage := percentage;
     feedback :=
       formatFeedback (isCorrect answer) pointsEarned defaultLanguage ++ streakFeedback;
     appliedMultipliers := multipliers |}.

(** [CompositeScoring.calculateScore] once every inner strategy has produced
    its result. *)
Definition CompositeScoring_aggregate (results : list ScoringResult) : ScoringResult :=
  let totalPointsEarned :=
    foldl (fun sum result => sum + pointsEarned result) (ofZ 0) results in
  let totalPointsPossible :=
    foldl (fun sum result => sum + pointsPossible result) (ofZ 0) results in
  let allMultipliers := flat_map appliedMultipliers results in
  let combinedFeedback := join [Lit " | "] (map feedback results) in
  {| pointsEarned := totalPointsEarned;
     pointsPossible := totalPointsPossible;
     percentage := (totalPointsEarned / totalPointsPossible) * 100;
     feedback := combinedFeedback;
     appliedMultipliers := [Lit "composite"] :: allMultipliers |}.

(** The strategy objects: one constructor per class, carrying the private
    fields set by its constructor. *)
#[local] Set Warnings "-register-all".
Inductive ScoringStrategy : Type :=
| StandardScoring
| NegativePenaltyScoring (penaltyPercentage : number)
| PartialCreditScoring
| ConfidenceBasedScoring
    (highConfidenceThreshold highConfidenceMultiplier basePenaltyPercentage : number)
| ThresholdScoring (minimumThreshold : number) (baseStrategy : ScoringStrategy)
| TimeBasedScoring
    (fastThresholdSeconds slowThresholdSeconds maxSpeedBonus : number)
| AdaptiveDifficultyScoring
| ComboStreakScoring (streakBonusPerCorrect maxStreakMultiplier : number)
| CompositeScoring (strategies : list ScoringStrategy).

(** Constructors called with their default arguments. *)
Definition NegativePenaltyScoring_default := NegativePenaltyScoring 25.
Definition ConfidenceBasedScoring_default := ConfidenceBasedScoring 4 2 25.
Definition ThresholdScoring_default := ThresholdScoring 40 StandardScoring.
Definition TimeBasedScoring_default := TimeBasedScoring 10 60 (ofFrac 1 2).
Definition ComboStreakScoring_default := ComboStreakScoring (ofFrac 1 10) 2.

(** Dynamic dispatch of [strategy.calculateScore(context)]. *)
Fixpoint calculateScore (strategy : ScoringStrategy) (context : ScoringContext)
    : ScoringResult :=
  match strategy with
  | StandardScoring => StandardScoring_calculateScore context
  | NegativePenaltyScoring p => NegativePenaltyScoring_calculateScore p context
  | PartialCreditScoring => PartialCreditScoring_calculateScore context
  | ConfidenceBasedScoring t m p => ConfidenceBasedScoring_calculateScore t m p context
  | ThresholdScoring minimumThreshold baseStrategy =>
      ThresholdScoring_apply minimumThreshold (calculateScore baseStrategy context)
  | TimeBasedScoring f s b => TimeBasedScoring_calculateScore f s b context
  | AdaptiveDifficultyScoring => AdaptiveDifficultyScoring_calculateScore context
  | ComboStreakScoring b m => ComboStreakScoring_calculateScore b m context
  | CompositeScoring strategies =>
      CompositeScoring_aggregate
        (map (fun strategy => calculateScore strategy context) strategies)
  end.

(** ** Strategy factory *)

(** The static [strategies] map, keyed by strategy name. *)
Definition initialStrategies : gmap string ScoringStrategy :=
  list_to_map
    [ ("standard"%string, StandardScoring);
      ("negative_penalty"%string, NegativePenaltyScoring 25);
      ("partial_credit"%string, PartialCreditScoring);
      ("confidence_based"%string, ConfidenceBasedScoring_default);
      ("threshold"%string, ThresholdScoring 40 StandardScoring);
      ("time_based"%string, TimeBasedScoring_default);
      ("adaptive_difficulty"%string, AdaptiveDifficultyScoring);
      ("combo_streak"%string, ComboStreakScoring_default) ].

(** [getStrategy]: an unknown name falls back to the entry of ["standard"]
    (the [console.warn] is not modelled). *)
Definition getStrategy (strategies : gmap string ScoringStrategy)
    (strategyName : string) : option ScoringStrategy :=
  match strategies !! strategyName with
  | Some strategy => Some strategy
  | None => strategies !! "standard"%string
  end.

Definition registerStrategy (name : string) (strategy : ScoringStrategy)
    (strategies : gmap string ScoringStrategy) : gmap string ScoringStrategy :=
  <[name := strategy]> strategies.

(** ** Adaptive question selection *)

(** Target difficulty chosen from the user's recent performance. *)
Definition targetDifficulty (userPerformance : UserPerformanceMetrics)
    (currentDifficulty : number) : number :=
  if (recentAccuracy userPerformance >? 80)
     && (consecutiveCorrect userPerformance >=? 3)
  then JS.min 5 (currentDifficulty + 1)
  else if (recentAccuracy userPerformance <? 50)
          && (consecutiveIncorrect userPerformance >=? 3)
  then JS.max 1 (currentDifficulty - 1)
  else currentDifficulty.

(** Questions near the target difficulty (within one level). *)
Definition nearTarget (targetDifficulty : number) (q : Question) : bool :=
  abs (difficultyLevel q - targetDifficulty) <=? 1.

Section Selection.

(** [arr.sort(() => Math.random() - 0.5)]: the engine's sort driven by random
    comparisons.  Whatever order comes out, it is an order of the same
    elements. *)
Variable sortRandomly : list Question -> list Question.
Hypothesis sortRandomly_permutes : forall l, sortRandomly l ≡ₚ l.

Definition selectAdaptiveQuestions (availableQuestions : list Question)
    (count : number) (userPerformance : UserPerformanceMetrics)
    (currentDifficulty : number) : list Question :=
  let targetDifficulty := targetDifficulty userPerformance currentDifficulty in
  let suitableQuestions := List.filter (nearTarget targetDifficulty) availableQuestions in
  let shuffled := sortRandomly suitableQuestions in
  slice shuffled 0 (JS.min count (Z.of_nat (length shuffled))).

End Selection.

(** ** Sample data *)

Definition optionA : QuestionOption :=
  {| opt_id := "A"; opt_isCorrect := true; partialCreditPercentage := 100 |}.

Definition optionB : QuestionOption :=
  {| opt_id := "B"; opt_isCorrect := false; partialCreditPercentage := 40 |}.

(** A ten-point question of difficulty [level]. *)
Definition sampleQuestion (name : string) (level : Z) : Question :=
  {| q_id := name; points := 10; difficultyLevel := level;
     options := [optionA; optionB] |}.

Definition sampleAnswer (selected : string) (correct : bool)
    (confidence time : option number) : Answer :=
  {| questionId := "q1"; selectedOptionId := selected; isCorrect := correct;
     confidenceLevel := confidence; timeSpent := time |}.

Definition sampleContext (a : Answer) : ScoringContext :=
  {| question := sampleQuestion "q1" 3; answer := a; userPerformance := None |}.

(** A question worth no points, answered correctly. *)
Definition zeroPointContext : ScoringContext :=
  {| question :=
       {| q_id := "q0"; points := 0; difficultyLevel := 3;
          options := [optionA; optionB] |};
     answer := sampleAnswer "A" true None None;
     userPerformance := None |}.

(** The metrics returned by [getUserPerformanceMetrics]: no adjustment of the
    difficulty is triggered. *)
Definition steadyPerformance : UserPerformanceMetrics :=
  {| recentAccuracy := ofFrac 151 2; averageResponseTime := 15;
     consecutiveCorrect := 2; consecutiveIncorrect := 0; currentStreak := 5 |}.

(** Ten questions, two at each difficulty level from 1 to 5. *)
Definition samplePool : list Question :=
  [ sampleQuestion "a1" 1; sampleQuestion "a2" 1;
    sampleQuestion "b1" 2; sampleQuestion "b2" 2;
    sampleQuestion "c1" 3; sampleQuestion "c2" 3;
    sampleQuestion "d1" 4; sampleQuestion "d2" 4;
    sampleQuestion "e1" 5; sampleQuestion "e2" 5 ].

(** [answer] with its [timeSpent] replaced. *)
Definition withTimeSpent (time : option number) (a : Answer) : Answer :=
  {| questionId := questionId a; selectedOptionId := selectedOptionId a;
     isCorrect := isCorrect a; confidenceLevel := confidenceLevel a;
     timeSpent := time |}.

(** [answer] with its [confidenceLevel] replaced. *)
Definition withConfidence (confidence : option number) (a : Answer) : Answer :=
  {| questionId := questionId a; selectedOptionId := selectedOptionId a;
     isCorrect := isCorrect a; confidenceLevel := confidence;
     timeSpent := timeSpent a |}.

Definition withAnswer (a : Answer) (context : ScoringContext) : ScoringContext :=
  {| question := question context; answer := a;
     userPerformance := userPerformance context |}.

(** ** Quiz controller

    The handlers of [src/backend/src/routes/quizRoutes.ts], lines 345-805,
    with the request reduced to the fields a handler reads and the response
    to what it sends.  The in-memory [activeSessions] map and the factory's
    registry are passed in; the map is handed back.  Logging and the
    WebSocket notification are not modelled. *)

(** [Math.floor]. *)
Definition floor (x : number) : number :=
  match x with
  | Num q => ofZ (Qfloor q)
  | _ => x
  end.

(** [arr.length]. *)
Definition lengthOf {A : Type} (arr : list A) : number :=
  ofZ (Z.of_nat (length arr)).

(** [o ?? d]: the default of a destructured field that is [undefined]. *)
Definition orDefault {A : Type} (o : option A) (d : A) : A :=
  match o with
  | Some x => x
  | None => d
  end.

(** A string that passes [if (!s)]: present and not empty. *)
Definition truthyString (s : option string) : option string :=
  match s with
  | Some EmptyString => None
  | _ => s
  end.

Record QuizSession : Type := {
  session_id : string;
  userId : string;
  topicId : string;
  questions : list Question;
  currentQuestionIndex : number;
  totalQuestions : number;
  rawScore : number;
  maxPossibleScore : number;
  scoringAlgorithm : string;
  session_difficultyLevel : number;
  startedAt : number;               (* milliseconds *)
  answers : list Answer
}.

(** What a handler does with [res] or [next]. *)
Inductive Response (A : Type) : Type :=
| Success (data : A)                        (* status 200, [success: true] *)
| Failure (status : Z) (message : string)   (* [success: false] *)
| Next.                                     (* an exception handed to [next] *)

Arguments Success {A} data.
Arguments Failure {A} status message.
Arguments Next {A}.

Definition unauthorized {A : Type} : Response A :=
  Failure 401 "Hindi awtorisado / Unauthorized".

Definition sessionNotFound {A : Type} : Response A :=
  Failure 404 "Hindi mahanap ang session / Session not found".

(** [getUserPerformanceMetrics]: mock data, whatever the user and topic. *)
Definition getUserPerformanceMetrics (user topic : string) : UserPerformanceMetrics :=
  {| recentAccuracy := ofFrac 151 2; averageResponseTime := 15;
     consecutiveCorrect := 2; consecutiveIncorrect := 0; currentStreak := 5 |}.

(** [activeSessions.get(sessionId)] guarded by
    [!session || session.userId !== userId]. *)
Definition ownSession (activeSessions : gmap string QuizSession)
    (sessionId user : string) : option QuizSession :=
  match activeSessions !! sessionId with
  | Some session => if String.eqb (userId session) user then Some session else None
  | None => None
  end.

(** *** submitAnswer *)

Module SubmitAnswer.

Record body : Type := {
  sessionId : string;
  questionId : string;
  selectedOptionId : string;
  confidenceLevel : option number;
  timeSpent : option number
}.

Record data : Type := {
  isCorrect : bool;
  pointsEarned : number;
  pointsPossible : number;
  currentScore : number;
  questionsRemaining : number;
  feedback : text;
  explanation : string;
  appliedMultipliers : list text
}.

End SubmitAnswer.

Definition submitAnswer (strategies : gmap string ScoringStrategy)
    (user : option string) (body : SubmitAnswer.body)
    (activeSessions : gmap string QuizSession)
    : Response SubmitAnswer.data * gmap string QuizSession :=
  match truthyString user with
  | None => (unauthorized, activeSessions)
  | Some user =>
  match ownSession activeSessions (SubmitAnswer.sessionId body) user with
  | None => (sessionNotFound, activeSessions)
  | Some session =>
  (* find question *)
  match List.find (fun q => String.eqb (q_id q) (SubmitAnswer.questionId body))
                  (questions session) with
  | None => (Failure 400 "Hindi wastong tanong / Invalid question", activeSessions)
  | Some question =>
  (* check if already answered *)
  match List.find (fun a => String.eqb (questionId a) (SubmitAnswer.questionId body))
                  (answers session) with
  | Some _ =>
      (Failure 400 "Nasagot na ang tanong / Question already answered", activeSessions)
  | None =>
  (* determine if the answer is correct *)
  let selectedOption :=
    List.find (fun opt => String.eqb (opt_id opt) (SubmitAnswer.selectedOptionId body))
              (options question) in
  let isCorrect :=
    match selectedOption with
    | Some opt => opt_isCorrect opt
    | None => false
    end in
  let answer :=
    {| questionId := SubmitAnswer.questionId body;
       selectedOptionId := SubmitAnswer.selectedOptionId body;
       isCorrect := isCorrect;
       confidenceLevel := SubmitAnswer.confidenceLevel body;
       timeSpent := SubmitAnswer.timeSpent body |} in
  let userPerformance := getUserPerformanceMetrics user (topicId session) in
  match getStrategy strategies (scoringAlgorithm session) with
  | None => (Next, activeSessions)
  | Some strategy =>
  let scoringContext :=
    {| question := question; answer := answer;
       userPerformance := Some userPerformance |} in
  let scoringResult := calculateScore strategy scoringContext in
  (* update session *)
  let session :=
    {| session_id := session_id session;
       userId := userId session;
       topicId := topicId session;
       questions := questions session;
       currentQuestionIndex := currentQuestionIndex session + 1;
       totalQuestions := totalQuestions session;
       rawScore := rawScore session + pointsEarned scoringResult;
       maxPossibleScore := maxPossibleScore session;
       scoringAlgorithm := scoringAlgorithm session;
       session_difficultyLevel := session_difficultyLevel session;
       startedAt := startedAt session;
       answers := answers session ++ [answer] |} in
  let percentageScore := (rawScore session / maxPossibleScore session) * 100 in
  (Success
     {| SubmitAnswer.isCorrect := isCorrect;
        SubmitAnswer.pointsEarned := pointsEarned scoringResult;
        SubmitAnswer.pointsPossible := pointsPossible scoringResult;
        SubmitAnswer.currentScore := percentageScore;
        SubmitAnswer.questionsRemaining :=
          totalQuestions session - lengthOf (answers session);
        SubmitAnswer.feedback := feedback scoringResult;
        SubmitAnswer.explanation :=
          if isCorrect then "Tama ang sagot!" else "Mali ang sagot. Subukan muli.";
        SubmitAnswer.appliedMultipliers := appliedMultipliers scoringResult |},
   <[SubmitAnswer.sessionId body := session]> activeSessions)
  end end end end end.

(** *** completeQuiz *)

Module CompleteQuiz.

Record topicAnalysis : Type := {
  topicId : string;
  accuracy : number;
  averageTime : number
}.

Record performanceSummary : Type := {
  excellent : bool;
  good : bool;
  needsImprovement : bool
}.

Record data : Type := {
  sessionId : string;
  finalScore : number;
  rawScore : number;
  maxPossibleScore : number;
  totalQuestions : number;
  correctAnswers : number;
  incorrectAnswers : number;
  timeSpent : number;
  averageTimePerQuestion : number;
  newAchievements : list string;
  analysis : topicAnalysis;
  summary : performanceSummary;
  recommendation : string
}.

End CompleteQuiz.

Definition completeQuiz (user : option string) (sessionId : string)
    (activeSessions : gmap string QuizSession)
    : Response CompleteQuiz.data * gmap string QuizSession :=
  match truthyString user with
  | None => (unauthorized, activeSessions)
  | Some user =>
  match ownSession activeSessions sessionId user with
  | None => (sessionNotFound, activeSessions)
  | Some session =>
  let percentageScore := (rawScore session / maxPossibleScore session) * 100 in
  let correctAnswers := lengthOf (List.filter isCorrect (answers session)) in
  let totalTime :=
    foldl (fun sum a => sum + orElse (timeSpent a) 0) (ofZ 0) (answers session) in
  let topicAnalysis :=
    {| CompleteQuiz.topicId := topicId session;
       CompleteQuiz.accuracy := (correctAnswers / totalQuestions session) * 100;
       CompleteQuiz.averageTime := totalTime / totalQuestions session |} in
  (* achievements (mock) *)
  let newAchievements :=
    (if eqb percentageScore 100 then ["PERFECT_SCORE"%string] else [])
    ++ (if totalTime <? 300 then ["SPEED_MASTER"%string] else []) in
  (Success
     {| CompleteQuiz.sessionId := sessionId;
        CompleteQuiz.finalScore := percentageScore;
        CompleteQuiz.rawScore := rawScore session;
        CompleteQuiz.maxPossibleScore := maxPossibleScore session;
        CompleteQuiz.totalQuestions := totalQuestions session;
        CompleteQuiz.correctAnswers := correctAnswers;
        CompleteQuiz.incorrectAnswers := totalQuestions session - correctAnswers;
        CompleteQuiz.timeSpent := totalTime;
        CompleteQuiz.averageTimePerQuestion := totalTime / totalQuestions session;
        CompleteQuiz.newAchievements := newAchievements;
        CompleteQuiz.analysis := topicAnalysis;
        CompleteQuiz.summary :=
          {| CompleteQuiz.excellent := percentageScore >=? 90;
             CompleteQuiz.good := (percentageScore >=? 75) && (percentageScore <? 90);
             CompleteQuiz.needsImprovement := percentageScore <? 75 |};
        CompleteQuiz.recommendation :=
          if percentageScore >=? 80
          then "Magaling! Subukan ang mas mahirap na mga tanong. / Excellent! Try harder questions."
          else "Magpatuloy sa pag-aaral. / Keep practicing." |},
   (* clean up session *)
   delete sessionId activeSessions)
  end end.

(** *** getSessionStatus *)

Module SessionStatus.

Record data : Type := {
  sessionId : string;
  currentScore : number;
  questionsAnswered : number;
  totalQuestions : number;
  timeElapsed : number;
  currentDifficulty : number
}.

End SessionStatus.

(** [now] is the value of [Date.now()]. *)
Definition getSessionStatus (now : number) (user : option string)
    (sessionId : string) (activeSessions : gmap string QuizSession)
    : Response SessionStatus.data :=
  match truthyString user with
  | None => unauthorized
  | Some user =>
  match ownSession activeSessions sessionId user with
  | None => sessionNotFound
  | Some session =>
  let percentageScore := (rawScore session / maxPossibleScore session) * 100 in
  Success
    {| SessionStatus.sessionId := session_id session;
       SessionStatus.currentScore := percentageScore;
       SessionStatus.questionsAnswered := lengthOf (answers session);
       SessionStatus.totalQuestions := totalQuestions session;
       SessionStatus.timeElapsed := floor ((now - startedAt session) / 1000);
       SessionStatus.currentDifficulty := session_difficultyLevel session |}
  end end.

(** *** Mock data generator *)

Record TemplateOption : Type := {
  opt_tl : string;
  opt_en : string;
  correct : bool;
  partial : number
}.

Record Template : Type := {
  tl : string;
  en : string;
  template_options : list TemplateOption
}.

Definition filipinoQuestions : list Template :=
  [ {| tl := "Ano ang pangunahing layunin ng edukasyon?";
       en := "What is the main purpose of education?";
       template_options :=
         [ {| opt_tl := "Kumita ng pera"; opt_en := "To earn money";
              correct := false; partial := 25 |};
           {| opt_tl := "Paglinang ng kaalaman at kasanayan";
              opt_en := "To develop knowledge and skills";
              correct := true; partial := 100 |};
           {| opt_tl := "Makakuha ng diploma"; opt_en := "To get a diploma";
              correct := false; partial := 15 |};
           {| opt_tl := "Maging sikat"; opt_en := "To become famous";
              correct := false; partial := 0 |} ] |};
    {| tl := "Sino ang pambansang bayani ng Pilipinas?";
       en := "Who is the national hero of the Philippines?";
       template_options :=
         [ {| opt_tl := "Andres Bonifacio"; opt_en := "Andres Bonifacio";
              correct := false; partial := 40 |};
           {| opt_tl := "Jose Rizal"; opt_en := "Jose Rizal";
              correct := true; partial := 100 |};
           {| opt_tl := "Emilio Aguinaldo"; opt_en := "Emilio Aguinaldo";
              correct := false; partial := 30 |};
           {| opt_tl := "Apolinario Mabini"; opt_en := "Apolinario Mabini";
              correct := false; partial := 20 |} ] |};
    {| tl := "Ilang pulo ang nasa Pilipinas?";
       en := "How many islands are in the Philippines?";
       template_options :=
         [ {| opt_tl := "Mahigit 5,000"; opt_en := "More than 5,000";
              correct := false; partial := 25 |};
           {| opt_tl := "Mahigit 7,000"; opt_en := "More than 7,000";
              correct := true; partial := 100 |};
           {| opt_tl := "Mahigit 10,000"; opt_en := "More than 10,000";
              correct := false; partial := 0 |};
           {| opt_tl := "Mahigit 3,000"; opt_en := "More than 3,000";
              correct := false; partial := 0 |} ] |} ].

(** A template with nothing in it, standing for [undefined]; the index
    [i % filipinoQuestions.length] never reaches it. *)
Definition noTemplate : Template :=
  {| tl := ""; en := ""; template_options := [] |}.

(** [${i}] for a loop index: its decimal digits. *)
Definition indexToString (i : nat) : string := pretty i.

Section MockData.

(** [random i] is the value of the call of [Math.random()] made by the
    iteration [i] of the loop. *)
Variable random : nat -> number.

(** The question pushed by the iteration [i]. *)
Definition mockQuestion (topic : string) (baseDifficulty : number) (i : nat)
    : Question :=
  let template :=
    default noTemplate
      (filipinoQuestions !! (i mod length filipinoQuestions)%nat) in
  let difficultyVariation := floor (random i * 3) - 1 in  (* -1, 0, or 1 *)
  let difficulty := JS.max 1 (JS.min 5 (baseDifficulty + difficultyVariation)) in
  {| q_id := "q_" +:+ topic +:+ "_" +:+ indexToString i;
     points := difficulty;
     difficultyLevel := difficulty;
     options :=
       imap (fun idx opt =>
               {| opt_id := "opt_" +:+ indexToString i +:+ "_" +:+ indexToString idx;
                  opt_isCorrect := correct opt;
                  partialCreditPercentage := partial opt |})
            (template_options template) |}.

(** [for (let i = 0; i < count; i++)], from the iteration [i] on.  The loop
    runs as long as the fuel lasts; [None] means it was still running. *)
Fixpoint generateLoop (fuel : nat) (topic : string) (count baseDifficulty : number)
    (i : nat) (questions : list Question) : option (list Question) :=
  match fuel with
  | O => None
  | S fuel =>
      if ofZ (Z.of_nat i) <? count
      then generateLoop fuel topic count baseDifficulty (S i)
             (questions ++ [mockQuestion topic baseDifficulty i])
      else Some questions
  end.

Definition generateMockQuestions (fuel : nat) (topic : string)
    (count baseDifficulty : number) : option (list Question) :=
  generateLoop fuel topic count baseDifficulty 0 [].

End MockData.

(** *** startQuiz *)

Module StartQuiz.

Record body : Type := {
  topicId : option string;
  questionCount : option number;
  difficultyLevel : option number;
  scoringAlgorithm : option string
}.

(** A question as sent to the client: the options keep their id only. *)
Record question : Type := {
  id : string;
  points : number;
  level : number;
  options : list string
}.

Record data : Type := {
  sessionId : string;
  totalQuestions : number;
  algorithm : string;
  questions : list question;
  currentDifficulty : number
}.

End StartQuiz.

Definition sanitize (q : Question) : StartQuiz.question :=
  {| StartQuiz.id := q_id q;
     StartQuiz.points := points q;
     StartQuiz.level := difficultyLevel q;
     StartQuiz.options := map opt_id (options q) |}.

Section StartQuizHandler.

Variable random : nat -> number.
Variable sortRandomly : list Question -> list Question.

(** [newSessionId] is the value of [generateSessionId()], [now] that of
    [new Date()]; [fuel] bounds the generator's loop, and [None] means the
    loop was still running when it ran out. *)
Definition startQuiz (fuel : nat) (newSessionId : string) (now : number)
    (user : option string) (body : StartQuiz.body)
    (activeSessions : gmap string QuizSession)
    : option (Response StartQuiz.data * gmap string QuizSession) :=
  let questionCount := orDefault (StartQuiz.questionCount body) 20 in
  let difficultyLevel := orDefault (StartQuiz.difficultyLevel body) 3 in
  let scoringAlgorithm := orDefault (StartQuiz.scoringAlgorithm body) "standard"%string in
  match truthyString user with
  | None => Some (unauthorized, activeSessions)
  | Some user =>
  match truthyString (StartQuiz.topicId body) with
  | None =>
      Some (Failure 400 "Kailangan ang topicId / topicId is required", activeSessions)
  | Some topic =>
  let userPerformance := getUserPerformanceMetrics user topic in
  match generateMockQuestions random fuel topic questionCount difficultyLevel with
  | None => None
  | Some mockQuestions =>
  let selectedQuestions :=
    selectAdaptiveQuestions sortRandomly mockQuestions questionCount
      userPerformance difficultyLevel in
  let session :=
    {| session_id := newSessionId;
       userId := user;
       topicId := topic;
       questions := selectedQuestions;
       currentQuestionIndex := 0;
       totalQuestions := lengthOf selectedQuestions;
       rawScore := 0;
       maxPossibleScore :=
         foldl (fun sum q => sum + points q) (ofZ 0) selectedQuestions;
       scoringAlgorithm := scoringAlgorithm;
       session_difficultyLevel := difficultyLevel;
       startedAt := now;
       answers := [] |} in
  Some
    (Success
       {| StartQuiz.sessionId := newSessionId;
          StartQuiz.totalQuestions := lengthOf selectedQuestions;
          StartQuiz.algorithm := scoringAlgorithm;
          StartQuiz.questions := map sanitize selectedQuestions;
          StartQuiz.currentDifficulty := difficultyLevel |},
     <[newSessionId := session]> activeSessions)
  end end end.

End StartQuizHandler.

(** A session as the handlers keep it: no question answered twice, every
    answer given to a question of the session, and the two counters in step
    with the lists. *)
Definition consistentSession (session : QuizSession) : Prop :=
  NoDup (map questionId (answers session))
  /\ (forall a, a ∈ answers session ->
        questionId a ∈ map q_id (questions session))
  /\ totalQuestions session = lengthOf (questions session)
  /\ currentQuestionIndex session = lengthOf (answers session).

(** ** Further sample data *)

(** A plain correct answer to a ten-point question of difficulty 1. *)
Definition plainContext : ScoringContext :=
  {| question := sampleQuestion "q1" 1;
     answer := sampleAnswer "A" true None None;
     userPerformance := None |}.

(** [answer] with its [isCorrect] flag replaced. *)
Definition withIsCorrect (flag : bool) (a : Answer) : Answer :=
  {| questionId := questionId a; selectedOptionId := selectedOptionId a;
     isCorrect := flag; confidenceLevel := confidenceLevel a;
     timeSpent := timeSpent a |}.

(** The metrics of a user with a given accuracy and run of correct answers. *)
Definition performanceOf (accuracy run : number) : UserPerformanceMetrics :=
  {| recentAccuracy := accuracy; averageResponseTime := 15;
     consecutiveCorrect := run; consecutiveIncorrect := 0; currentStreak := 0 |}.

(** A fresh session of user ["u"] over the sample pool, and the map that
    holds it under ["s1"]. *)
Definition sampleSession : QuizSession :=
  {| session_id := "s1"; userId := "u"; topicId := "t";
     questions := samplePool;
     currentQuestionIndex := 0;
     totalQuestions := lengthOf samplePool;
     rawScore := 0;
     maxPossibleScore := 100;
     scoringAlgorithm := "standard";
     session_difficultyLevel := 3;
     startedAt := 0;
     answers := [] |}.

Definition sampleSessions : gmap string QuizSession :=
  {[ "s1"%string := sampleSession ]}.

(** The request of user ["u"] answering question ["c1"] with option ["A"]. *)
Definition sampleSubmission : SubmitAnswer.body :=
  {| SubmitAnswer.sessionId := "s1"; SubmitAnswer.questionId := "c1";
     SubmitAnswer.selectedOptionId := "A";
     SubmitAnswer.confidenceLevel := None; SubmitAnswer.timeSpent := None |}.

(** *** Sequences of requests *)

(** A request to one of the handlers that write [activeSessions], with what
    the handler takes from its environment. *)
Inductive Request : Type :=
| SubmitAnswerRequest (strategies : gmap string ScoringStrategy)
    (user : option string) (body : SubmitAnswer.body)
| CompleteQuizRequest (user : option string) (sessionId : string)
| StartQuizRequest (random : nat -> number)
    (sortRandomly : list Question -> list Question) (fuel : nat)
    (newSessionId : string) (now : number) (user : option string)
    (body : StartQuiz.body).

(** The sessions once [request] has been answered; [None] while the loop of
    [startQuiz] is still running. *)
Definition handle (request : Request) (activeSessions : gmap string QuizSession)
    : option (gmap string QuizSession) :=
  match request with
  | SubmitAnswerRequest strategies user body =>
      Some (submitAnswer strategies user body activeSessions).2
  | CompleteQuizRequest user sessionId =>
      Some (completeQuiz user sessionId activeSessions).2
  | StartQuizRequest random sortRandomly fuel newSessionId now user body =>
      snd <$> startQuiz random sortRandomly fuel newSessionId now user body
                activeSessions
  end.

(** The sessions after [requests], each taken up when the one before it has
    been answered. *)
Fixpoint handleAll (requests : list Request)
    (activeSessions : gmap string QuizSession)
    : option (gmap string QuizSession) :=
  match requests with
  | [] => Some activeSessions
  | request :: rest =>
      match handle request activeSessions with
      | Some after => handleAll rest after
      | None => None
      end
  end.

(** Whether [request] starts a quiz whose generated session id is
    [sessionId]. *)
Definition startsSession (sessionId : string) (request : Request) : bool :=
  match request with
  | StartQuizRequest _ _ _ newSessionId _ _ _ => String.eqb newSessionId sessionId
  | _ => false
  end.

(** The requests sent after [sampleSubmission] in the sample run: another
    question of the session answered, a completion attempted by somebody
    else, a quiz started by the same user. *)
Definition laterRequests : list Request :=
  [ SubmitAnswerRequest initialStrategies (Some "u"%string)
      {| SubmitAnswer.sessionId := "s1"; SubmitAnswer.questionId := "c2";
         SubmitAnswer.selectedOptionId := "B";
         SubmitAnswer.confidenceLevel := None; SubmitAnswer.timeSpent := None |};
    CompleteQuizRequest (Some "v"%string) "s1";
    StartQuizRequest (fun _ => ofFrac 1 2) (fun l => l) 10 "s2" 0
      (Some "u"%string)
      {| StartQuiz.topicId := Some "t"%string;
         StartQuiz.questionCount := Some (ofZ 5);
         StartQuiz.difficultyLevel := None;
         StartQuiz.scoringAlgorithm := None |} ].

(** The question [question] of the session [sessionId] is closed: the
    session is gone, or it holds an answer to the question. *)
Definition questionClosed (sessionId question : string)
    (activeSessions : gmap string QuizSession) : Prop :=
  match activeSessions !! sessionId with
  | Some session => question ∈ map questionId (answers session)
  | None => True
  end.

(** ** The scoring strategies on a store

    The strategies once more, this time as the statements of the source run:
    every object and array literal allocates a cell of a store, [push] and
    the spread [...] read and write cells, recursion into a wrapped strategy
    hands back the address of its result, and [Math.random()] is at hand as
    it is everywhere in the process.  A computation takes the world it
    starts in and returns [None] where the engine would throw a [TypeError]
    (a property read on something that is not there).

    Local [let] variables are values: they live on the stack of one call.
    The private fields of a strategy are the arguments of its constructor
    and are never assigned by a method, so the strategy stays a value as
    well.  Arrays that never leave a call ([results], [allMultipliers], the
    array given to [join]) are kept as lists. *)

Module Runtime.

(** A [ScoringResult] object; its [appliedMultipliers] is the address of a
    [string[]]. *)
Record ScoringResultObject : Type := {
  obj_pointsEarned : number;
  obj_pointsPossible : number;
  obj_percentage : number;
  obj_feedback : text;
  obj_appliedMultipliers : nat
}.

Inductive Cell : Type :=
| ArrayCell (items : list text)
| ResultCell (object : ScoringResultObject).

Record World : Type := {
  randomValues : nat -> number;  (* what the calls of [Math.random()] return, in order *)
  draws : nat;                   (* calls of [Math.random()] made so far *)
  heap : gmap nat Cell;
  allocated : nat                (* the next address handed out *)
}.

Definition M (A : Type) : Type := World -> option (A * World).

Definition ret {A : Type} (x : A) : M A := fun w => Some (x, w).

Definition bind {A B : Type} (m : M A) (k : A -> M B) : M B :=
  fun w =>
    match m w with
    | Some (x, w') => k x w'
    | None => None
    end.

Definition withHeap (h : gmap nat Cell) (next : nat) (w : World) : World :=
  {| randomValues := randomValues w; draws := draws w;
     heap := h; allocated := next |}.

(** [Math.random()] *)
Definition mathRandom : M number :=
  fun w =>
    Some (randomValues w (draws w),
          {| randomValues := randomValues w; draws := S (draws w);
             heap := heap w; allocated := allocated w |}).

Definition allocate (c : Cell) : M nat :=
  fun w =>
    Some (allocated w,
          withHeap (<[allocated w := c]> (heap w)) (S (allocated w)) w).

(** An array literal [[item, ...]]. *)
Definition newArray (items : list text) : M nat := allocate (ArrayCell items).

(** An object literal [{ pointsEarned, ... }]. *)
Definition newResult (object : ScoringResultObject) : M nat :=
  allocate (ResultCell object).

(** Reading the elements of [array], as [...array] and [flatMap] do. *)
Definition readArray (array : nat) : M (list text) :=
  fun w =>
    match heap w !! array with
    | Some (ArrayCell items) => Some (items, w)
    | _ => None
    end.

(** [array.push(item, ...)] *)
Definition push (array : nat) (more : list text) : M unit :=
  fun w =>
    match heap w !! array with
    | Some (ArrayCell items) =>
        Some (tt, withHeap (<[array := ArrayCell (items ++ more)]> (heap w))
                    (allocated w) w)
    | _ => None
    end.

(** Reading the properties of the object at [result]. *)
Definition readResult (result : nat) : M ScoringResultObject :=
  fun w =>
    match heap w !! result with
    | Some (ResultCell object) => Some (object, w)
    | _ => None
    end.

(** [array.map(f)], the calls of [f] made from left to right. *)
Definition mapM {A B : Type} (f : A -> M B) : list A -> M (list B) :=
  fix go (l : list A) : M (list B) :=
    match l with
    | [] => ret []
    | x :: rest =>
        bind (f x) (fun y => bind (go rest) (fun ys => ret (y :: ys)))
    end.

Declare Scope runtime_scope.
Delimit Scope runtime_scope with runtime.
Notation "'let*' x ':=' m 'in' k" := (bind m (fun x => k))
  (at level 10, x pattern, m at level 100, k at level 200) : runtime_scope.

Local Open Scope runtime_scope.

Definition StandardScoring_calculateScore (context : ScoringContext) : M nat :=
  let question := question context in
  let answer := answer context in
  let pointsEarned := if isCorrect answer then points question else 0 in
  let* multipliers := newArray [[Lit "standard"]] in
  newResult
    {| obj_pointsEarned := pointsEarned;
       obj_pointsPossible := points question;
       obj_percentage := (pointsEarned / points question) * 100;
       obj_feedback := formatFeedback (isCorrect answer) pointsEarned defaultLanguage;
       obj_appliedMultipliers := multipliers |}.

Definition NegativePenaltyScoring_calculateScore (penaltyPercentage : number)
    (context : ScoringContext) : M nat :=
  let question := question context in
  let answer := answer context in
  let pointsEarned :=
    if isCorrect answer
    then points question
    else - (points question * (penaltyPercentage / 100)) in
  let* multipliers :=
    newArray [[Lit "negative_penalty"]; [Str penaltyPercentage; Lit "%"]] in
  newResult
    {| obj_pointsEarned := pointsEarned;
       obj_pointsPossible := points question;
       obj_percentage :=
         if isCorrect answer then 100 else penaltyPercentage * (-1)%Z;
       obj_feedback := formatFeedback (isCorrect answer) pointsEarned defaultLanguage;
       obj_appliedMultipliers := multipliers |}.

Definition PartialCreditScoring_calculateScore (context : ScoringContext) : M nat :=
  let question := question context in
  let answer := answer context in
  match getSelectedOption question answer with
  | None =>
      let* multipliers := newArray [] in
      newResult
        {| obj_pointsEarned := 0;
           obj_pointsPossible := points question;
           obj_percentage := 0;
           obj_feedback := [Lit "Walang napiling sagot / No answer selected"];
           obj_appliedMultipliers := multipliers |}
  | Some selectedOption =>
      let '(pointsEarned, percentage) :=
        if opt_isCorrect selectedOption then
          (points question, ofZ 100)
        else if partialCreditPercentage selectedOption >? 0 then
          (points question * (partialCreditPercentage selectedOption / 100),
           partialCreditPercentage selectedOption)
        else
          (ofZ 0, ofZ 0) in
      let feedback :=
        if (percentage >? 0) && (percentage <? 100)
        then [Lit "Bahagyang tama! Nakakuha ka ng "; Str percentage;
              Lit "% ng puntos. / Partially correct! You earned "; Str percentage;
              Lit "% of the points."]
        else formatFeedback (isCorrect answer) pointsEarned defaultLanguage in
      let* multipliers :=
        newArray [[Lit "partial_credit"]; [Str percentage; Lit "%"]] in
      newResult
        {| obj_pointsEarned := pointsEarned;
           obj_pointsPossible := points question;
           obj_percentage := percentage;
           obj_feedback := feedback;
           obj_appliedMultipliers := multipliers |}
  end.

Definition ConfidenceBasedScoring_calculateScore
    (highConfidenceThreshold highConfidenceMultiplier basePenaltyPercentage : number)
    (context : ScoringContext) : M nat :=
  let question := question context in
  let answer := answer context in
  let confidence := orElse (confidenceLevel answer) 3 in
  let isHighConfidence := confidence >=? highConfidenceThreshold in
  let* multipliers := newArray [[Lit "confidence_based"]] in
  let* pointsEarned :=
    (if isCorrect answer then
       if isHighConfidence then
         let multiplier := highConfidenceMultiplier in
         let* _ := push multipliers
           [[Lit "high_confidence_bonus_"; Str multiplier; Lit "x"]] in
         ret (points question * highConfidenceMultiplier)
       else
         ret (points question)
     else
       let basePenalty := - (points question * (basePenaltyPercentage / 100)) in
       if isHighConfidence then
         let multiplier := highConfidenceMultiplier in
         let* _ := push multipliers
           [[Lit "high_confidence_penalty_"; Str multiplier; Lit "x"]] in
         ret (basePenalty * highConfidenceMultiplier)
       else
         let multiplier := ofFrac 1 2 in
         let* _ := push multipliers
           [[Lit "low_confidence_reduced_penalty_"; Str multiplier; Lit "x"]] in
         ret (basePenalty * ofFrac 1 2)) in
  let percentage := (pointsEarned / points question) * 100 in
  let confidenceFeedback :=
    if isHighConfidence
    then [Lit " (Mataas na kumpiyansa / High confidence)"]
    else [Lit " (Mababang kumpiyansa / Low confidence)"] in
  newResult
    {| obj_pointsEarned := pointsEarned;
       obj_pointsPossible :=
         points question *
         (if isHighConfidence && isCorrect answer then highConfidenceMultiplier else 1);
       obj_percentage := JS.min 100 (JS.max (-100)%Z percentage);
       obj_feedback :=
         formatFeedback (isCorrect answer) pointsEarned defaultLanguage
         ++ confidenceFeedback;
       obj_appliedMultipliers := multipliers |}.

(** [ThresholdScoring.calculateScore] from the address of the wrapped
    strategy's result on. *)
Definition ThresholdScoring_apply (minimumThreshold : number) (baseResult : nat)
    : M nat :=
  let* base := readResult baseResult in
  if obj_percentage base <? minimumThreshold then
    let* baseMultipliers := readArray (obj_appliedMultipliers base) in
    let* multipliers :=
      newArray (baseMultipliers ++ [[Lit "threshold_"; Str minimumThreshold; Lit "%"]]) in
    newResult
      {| obj_pointsEarned := 0;
         obj_pointsPossible := obj_pointsPossible base;
         obj_percentage := 0;
         obj_feedback :=
           obj_feedback base ++
           [Lit " (Mas mababa sa minimum threshold / Below minimum threshold)"];
         obj_appliedMultipliers := multipliers |}
  else
    let* baseMultipliers := readArray (obj_appliedMultipliers base) in
    let* multipliers := newArray (baseMultipliers ++ [[Lit "threshold_passed"]]) in
    newResult
      {| obj_pointsEarned := obj_pointsEarned base;
         obj_pointsPossible := obj_pointsPossible base;
         obj_percentage := obj_percentage base;
         obj_feedback := obj_feedback base;
         obj_appliedMultipliers := multipliers |}.

Definition TimeBasedScoring_calculateScore
    (fastThresholdSeconds slowThresholdSeconds maxSpeedBonus : number)
    (context : ScoringContext) : M nat :=
  let question := question context in
  let answer := answer context in
  let timeSpent := orElse (timeSpent answer) slowThresholdSeconds in
  let pointsEarned0 := if isCorrect answer then points question else 0 in
  let* multipliers := newArray [[Lit "time_based"]] in
  let* (pointsEarned, speedBonus) :=
    (if isCorrect answer && (timeSpent <=? fastThresholdSeconds) then
       let speedBonus := points question * maxSpeedBonus in
       let* _ := push multipliers
         [[Lit "speed_bonus_"; Str (maxSpeedBonus * 100); Lit "%"]] in
       ret (pointsEarned0 + speedBonus, speedBonus)
     else if isCorrect answer && (timeSpent <? slowThresholdSeconds) then
       let speedRatio :=
         1 - ((timeSpent - fastThresholdSeconds)
              / (slowThresholdSeconds - fastThresholdSeconds)) in
       let speedBonus := points question * maxSpeedBonus * speedRatio in
       let* _ := push multipliers
         [[Lit "speed_bonus_"; Fixed (speedBonus / points question * 100) 0;
           Lit "%"]] in
       ret (pointsEarned0 + speedBonus, speedBonus)
     else
       ret (pointsEarned0, ofZ 0)) in
  let percentage := (pointsEarned / points question) * 100 in
  let timeFeedback :=
    if speedBonus >? 0
    then [Lit " (Mabilis na sagot! Bonus: +"; Fixed speedBonus 1;
          Lit " / Fast answer! Bonus: +"; Fixed speedBonus 1; Lit ")"]
    else [] in
  newResult
    {| obj_pointsEarned := pointsEarned;
       obj_pointsPossible := points question * (1 + maxSpeedBonus);
       obj_percentage := JS.min (100 + (maxSpeedBonus * 100)) percentage;
       obj_feedback :=
         formatFeedback (isCorrect answer) pointsEarned defaultLanguage
         ++ timeFeedback;
       obj_appliedMultipliers := multipliers |}.

Definition AdaptiveDifficultyScoring_calculateScore (context : ScoringContext)
    : M nat :=
  let question := question context in
  let answer := answer context in
  let difficultyMultiplier := difficultyMultiplier question in
  let performanceMultiplier := performanceMultiplier (userPerformance context) in
  let adjustedPoints := points question * difficultyMultiplier in
  let pointsEarned :=
    if isCorrect answer then adjustedPoints * performanceMultiplier else 0 in
  let percentage : number := if isCorrect answer then 100 else 0 in
  let* multipliers :=
    newArray
      [[Lit "adaptive_difficulty"];
       [Lit "difficulty_"; Fixed difficultyMultiplier 2; Lit "x"];
       [Lit "performance_"; Fixed performanceMultiplier 2; Lit "x"]] in
  let difficultyFeedback :=
    if difficultyLevel question >=? 4
    then [Lit " (Mahirap na tanong! / Difficult question!)"]
    else if difficultyLevel question <=? 2
    then [Lit " (Madaling tanong / Easy question)"]
    else [] in
  newResult
    {| obj_pointsEarned := pointsEarned;
       obj_pointsPossible := adjustedPoints;
       obj_percentage := percentage;
       obj_feedback :=
         formatFeedback (isCorrect answer) pointsEarned defaultLanguage
         ++ difficultyFeedback;
       obj_appliedMultipliers := multipliers |}.

Definition ComboStreakScoring_calculateScore
    (streakBonusPerCorrect maxStreakMultiplier : number)
    (context : ScoringContext) : M nat :=
  let question := question context in
  let answer := answer context in
  let consecutiveCorrect :=
    orElse (consecutiveCorrect <$> userPerformance context) 0 in
  let streakMultiplier :=
    JS.min maxStreakMultiplier (1 + (consecutiveCorrect * streakBonusPerCorrect)) in
  let* multipliers := newArray [[Lit "combo_streak"]] in
  let* pointsEarned :=
    (if isCorrect answer then
       let* _ :=
         (if consecutiveCorrect >? 0
          then push multipliers
                 [[Lit "streak_"; Str consecutiveCorrect];
                  [Lit "multiplier_"; Fixed streakMultiplier 2; Lit "x"]]
          else ret tt) in
       ret (points question * streakMultiplier)
     else
       ret (ofZ 0)) in
  let percentage : number := if isCorrect answer then 100 else 0 in
  let streakFeedback :=
    if (consecutiveCorrect >=? 3) && isCorrect answer
    then [Lit " (Combo x"; Str (consecutiveCorrect + 1); Lit "! Multiplier: ";
          Fixed streakMultiplier 2; Lit "x)"]
    else if (consecutiveCorrect >? 0) && negb (isCorrect answer)
    then [Lit " (Combo broken / Naputol ang combo)"]
    else [] in
  newResult
    {| obj_pointsEarned := pointsEarned;
       obj_pointsPossible := points question * streakMultiplier;
       obj_percentage := percentage;
       obj_feedback :=
         formatFeedback (isCorrect answer) pointsEarned defaultLanguage
         ++ streakFeedback;
       obj_appliedMultipliers := multipliers |}.

(** [CompositeScoring.calculateScore] from the addresses of the inner
    strategies' results on.  Nothing is written between the passes that
    [reduce], [flatMap] and [map] make over [results], so the objects are
    read once. *)
Definition CompositeScoring_aggregate (results : list nat) : M nat :=
  let* objects := mapM readResult results in
  let totalPointsEarned :=
    foldl (fun sum result => sum + obj_pointsEarned result) (ofZ 0) objects in
  let totalPointsPossible :=
    foldl (fun sum result => sum + obj_pointsPossible result) (ofZ 0) objects in
  let* arrays := mapM (fun result => readArray (obj_appliedMultipliers result)) objects in
  let allMultipliers := concat arrays in
  let combinedFeedback := join [Lit " | "] (map obj_feedback objects) in
  let* multipliers := newArray ([Lit "composite"] :: allMultipliers) in
  newResult
    {| obj_pointsEarned := totalPointsEarned;
       obj_pointsPossible := totalPointsPossible;
       obj_percentage := (totalPointsEarned / totalPointsPossible) * 100;
       obj_feedback := combinedFeedback;
       obj_appliedMultipliers := multipliers |}.

(** Dynamic dispatch of [strategy.calculateScore(context)]; the value is the
    address of the result. *)
Fixpoint calculateScore (strategy : ScoringStrategy) (context : ScoringContext)
    : M nat :=
  match strategy with
  | StandardScoring => StandardScoring_calculateScore context
  | NegativePenaltyScoring p => NegativePenaltyScoring_calculateScore p context
  | PartialCreditScoring => PartialCreditScoring_calculateScore context
  | ConfidenceBasedScoring t m p => ConfidenceBasedScoring_calculateScore t m p context
  | ThresholdScoring minimumThreshold baseStrategy =>
      let* baseResult := calculateScore baseStrategy context in
      ThresholdScoring_apply minimumThreshold baseResult
  | TimeBasedScoring f s b => TimeBasedScoring_calculateScore f s b context
  | AdaptiveDifficultyScoring => AdaptiveDifficultyScoring_calculateScore context
  | ComboStreakScoring b m => ComboStreakScoring_calculateScore b m context
  | CompositeScoring strategies =>
      let* results := mapM (fun strategy => calculateScore strategy context) strategies in
      CompositeScoring_aggregate results
  end.

(** [Math.floor(Math.random() * 3) - 1], the first statement of the loop of
    [generateMockQuestions]: a computation that does draw. *)
Definition difficultyVariation : M number :=
  let* r := mathRandom in
  ret (floor (r * 3) - 1).

(** What a caller reads off the object at [result]: its fields, and the
    elements of its array. *)
Definition observe (w : World) (result : nat) : option ScoringResult :=
  match heap w !! result with
  | Some (ResultCell object) =>
      match heap w !! obj_appliedMultipliers object with
      | Some (ArrayCell items) =>
          Some {| pointsEarned := obj_pointsEarned object;
                  pointsPossible := obj_pointsPossible object;
                  percentage := obj_percentage object;
                  feedback := obj_feedback object;
                  appliedMultipliers := items |}
      | _ => None
      end
  | _ => None
  end.

(** A world with nothing allocated, in which [Math.random()] always returns
    [r]. *)
Definition emptyWorld (r : number) : World :=
  {| randomValues := fun _ => r; draws := 0; heap := ∅; allocated := 0 |}.

(** The call [m], started in [w], returns the address of a new object that
    reads as [r]; the object and its array are cells allocated by the call,
    no random number is drawn, and no cell that was there is written. *)
Definition returns (m : M nat) (w : World) (r : ScoringResult) : Prop :=
  exists result w' object,
    m w = Some (result, w')
    /\ observe w' result = Some r
    /\ heap w' !! result = Some (ResultCell object)
    /\ (allocated w <= result < allocated w')%nat
    /\ (allocated w <= obj_appliedMultipliers object < allocated w')%nat
    /\ randomValues w' = randomValues w
    /\ draws w' = draws w
    /\ forall a, (a < allocated w)%nat -> heap w' !! a = heap w !! a.

(** The object at [result] and its array sit below [bound] and read as [r]. *)
Definition readsBelow (w : World) (bound : nat) (result : nat)
    (r : ScoringResult) : Prop :=
  exists object,
    heap w !! result = Some (ResultCell object)
    /\ heap w !! obj_appliedMultipliers object
       = Some (ArrayCell (appliedMultipliers r))
    /\ (result < bound)%nat
    /\ (obj_appliedMultipliers object < bound)%nat
    /\ obj_pointsEarned object = pointsEarned r
    /\ obj_pointsPossible object = pointsPossible r
    /\ obj_percentage object = percentage r
    /\ obj_feedback object = feedback r.

End Runtime.

(** * Properties *)

(** ** Numbers *)

Section NumberFacts.

Implicit Types (x y : number) (a b : Qc).

Lemma ofZ_0 : ofZ 0 = Num 0%Qc.
Proof. unfold ofZ. by rewrite Z2Qc_inj_0. Qed.

Lemma ofZ_1 : ofZ 1 = Num 1%Qc.
Proof. unfold ofZ. by rewrite Z2Qc_inj_1. Qed.

Lemma add_0_l x : (0 + x)%js = x.
Proof. rewrite ofZ_0. destruct x; simpl; try done. by rewrite Qcplus_0_l. Qed.

Lemma mul_1_r x : (x * 1)%js = x.
Proof.
  rewrite ofZ_1. destruct x; simpl; try done.
  by rewrite Qcmult_1_r.
Qed.

Lemma ltb_Num a b : (Num a <? Num b)%js = true <-> (a < b)%Qc.
Proof. unfold ltb. rewrite Qclt_alt. destruct (a ?= b)%Qc; split; congruence. Qed.

Lemma leb_Num a b : (Num a <=? Num b)%js = true <-> (a <= b)%Qc.
Proof. unfold leb. rewrite Qcle_alt. destruct (a ?= b)%Qc; split; congruence. Qed.

Lemma leb_ofZ (n m : Z) : (ofZ n <=? ofZ m)%js = true <-> (n <= m)%Z.
Proof. unfold ofZ. by rewrite leb_Num, <- Z2Qc_inj_le. Qed.

Lemma ltb_ofZ (n m : Z) : (ofZ n <? ofZ m)%js = true <-> (n < m)%Z.
Proof. unfold ofZ. by rewrite ltb_Num, <- Z2Qc_inj_lt. Qed.

Lemma ofZ_inj (n m : Z) : ofZ n = ofZ m -> n = m.
Proof. unfold ofZ. intros H. apply Z2Qc_inj. congruence. Qed.

(** A comparison that holds excludes [NaN] on both sides and is irreflexive
    or antisymmetric as on the rationals. *)
Lemma ltb_leb_false x y : (x <? y)%js = true -> (y <=? x)%js = false.
Proof.
  destruct x as [a| | |], y as [b| | |]; try done.
  rewrite ltb_Num. intros Hab. apply not_true_is_false.
  rewrite leb_Num. by apply Qclt_not_le.
Qed.

Lemma ltb_trans x y z : (x <? y)%js = true -> (y <? z)%js = true -> (x <? z)%js = true.
Proof.
  destruct x as [a| | |], y as [b| | |], z as [c| | |]; try done.
  rewrite !ltb_Num. apply Qclt_trans.
Qed.

Lemma ltb_irrefl x : (x <? x)%js = false.
Proof.
  destruct x as [a| | |]; try done.
  apply not_true_is_false. rewrite ltb_Num. intros H. by apply Qclt_not_eq in H.
Qed.

End NumberFacts.

(** Closed equations and disequations between finite numbers are settled on
    the underlying fractions. *)
Lemma eqb_eq (x y : number) : eqb x y = true -> x = y.
Proof.
  destruct x as [a| | |], y as [b| | |]; try done.
  intros H%Qeq_bool_iff. f_equal. by apply Qc_is_canon.
Qed.

Lemma eqb_neq (x y : number) : eqb x y = false -> x <> NaN -> x <> y.
Proof.
  destruct x as [a| | |], y as [b| | |]; try done.
  intros H _ Heq. assert (a = b) as -> by congruence.
  unfold eqb in H. by rewrite Qeq_bool_refl in H.
Qed.

Ltac num_eq := apply eqb_eq; vm_compute; reflexivity.
Ltac num_ne := apply eqb_neq; [vm_compute; reflexivity | vm_compute; discriminate].

(** ** Time-based scoring *)

Fact slow_above_fast : (ofZ 60 <=? ofZ 10)%js = false.
Proof. reflexivity. Qed.

Fact slow_not_below_slow : (ofZ 60 <? ofZ 60)%js = false.
Proof. reflexivity. Qed.

(** The elapsed time the strategy works with once [||] has been applied. *)
Lemma orElse_zero (d : number) : orElse (Some (ofZ 0)) d = d.
Proof. reflexivity. Qed.

Lemma TimeBased_slow_correct (context : ScoringContext) (t : option number) :
  isCorrect (answer context) = true ->
  timeSpent (answer context) = t ->
  orElse t 60 = 60 ->
  pointsEarned (calculateScore TimeBasedScoring_default context)
  = points (question context).
Proof.
  intros Hc Ht Hslow. cbn [calculateScore TimeBasedScoring_default].
  unfold TimeBasedScoring_calculateScore.
  rewrite Ht, Hslow, Hc, slow_above_fast, slow_not_below_slow. reflexivity.
Qed.

(** The full bonus: [points + points * 0.5] is [points * 1.5]. *)
Lemma full_bonus (x : number) : (x + x * ofFrac 1 2)%js = (x * ofFrac 3 2)%js.
Proof.
  destruct x as [p| | |]; try reflexivity.
  unfold ofFrac, mul, add. f_equal. apply Qc_is_canon.
  unfold Qcplus, Qcmult, Q2Qc. cbn [this]. rewrite !Qred_correct. ring.
Qed.

(** A correct answer whose time is not swallowed by [||] and is at most the
    fast threshold earns the full bonus. *)
Lemma TimeBased_fast_correct (context : ScoringContext) (t : number) :
  isCorrect (answer context) = true ->
  timeSpent (answer context) = Some t ->
  truthy t = true ->
  (t <=? 10)%js = true ->
  pointsEarned (calculateScore TimeBasedScoring_default context)
  = (points (question context) * ofFrac 3 2)%js.
Proof.
  intros Hc Ht Htruthy Hfast. cbn [calculateScore TimeBasedScoring_default].
  unfold TimeBasedScoring_calculateScore.
  rewrite Ht, Hc. unfold orElse. rewrite Htruthy, Hfast.
  cbn [andb pointsEarned]. apply full_bonus.
Qed.

(** C1.  With the default parameters a correct answer submitted with
    [timeSpent = 0] is scored as if it had taken the slow threshold: on the
    ten-point sample question it earns 10 points, not the 15 points
    ([points * 1.5]) of the full speed bonus. *)
Theorem TimeBased_instant_answer_earns_no_bonus :
  let context := sampleContext (sampleAnswer "A" true None (Some (ofZ 0))) in
  let result := calculateScore TimeBasedScoring_default context in
  pointsEarned result = 10
  /\ (points (question context) * ofFrac 3 2)%js = 15
  /\ pointsEarned result <> (points (question context) * ofFrac 3 2)%js.
Proof.
  cbv zeta. split; [|split].
  - num_eq.
  - num_eq.
  - num_ne.
Qed.

(** A correct answer at the slow threshold itself earns the bare points. *)
Lemma TimeBased_at_slow_threshold (context : ScoringContext) :
  isCorrect (answer context) = true ->
  timeSpent (answer context) = Some (ofZ 60) ->
  pointsEarned (calculateScore TimeBasedScoring_default context)
  = points (question context).
Proof. intros Hc Ht. by apply (TimeBased_slow_correct context (Some (ofZ 60))). Qed.

(** C10.  An answer without [timeSpent] is scored exactly as one with
    [timeSpent = 60]; when it is correct it earns [question.points], and
    [pointsPossible] is [points * (1 + 0.5)]. *)
Theorem TimeBased_absent_time_is_slow (context : ScoringContext) :
  timeSpent (answer context) = None ->
  calculateScore TimeBasedScoring_default context
  = calculateScore TimeBasedScoring_default
      (withAnswer (withTimeSpent (Some (ofZ 60)) (answer context)) context)
  /\ (isCorrect (answer context) = true ->
      pointsEarned (calculateScore TimeBasedScoring_default context)
      = points (question context))
  /\ pointsPossible (calculateScore TimeBasedScoring_default context)
     = (points (question context) * (1 + ofFrac 1 2))%js.
Proof.
  intros Ht. split; [|split].
  - cbn [calculateScore TimeBasedScoring_default].
    unfold TimeBasedScoring_calculateScore. cbn [withAnswer withTimeSpent answer
      question timeSpent isCorrect]. rewrite Ht. reflexivity.
  - intros Hc. by apply (TimeBased_slow_correct context None).
  - cbn [calculateScore TimeBasedScoring_default].
    unfold TimeBasedScoring_calculateScore.
    by repeat case_match.
Qed.

Lemma TimeBased_absent_time_is_slow_witness :
  let context := sampleContext (sampleAnswer "A" true None None) in
  pointsEarned (calculateScore TimeBasedScoring_default context) = 10
  /\ pointsPossible (calculateScore TimeBasedScoring_default context)
     = (10 * (1 + ofFrac 1 2))%js.
Proof.
  intros context.
  destruct (TimeBased_absent_time_is_slow context eq_refl) as (_ & He & Hp).
  split; [exact (He eq_refl) | exact Hp].
Defined.

(** ** Partial credit: the unresolved option *)

Lemma getSelectedOption_unmatched (q : Question) (a : Answer) :
  Forall (fun opt => opt_id opt <> selectedOptionId a) (options q) ->
  getSelectedOption q a = None.
Proof.
  unfold getSelectedOption. induction 1 as [|opt opts Hne _ IH]; [done|].
  simpl. by apply String.eqb_neq in Hne as ->.
Qed.

(** C7, as the code has it.  When the selected option id matches none of the
    question's options, [PartialCreditScoring] returns 0 points earned and 0
    percent, with the "no answer selected" feedback and an empty trace of
    modifiers; [pointsPossible] stays [question.points]. *)
Theorem PartialCredit_no_answer (context : ScoringContext) :
  Forall (fun opt => opt_id opt <> selectedOptionId (answer context))
         (options (question context)) ->
  let result := calculateScore PartialCreditScoring context in
  pointsEarned result = 0
  /\ percentage result = 0
  /\ feedback result = [Lit "Walang napiling sagot / No answer selected"]
  /\ appliedMultipliers result = []
  /\ pointsPossible result = points (question context).
Proof.
  intros Hnone%getSelectedOption_unmatched. simpl.
  unfold PartialCreditScoring_calculateScore. by rewrite Hnone.
Qed.

Lemma PartialCredit_no_answer_witness :
  let result :=
    calculateScore PartialCreditScoring
      (sampleContext (sampleAnswer "Z" false None None)) in
  pointsEarned result = 0
  /\ percentage result = 0
  /\ feedback result = [Lit "Walang napiling sagot / No answer selected"]
  /\ appliedMultipliers result = []
  /\ pointsPossible result = 10.
Proof.
  apply (PartialCredit_no_answer (sampleContext (sampleAnswer "Z" false None None))).
  repeat constructor; discriminate.
Defined.

(** C7 as stated fails: [pointsPossible] of the "no answer" result of the
    ten-point sample question is 10, not 0. *)
Lemma PartialCredit_no_answer_possible_nonzero :
  let context := sampleContext (sampleAnswer "Z" false None None) in
  Forall (fun opt => opt_id opt <> selectedOptionId (answer context))
         (options (question context))
  /\ pointsPossible (calculateScore PartialCreditScoring context) = 10
  /\ pointsPossible (calculateScore PartialCreditScoring context) <> 0.
Proof.
  cbv zeta. split; [|split].
  - repeat constructor; discriminate.
  - reflexivity.
  - num_ne.
Qed.

(** ** Composite scoring *)

(** C8, as the code has it.  A composite of the single strategy
    [StandardScoring] reports the same points earned, points possible,
    percentage and feedback as [StandardScoring] alone; its trace of modifiers
    is that of [StandardScoring] with the tag ["composite"] in front. *)
Theorem Composite_of_Standard (context : ScoringContext) :
  let composite := calculateScore (CompositeScoring [StandardScoring]) context in
  let standard := calculateScore StandardScoring context in
  pointsEarned composite = pointsEarned standard
  /\ pointsPossible composite = pointsPossible standard
  /\ percentage composite = percentage standard
  /\ feedback composite = feedback standard
  /\ appliedMultipliers composite = [Lit "composite"] :: appliedMultipliers standard.
Proof.
  cbn [calculateScore map]. unfold CompositeScoring_aggregate.
  cbn [foldl flat_map map join app pointsEarned pointsPossible percentage
       feedback appliedMultipliers StandardScoring_calculateScore].
  rewrite !add_0_l. done.
Qed.

(** C8 as stated fails: the two results differ in their trace of modifiers. *)
Lemma Composite_of_Standard_differs :
  let context := sampleContext (sampleAnswer "A" true None None) in
  appliedMultipliers (calculateScore (CompositeScoring [StandardScoring]) context)
  = [[Lit "composite"]; [Lit "standard"]]
  /\ appliedMultipliers (calculateScore StandardScoring context) = [[Lit "standard"]]
  /\ calculateScore (CompositeScoring [StandardScoring]) context
     <> calculateScore StandardScoring context.
Proof.
  cbv zeta. split; [reflexivity | split; [reflexivity|]].
  intros H. apply (f_equal appliedMultipliers) in H. discriminate H.
Qed.

Lemma foldl_add_zero {A : Type} (f : A -> number) (l : list A) :
  Forall (fun r => f r = 0) l ->
  foldl (fun sum r => (sum + f r)%js) (ofZ 0) l = 0.
Proof.
  induction 1 as [|r l Hr _ IH]; [done|].
  cbn [foldl]. by rewrite Hr, add_0_l.
Qed.

(** The unguarded quotient by a zero denominator. *)
Lemma percentage_of_zero_possible (earned : number) :
  (earned / 0 * 100)%js
  = match sign earned with Eq => NaN | Gt => Infinity | Lt => NegInfinity end.
Proof.
  destruct earned as [e| | |]; try reflexivity.
  unfold div, ofZ. rewrite Z2Qc_inj_0. rewrite decide_True by done.
  unfold sign. by destruct (e ?= 0)%Qc.
Qed.

(** C2, as the code has it.  When every inner strategy reports
    [pointsPossible = 0], the composite reports [pointsPossible = 0] and its
    percentage is the quotient [totalEarned / 0 * 100] as JavaScript computes
    it: [NaN] when the points earned sum to zero (or to [NaN]), [Infinity]
    when they are positive, [-Infinity] when they are negative.  It is never
    0: the division is not guarded. *)
Theorem Composite_zero_possible (context : ScoringContext)
    (strategies : list ScoringStrategy) :
  Forall (fun s => pointsPossible (calculateScore s context) = 0) strategies ->
  let result := calculateScore (CompositeScoring strategies) context in
  pointsPossible result = 0
  /\ percentage result
     = match sign (pointsEarned result) with
       | Eq => NaN | Gt => Infinity | Lt => NegInfinity
       end
  /\ percentage result <> 0.
Proof.
  intros Hzero. cbn [calculateScore]. unfold CompositeScoring_aggregate.
  cbn [pointsEarned pointsPossible percentage].
  assert (foldl (fun sum r => (sum + pointsPossible r)%js) (ofZ 0)
            (map (fun s => calculateScore s context) strategies) = 0) as ->.
  { apply foldl_add_zero. by rewrite Forall_map. }
  split; [done|]. rewrite percentage_of_zero_possible.
  split; [done|]. by case_match.
Qed.

Lemma Composite_zero_possible_witness :
  let result :=
    calculateScore (CompositeScoring [StandardScoring; TimeBasedScoring_default])
      zeroPointContext in
  pointsPossible result = 0 /\ percentage result = NaN.
Proof.
  destruct (Composite_zero_possible zeroPointContext
              [StandardScoring; TimeBasedScoring_default]) as (Hp & Hq & _).
  - repeat constructor; num_eq.
  - split; [exact Hp | exact Hq].
Defined.

(** C2 as stated fails: a composite of no strategies, and a composite over a
    question worth no points, both report the percentage [NaN]. *)
Lemma Composite_zero_possible_is_NaN :
  percentage (calculateScore (CompositeScoring [])
                (sampleContext (sampleAnswer "A" true None None))) = NaN
  /\ Forall (fun s => pointsPossible (calculateScore s zeroPointContext) = 0)
       [StandardScoring; TimeBasedScoring_default]
  /\ percentage (calculateScore
                   (CompositeScoring [StandardScoring; TimeBasedScoring_default])
                   zeroPointContext) = NaN
  /\ NaN <> ofZ 0.
Proof.
  split; [reflexivity|]. split; [repeat constructor; num_eq|].
  split; [reflexivity | discriminate].
Qed.

(** ** Confidence-based scoring *)

Section ConfidenceBased.

Implicit Types (x c : number) (p : Qc).

Lemma finite_ofZ (n : Z) : finite (ofZ n).
Proof. by eexists. Qed.

Lemma finite_ofFrac (n : Z) (d : positive) : finite (ofFrac n d).
Proof. by eexists. Qed.

Lemma finite_neg x : finite x -> finite (- x)%js.
Proof. intros [a ->]. by eexists. Qed.

Lemma finite_mul x y : finite x -> finite y -> finite (x * y)%js.
Proof. intros [a ->] [b ->]. by eexists. Qed.

Lemma finite_div x p : finite x -> p <> 0%Qc -> finite (x / Num p)%js.
Proof. intros [a ->] Hp. unfold div. rewrite decide_False by done. by eexists. Qed.

Lemma ofZ_nonzero (n : Z) : n <> 0%Z -> Qc_of_Z n <> 0%Qc.
Proof. rewrite <- Z2Qc_inj_0. intros Hn H. by apply Hn, Z2Qc_inj. Qed.

Lemma leb_total_Num (a b : Qc) :
  (Num a <=? Num b)%js = false -> (Num b <=? Num a)%js = true.
Proof.
  intros H. apply leb_Num. apply Qclt_le_weak, Qcnot_le_lt.
  intros Hab. apply leb_Num in Hab. congruence.
Qed.

(** [Math.min(100, Math.max(-100, x))] lies in [-100, 100] unless [x] is
    [NaN]. *)
Lemma clamp_range x :
  x <> NaN ->
  ((-100)%Z <=? JS.min 100 (JS.max (-100)%Z x))%js = true
  /\ (JS.min 100 (JS.max (-100)%Z x) <=? 100)%js = true.
Proof.
  intros Hx. destruct x as [a| | |]; [|done|done|done].
  unfold JS.max, ofZ.
  destruct (Num (Qc_of_Z (-100)) <=? Num a)%js eqn:Hlo; unfold JS.min.
  - destruct (Num (Qc_of_Z 100) <=? Num a)%js eqn:Hhi.
    + done.
    + split; [done|]. by apply leb_total_Num.
  - done.
Qed.

(** The penalty [points * (25 / 100)] of the code is [points * 25 / 100]. *)
Lemma base_penalty_fraction x : (x * (25 / 100))%js = (x * 25 / 100)%js.
Proof.
  assert (Qc_of_Z 100 <> 0%Qc) as H100 by by apply ofZ_nonzero.
  assert ((25 / 100)%js = Num (Qc_of_Z 25 / Qc_of_Z 100)%Qc) as ->.
  { unfold div, ofZ. by rewrite decide_False. }
  destruct x as [a| | |]; try done.
  unfold mul, div, ofZ. rewrite decide_False by done.
  f_equal. unfold Qcdiv. by rewrite Qcmult_assoc.
Qed.

(** The confidence the strategy works with, [confidenceLevel || 3], is high
    exactly when a supplied level is at least 4. *)
Lemma high_confidence c :
  (c >=? 4)%js = true -> (orElse (Some c) 3 >=? 4)%js = true.
Proof.
  intros Hc. unfold orElse.
  destruct c as [a| | |]; try done.
  unfold truthy. destruct (decide (a = 0%Qc)) as [->|]; [|done].
  by vm_compute in Hc.
Qed.

Lemma low_confidence c :
  (c <? 4)%js = true -> (orElse (Some c) 3 >=? 4)%js = false.
Proof.
  intros Hc. unfold orElse. destruct (truthy c); [|done].
  by apply ltb_leb_false.
Qed.

End ConfidenceBased.

Ltac unfold_confidence :=
  cbn [calculateScore ConfidenceBasedScoring_default];
  unfold ConfidenceBasedScoring_calculateScore.

(** C5.  With the defaults (threshold 4, multiplier 2, base penalty 25%):
    an absent confidence is scored as confidence 3; a correct answer with
    confidence at least 4 earns [points * 2] out of [points * 2]; a correct
    answer with confidence below 4 earns [points] out of [points]; an
    incorrect answer earns [-(points * 25 / 100) * 2] with confidence at
    least 4 and [-(points * 25 / 100) * 0.5] below 4; and the percentage lies
    in [-100, 100] for a question whose points are a non-zero finite number. *)
Theorem ConfidenceBased_default_contract (context : ScoringContext) :
  let q := question context in
  let a := answer context in
  let result := calculateScore ConfidenceBasedScoring_default context in
  (confidenceLevel a = None ->
   result = calculateScore ConfidenceBasedScoring_default
              (withAnswer (withConfidence (Some (ofZ 3)) a) context))
  /\ (forall c, confidenceLevel a = Some c -> isCorrect a = true ->
        (c >=? 4)%js = true ->
        pointsEarned result = (points q * 2)%js
        /\ pointsPossible result = (points q * 2)%js)
  /\ (forall c, confidenceLevel a = Some c -> isCorrect a = true ->
        (c <? 4)%js = true ->
        pointsEarned result = points q /\ pointsPossible result = points q)
  /\ (forall c, confidenceLevel a = Some c -> isCorrect a = false ->
        (c >=? 4)%js = true ->
        pointsEarned result = (- (points q * 25 / 100) * 2)%js)
  /\ (forall c, confidenceLevel a = Some c -> isCorrect a = false ->
        (c <? 4)%js = true ->
        pointsEarned result = (- (points q * 25 / 100) * ofFrac 1 2)%js)
  /\ (forall p, points q = Num p -> p <> 0%Qc ->
        ((-100)%Z <=? percentage result)%js = true
        /\ (percentage result <=? 100)%js = true).
Proof.
  cbv zeta. repeat apply conj.
  - intros Hnone. unfold_confidence.
    cbn [withAnswer withConfidence answer question confidenceLevel isCorrect].
    rewrite Hnone. reflexivity.
  - intros c Hc Hcorrect Hhigh%high_confidence. unfold_confidence.
    by rewrite Hc, Hcorrect, Hhigh.
  - intros c Hc Hcorrect Hlow%low_confidence. unfold_confidence.
    rewrite Hc, Hcorrect, Hlow. cbn. by rewrite mul_1_r.
  - intros c Hc Hwrong Hhigh%high_confidence. unfold_confidence.
    rewrite Hc, Hwrong, Hhigh. cbn [pointsEarned]. by rewrite base_penalty_fraction.
  - intros c Hc Hwrong Hlow%low_confidence. unfold_confidence.
    rewrite Hc, Hwrong, Hlow. cbn [pointsEarned]. by rewrite base_penalty_fraction.
  - intros p Hp Hp0. unfold_confidence. rewrite Hp.
    assert (finite (Num p * (25 / 100))%js) as Hpen.
    { apply finite_mul; [by eexists|]. apply finite_div; [apply finite_ofZ|].
      by apply ofZ_nonzero. }
    repeat case_match; simplify_eq; cbn [percentage];
      apply clamp_range;
      match goal with
      | |- (?e / Num p * _)%js <> NaN =>
          assert (finite (e / Num p * 100)%js) as [? ->]; [|done]
      end;
      (apply finite_mul; [apply finite_div; [|done] | apply finite_ofZ]);
      repeat first [ by eexists | apply finite_ofZ | apply finite_ofFrac
                   | apply finite_mul | apply finite_neg | exact Hpen ].
Qed.

Lemma ConfidenceBased_default_contract_witness :
  let result :=
    calculateScore ConfidenceBasedScoring_default
      (sampleContext (sampleAnswer "A" true (Some (ofZ 5)) None)) in
  pointsEarned result = (10 * 2)%js
  /\ pointsPossible result = (10 * 2)%js
  /\ (percentage result <=? 100)%js = true.
Proof.
  destruct (ConfidenceBased_default_contract
              (sampleContext (sampleAnswer "A" true (Some (ofZ 5)) None)))
    as (_ & Hhigh & _ & _ & _ & Hrange).
  destruct (Hhigh (ofZ 5) eq_refl eq_refl eq_refl) as [He Hp].
  destruct (Hrange (Qc_of_Z 10) eq_refl) as [_ Hle].
  - apply ofZ_nonzero. lia.
  - split; [exact He | split; [exact Hp | exact Hle]].
Defined.

(** ** Adaptive selection *)

(** Orders between finite numbers, read on the underlying fractions. *)
Ltac to_Q :=
  repeat match goal with
         | H : (Num _ <=? Num _)%js = true |- _ => apply leb_Num in H
         | H : (Num _ <? Num _)%js = true |- _ => apply ltb_Num in H
         | H : (Num _ <=? Num _)%js = false |- _ =>
             apply leb_total_Num, leb_Num in H
         | |- (Num _ <=? Num _)%js = true => apply leb_Num
         | |- (Num _ <? Num _)%js = true => apply ltb_Num
         end;
  unfold Qcle, Qclt, Qcplus, Qcminus, Qcopp, Qcmult, Q2Qc, Qc_of_Z, inject_Z in *;
  cbn [this] in *;
  rewrite ?Qred_correct in *.

Lemma min_ofZ (n m : Z) : JS.min (ofZ n) (ofZ m) = ofZ (Z.min n m).
Proof.
  unfold JS.min, ofZ. fold (ofZ n) (ofZ m).
  destruct (ofZ n <=? ofZ m)%js eqn:H.
  - apply leb_ofZ in H. by rewrite Z.min_l.
  - rewrite Z.min_r; [done|]. destruct (Z.le_gt_cases m n) as [?|Hlt]; [done|].
    assert (n <= m)%Z as Hle%leb_ofZ by lia. congruence.
Qed.

Lemma relativeIndex_ofZ (n : Z) (len : nat) :
  (0 <= n)%Z -> relativeIndex (ofZ n) len = Nat.min (Z.to_nat n) len.
Proof.
  intros Hn. unfold relativeIndex, ofZ, Qc_of_Z. cbn [this inject_Z Qnum Qden].
  rewrite Z.quot_1_r. destruct (Z.ltb_spec n 0); lia.
Qed.

Lemma slice_from_start {A : Type} (arr : list A) (stop : number) :
  slice arr 0 stop = take (relativeIndex stop (length arr)) arr.
Proof.
  unfold slice. rewrite (relativeIndex_ofZ 0) by done.
  cbn [Z.to_nat Nat.min drop]. by rewrite Nat.sub_0_r.
Qed.

Lemma not_both_adjustments (accuracy : number) :
  (accuracy <? 50)%js = true -> (accuracy >? 80)%js = false.
Proof.
  intros Hlow. apply not_true_is_false. intros Hhigh.
  by pose proof (ltb_trans _ _ _ Hhigh Hlow).
Qed.

Section SelectionFacts.

Variable sortRandomly : list Question -> list Question.
Hypothesis sortRandomly_permutes : forall l, sortRandomly l ≡ₚ l.

Abbreviation select := (selectAdaptiveQuestions sortRandomly).

(** What is returned is a prefix of the shuffled band. *)
Lemma select_is_prefix availableQuestions count userPerformance currentDifficulty :
  exists k,
    select availableQuestions count userPerformance currentDifficulty
    = take k (sortRandomly
                (List.filter
                   (nearTarget (targetDifficulty userPerformance currentDifficulty))
                   availableQuestions)).
Proof. unfold selectAdaptiveQuestions. rewrite slice_from_start. by eexists. Qed.

(** C6.  The target difficulty is [min(5, current + 1)] after a strong run,
    [max(1, current - 1)] after a weak run and the current difficulty
    otherwise; every question returned lies within one level of the target;
    what is returned is drawn without repetition from the questions of the
    pool within that band, and for a count [n >= 0] there are
    [min(n, size of the band)] of them. *)
Theorem selectAdaptiveQuestions_spec (availableQuestions : list Question)
    (count : number) (userPerformance : UserPerformanceMetrics)
    (currentDifficulty : number) :
  let target := targetDifficulty userPerformance currentDifficulty in
  let band := List.filter (nearTarget target) availableQuestions in
  let result :=
    select availableQuestions count userPerformance currentDifficulty in
  ((recentAccuracy userPerformance >? 80)%js = true ->
   (consecutiveCorrect userPerformance >=? 3)%js = true ->
   target = JS.min 5 (currentDifficulty + 1))
  /\ ((recentAccuracy userPerformance <? 50)%js = true ->
      (consecutiveIncorrect userPerformance >=? 3)%js = true ->
      target = JS.max 1 (currentDifficulty - 1))
  /\ ((recentAccuracy userPerformance >? 80)%js
        && (consecutiveCorrect userPerformance >=? 3)%js = false ->
      (recentAccuracy userPerformance <? 50)%js
        && (consecutiveIncorrect userPerformance >=? 3)%js = false ->
      target = currentDifficulty)
  /\ (forall q, q ∈ result ->
        (abs (difficultyLevel q - target) <=? 1)%js = true)
  /\ result ⊆+ band
  /\ (NoDup availableQuestions -> NoDup result)
  /\ (forall n : Z, (0 <= n)%Z -> count = ofZ n ->
        length result = Nat.min (Z.to_nat n) (length band)).
Proof.
  cbv zeta.
  destruct (select_is_prefix availableQuestions count userPerformance
              currentDifficulty) as [k Hk].
  set (target := targetDifficulty userPerformance currentDifficulty) in *.
  set (band := List.filter (nearTarget target) availableQuestions) in *.
  assert (select availableQuestions count userPerformance currentDifficulty
          ⊆+ band) as Hsub.
  { rewrite Hk. trans (sortRandomly band).
    - apply sublist_submseteq, sublist_take.
    - by rewrite sortRandomly_permutes. }
  repeat apply conj.
  - intros Hacc Hrun. unfold target, targetDifficulty. by rewrite Hacc, Hrun.
  - intros Hacc Hrun. unfold target, targetDifficulty.
    by rewrite (not_both_adjustments _ Hacc), Hacc, Hrun.
  - intros Hup Hdown. unfold target, targetDifficulty. by rewrite Hup, Hdown.
  - intros q Hq. pose proof (elem_of_submseteq _ _ _ Hq Hsub) as Hband.
    apply list_elem_of_In, filter_In in Hband. apply Hband.
  - exact Hsub.
  - intros Hnodup. rewrite Hk. eapply sublist_NoDup; [|apply sublist_take].
    rewrite (sortRandomly_permutes band). unfold band.
    apply NoDup_ListNoDup, List.NoDup_filter. by apply NoDup_ListNoDup.
  - intros n Hn ->. unfold selectAdaptiveQuestions. fold target. fold band.
    rewrite slice_from_start, min_ofZ, relativeIndex_ofZ by lia.
    rewrite length_take, (Permutation_length (sortRandomly_permutes band)). lia.
Qed.

(** C4, as the code has it.  An empty pool yields the empty list whatever the
    count, and a count of 0 yields the empty list whatever the pool. *)
Theorem selectAdaptiveQuestions_empty (userPerformance : UserPerformanceMetrics)
    (currentDifficulty : number) :
  (forall count, select [] count userPerformance currentDifficulty = [])
  /\ (forall availableQuestions,
        select availableQuestions 0 userPerformance currentDifficulty = []).
Proof.
  split.
  - intros count.
    destruct (select_is_prefix [] count userPerformance currentDifficulty)
      as [k ->].
    cbn [List.filter].
    rewrite (proj1 (Permutation_nil_r _) (sortRandomly_permutes [])).
    by destruct k.
  - intros availableQuestions. unfold selectAdaptiveQuestions.
    rewrite slice_from_start, min_ofZ, relativeIndex_ofZ by lia.
    by rewrite Z.min_l by lia.
Qed.

End SelectionFacts.

Lemma rev_permutes (l : list Question) : rev l ≡ₚ l.
Proof. symmetry. apply Permutation_rev. Qed.

Lemma selectAdaptiveQuestions_spec_witness :
  let result := selectAdaptiveQuestions (@rev Question) samplePool 4
                  steadyPerformance 3 in
  targetDifficulty steadyPerformance 3 = 3
  /\ length result = 4%nat
  /\ NoDup result.
Proof.
  destruct (selectAdaptiveQuestions_spec (@rev Question) rev_permutes
              samplePool 4 steadyPerformance 3)
    as (_ & _ & Hsame & _ & _ & Hnodup & Hlen).
  split; [exact (Hsame eq_refl eq_refl)|].
  split; [exact (Hlen 4%Z ltac:(lia) eq_refl)|].
  apply Hnodup. apply NoDup_ListNoDup.
  repeat (constructor; [vm_compute; intuition discriminate|]). constructor.
Defined.

Lemma selectAdaptiveQuestions_empty_witness :
  selectAdaptiveQuestions (@rev Question) [] 4 steadyPerformance 3 = []
  /\ selectAdaptiveQuestions (@rev Question) samplePool 0 steadyPerformance 3 = [].
Proof.
  destruct (selectAdaptiveQuestions_empty (@rev Question) rev_permutes
              steadyPerformance 3) as [Hpool Hcount].
  split; [apply Hpool | apply Hcount].
Defined.

(** C4 as stated fails for a negative count: [slice(0, -1)] drops the last
    question of the shuffled band and returns the five others. *)
Lemma selectAdaptiveQuestions_negative_count :
  let result := selectAdaptiveQuestions (fun l => l) samplePool (-1)%Z
                  steadyPerformance 3 in
  ((-1)%Z <=? 0)%js = true
  /\ result = [ sampleQuestion "b1" 2; sampleQuestion "b2" 2;
                sampleQuestion "c1" 3; sampleQuestion "c2" 3;
                sampleQuestion "d1" 4 ]
  /\ result <> [].
Proof.
  cbv zeta. split; [reflexivity|]. split; [reflexivity | discriminate].
Qed.

(** ** The range of the difficulty level *)

(** C3, as the code has it.  The selector bounds the target only on the side
    it moves to: a raised target never exceeds 5, a lowered target never
    falls below 1, and an unadjusted target is the current difficulty as it
    came in.  Hence a current difficulty within [1, 5] gives a target within
    [1, 5].  [AdaptiveDifficultyScoring] takes the question's level as it is;
    its multiplier lies within [1, 2] when the level lies within [1, 5]. *)
Theorem difficulty_range_preserved (userPerformance : UserPerformanceMetrics)
    (currentDifficulty : number) (q : Question) :
  let target := targetDifficulty userPerformance currentDifficulty in
  ((recentAccuracy userPerformance >? 80)%js
     && (consecutiveCorrect userPerformance >=? 3)%js = true ->
   finite currentDifficulty -> (target <=? 5)%js = true)
  /\ ((recentAccuracy userPerformance >? 80)%js
        && (consecutiveCorrect userPerformance >=? 3)%js = false ->
      (recentAccuracy userPerformance <? 50)%js
        && (consecutiveIncorrect userPerformance >=? 3)%js = true ->
      finite currentDifficulty -> (1 <=? target)%js = true)
  /\ ((recentAccuracy userPerformance >? 80)%js
        && (consecutiveCorrect userPerformance >=? 3)%js = false ->
      (recentAccuracy userPerformance <? 50)%js
        && (consecutiveIncorrect userPerformance >=? 3)%js = false ->
      target = currentDifficulty)
  /\ ((1 <=? currentDifficulty)%js = true -> (currentDifficulty <=? 5)%js = true ->
      (1 <=? target)%js = true /\ (target <=? 5)%js = true)
  /\ ((1 <=? difficultyLevel q)%js = true -> (difficultyLevel q <=? 5)%js = true ->
      (1 <=? difficultyMultiplier q)%js = true
      /\ (difficultyMultiplier q <=? 2)%js = true).
Proof.
  cbv zeta. unfold targetDifficulty, difficultyMultiplier. repeat apply conj.
  - intros -> [c ->]. unfold JS.min, add, ofZ.
    destruct (Num (Qc_of_Z 5) <=? Num (c + Qc_of_Z 1))%js eqn:H; [done|].
    to_Q. lra.
  - intros -> -> [c ->]. unfold JS.max, sub, neg, add, ofZ.
    destruct (Num (Qc_of_Z 1) <=? Num (c + - Qc_of_Z 1))%js eqn:H; [|done].
    to_Q. lra.
  - by intros -> ->.
  - intros Hlo Hhi. destruct currentDifficulty as [c| | |]; try done.
    unfold JS.min, JS.max, sub, neg, add, ofZ in *.
    repeat case_match; try done; split; to_Q; lra.
  - intros Hlo Hhi. destruct (difficultyLevel q) as [l| | |]; try done.
    unfold ofFrac, sub, neg, mul, add, ofZ in *. split; to_Q; lra.
Qed.

Lemma difficulty_range_preserved_witness :
  (1 <=? targetDifficulty steadyPerformance 3)%js = true
  /\ (targetDifficulty steadyPerformance 3 <=? 5)%js = true
  /\ (difficultyMultiplier (sampleQuestion "e1" 5) <=? 2)%js = true.
Proof.
  destruct (difficulty_range_preserved steadyPerformance 3 (sampleQuestion "e1" 5))
    as (_ & _ & _ & Htarget & Hmultiplier).
  destruct (Htarget eq_refl eq_refl) as [Hlo Hhi].
  destruct (Hmultiplier eq_refl eq_refl) as [_ Hmax].
  split; [exact Hlo | split; [exact Hhi | exact Hmax]].
Defined.

(** C3 as stated fails: a current difficulty of 7 with no adjustment stays 7,
    so that a question of level 8 is selected; and a question of level 9 is
    scored with a multiplier of 3. *)
Lemma difficulty_not_clamped :
  targetDifficulty steadyPerformance 7 = 7
  /\ (targetDifficulty steadyPerformance 7 <=? 5)%js = false
  /\ selectAdaptiveQuestions (fun l => l) [sampleQuestion "h" 8] 1
       steadyPerformance 7 = [sampleQuestion "h" 8]
  /\ difficultyMultiplier (sampleQuestion "i" 9) = 3
  /\ (difficultyMultiplier (sampleQuestion "i" 9) <=? 2)%js = false.
Proof.
  split; [reflexivity|]. split; [reflexivity|]. split; [reflexivity|].
  split; [num_eq | reflexivity].
Qed.

(** ** Determinism *)

(** Every name resolves in the initial registry, unknown ones to the standard
    strategy. *)
Lemma getStrategy_initial_fallback (strategyName : string) :
  initialStrategies !! strategyName = None ->
  getStrategy initialStrategies strategyName = Some StandardScoring.
Proof. intros H. unfold getStrategy. by rewrite H. Qed.

(** Induction on strategies, through the list of a composite. *)
Lemma ScoringStrategy_nested_ind (P : ScoringStrategy -> Prop) :
  P StandardScoring ->
  (forall p, P (NegativePenaltyScoring p)) ->
  P PartialCreditScoring ->
  (forall t m p, P (ConfidenceBasedScoring t m p)) ->
  (forall t base, P base -> P (ThresholdScoring t base)) ->
  (forall f s b, P (TimeBasedScoring f s b)) ->
  P AdaptiveDifficultyScoring ->
  (forall b m, P (ComboStreakScoring b m)) ->
  (forall strategies, Forall P strategies -> P (CompositeScoring strategies)) ->
  forall strategy, P strategy.
Proof.
  intros HS HN HP HC HT HTB HA HCS HCo.
  fix IH 1.
  intros [ | p | | t m p | t base | f s b | | b m | strategies].
  - exact HS.
  - apply HN.
  - exact HP.
  - apply HC.
  - apply HT, IH.
  - apply HTB.
  - exact HA.
  - apply HCS.
  - apply HCo. induction strategies as [|s rest IHrest]; constructor.
    + apply IH.
    + exact IHrest.
Qed.

(** Running a computation on the store: unfold the operations and resolve
    the reads of cells just written. *)
Ltac run :=
  repeat progress
    (unfold Runtime.observe, Runtime.readArray, Runtime.readResult,
       Runtime.push, Runtime.bind, Runtime.ret, Runtime.newArray,
       Runtime.newResult, Runtime.allocate, Runtime.withHeap;
     cbn beta iota;
     cbn [Runtime.heap Runtime.allocated Runtime.randomValues Runtime.draws
          Runtime.obj_appliedMultipliers Runtime.obj_pointsEarned
          Runtime.obj_pointsPossible Runtime.obj_percentage
          Runtime.obj_feedback];
     rewrite ?lookup_insert_eq;
     rewrite ?lookup_insert_ne by lia).

Ltac split_condition b :=
  lazymatch b with
  | andb ?x _ => split_condition x
  | negb ?x => split_condition x
  | _ => destruct b eqn:?
  end.

Ltac split_conditions :=
  repeat (cbn [andb negb];
          match goal with
          | |- context [if ?b then _ else _] => split_condition b
          end).

Ltac returns_here :=
  run; eexists _, _, _;
  split; [reflexivity|]; run;
  split; [reflexivity|];
  split; [reflexivity|]; run;
  split; [lia|];
  split; [lia|];
  split; [done|];
  split; [done|];
  intros a Ha; run; done.

Ltac leaf_returns := unfold Runtime.returns; run; split_conditions; returns_here.

Section Refinement.

Variables (context : ScoringContext) (w : Runtime.World).

Lemma Standard_returns :
  Runtime.returns (Runtime.StandardScoring_calculateScore context) w
    (StandardScoring_calculateScore context).
Proof.
  unfold Runtime.StandardScoring_calculateScore, StandardScoring_calculateScore.
  leaf_returns.
Qed.

Lemma NegativePenalty_returns (p : number) :
  Runtime.returns (Runtime.NegativePenaltyScoring_calculateScore p context) w
    (NegativePenaltyScoring_calculateScore p context).
Proof.
  unfold Runtime.NegativePenaltyScoring_calculateScore,
    NegativePenaltyScoring_calculateScore.
  leaf_returns.
Qed.

Lemma PartialCredit_returns :
  Runtime.returns (Runtime.PartialCreditScoring_calculateScore context) w
    (PartialCreditScoring_calculateScore context).
Proof.
  unfold Runtime.PartialCreditScoring_calculateScore,
    PartialCreditScoring_calculateScore.
  destruct (getSelectedOption _ _) as [opt|]; [|leaf_returns].
  destruct (opt_isCorrect opt); [leaf_returns|].
  destruct (partialCreditPercentage opt >? 0); leaf_returns.
Qed.

Lemma ConfidenceBased_returns (t m p : number) :
  Runtime.returns (Runtime.ConfidenceBasedScoring_calculateScore t m p context) w
    (ConfidenceBasedScoring_calculateScore t m p context).
Proof.
  unfold Runtime.ConfidenceBasedScoring_calculateScore,
    ConfidenceBasedScoring_calculateScore.
  destruct (isCorrect _), (_ >=? _); leaf_returns.
Qed.

Lemma TimeBased_returns (f s b : number) :
  Runtime.returns (Runtime.TimeBasedScoring_calculateScore f s b context) w
    (TimeBasedScoring_calculateScore f s b context).
Proof.
  unfold Runtime.TimeBasedScoring_calculateScore, TimeBasedScoring_calculateScore.
  destruct (isCorrect _), (_ <=? _), (_ <? _); cbn [andb]; leaf_returns.
Qed.

Lemma AdaptiveDifficulty_returns :
  Runtime.returns (Runtime.AdaptiveDifficultyScoring_calculateScore context) w
    (AdaptiveDifficultyScoring_calculateScore context).
Proof.
  unfold Runtime.AdaptiveDifficultyScoring_calculateScore,
    AdaptiveDifficultyScoring_calculateScore.
  leaf_returns.
Qed.

Lemma ComboStreak_returns (b m : number) :
  Runtime.returns (Runtime.ComboStreakScoring_calculateScore b m context) w
    (ComboStreakScoring_calculateScore b m context).
Proof.
  unfold Runtime.ComboStreakScoring_calculateScore,
    ComboStreakScoring_calculateScore.
  destruct (isCorrect _), (_ >? 0); leaf_returns.
Qed.

End Refinement.

(** A result read below [bound] reads the same in every world that agrees
    below [bound]. *)
Lemma readsBelow_frame (w w' : Runtime.World) (bound result : nat)
    (r : ScoringResult) :
  Runtime.readsBelow w bound result r ->
  (forall a, (a < bound)%nat -> Runtime.heap w' !! a = Runtime.heap w !! a) ->
  (bound <= Runtime.allocated w')%nat ->
  Runtime.readsBelow w' (Runtime.allocated w') result r.
Proof.
  intros (object & Hcell & Harr & Hlt & Hlt' & Hfields) Hframe Hle.
  exists object. rewrite !Hframe by done.
  repeat split; try tauto; lia.
Qed.

Lemma returns_readsBelow (m : Runtime.M nat) (w : Runtime.World)
    (r : ScoringResult) :
  Runtime.returns m w r ->
  exists result w',
    m w = Some (result, w')
    /\ Runtime.readsBelow w' (Runtime.allocated w') result r
    /\ (Runtime.allocated w <= Runtime.allocated w')%nat
    /\ Runtime.randomValues w' = Runtime.randomValues w
    /\ Runtime.draws w' = Runtime.draws w
    /\ forall a, (a < Runtime.allocated w)%nat ->
         Runtime.heap w' !! a = Runtime.heap w !! a.
Proof.
  intros (result & w' & object & Hrun & Hobs & Hcell & Hres & Harr
          & Hrand & Hdraws & Hframe).
  exists result, w'. split; [done|]. split.
  - exists object. unfold Runtime.observe in Hobs. rewrite Hcell in Hobs.
    destruct (Runtime.heap w' !! _) as [[items|]|] eqn:Hitems; try done.
    injection Hobs as <-. cbn. repeat split; try done; lia.
  - repeat split; try done; lia.
Qed.

(** The wrapper: what [ThresholdScoring] makes of the object its base
    strategy returned. *)
Lemma Threshold_returns (t : number) (m : Runtime.M nat) (w : Runtime.World)
    (r : ScoringResult) :
  Runtime.returns m w r ->
  Runtime.returns (Runtime.bind m (Runtime.ThresholdScoring_apply t)) w
    (ThresholdScoring_apply t r).
Proof.
  intros (result & w1 & Hrun & Hreads & Hle & Hrand & Hdraws & Hframe)
    %returns_readsBelow.
  destruct Hreads as (base & Hcell & Harr & Hlt & Hlt' & HE & HP & HPc & HF).
  unfold Runtime.returns, Runtime.bind at 1. rewrite Hrun.
  unfold Runtime.ThresholdScoring_apply, ThresholdScoring_apply.
  unfold Runtime.bind at 1, Runtime.readResult. rewrite Hcell, HPc.
  destruct (percentage r <? t);
    unfold Runtime.bind at 1, Runtime.readArray; rewrite Harr;
    run; eexists _, _, _; (split; [reflexivity|]); run;
    rewrite ?HE, ?HP, ?HPc, ?HF;
    (split; [reflexivity|]); (split; [reflexivity|]); run;
    (split; [lia|]); (split; [lia|]); (split; [done|]); (split; [done|]);
    intros a Ha; run; by apply Hframe.
Qed.

(** [this.strategies.map(...)]: the results, in order, all readable in the
    world the last call leaves. *)
Lemma mapM_returns (f : ScoringStrategy -> Runtime.M nat)
    (g : ScoringStrategy -> ScoringResult) (strategies : list ScoringStrategy) :
  Forall (fun s => forall w, Runtime.returns (f s) w (g s)) strategies ->
  forall w, exists results w',
    Runtime.mapM f strategies w = Some (results, w')
    /\ Forall2 (Runtime.readsBelow w' (Runtime.allocated w')) results
         (map g strategies)
    /\ (Runtime.allocated w <= Runtime.allocated w')%nat
    /\ Runtime.randomValues w' = Runtime.randomValues w
    /\ Runtime.draws w' = Runtime.draws w
    /\ forall a, (a < Runtime.allocated w)%nat ->
         Runtime.heap w' !! a = Runtime.heap w !! a.
Proof.
  induction 1 as [|s rest Hs _ IH]; intros w.
  - exists [], w. cbn. repeat split; done.
  - destruct (returns_readsBelow _ _ _ (Hs w))
      as (result & w1 & Hrun & Hreads & Hle & Hrand & Hdraws & Hframe).
    destruct (IH w1)
      as (results & w2 & Hrest & Hall & Hle' & Hrand' & Hdraws' & Hframe').
    exists (result :: results), w2.
    cbn [Runtime.mapM]. unfold Runtime.bind at 1. rewrite Hrun.
    unfold Runtime.bind at 1. fold (Runtime.mapM f). rewrite Hrest. cbn.
    split; [done|]. split.
    { constructor; [|done]. by eapply readsBelow_frame. }
    split; [lia|]. split; [congruence|]. split; [congruence|].
    intros a Ha. rewrite Hframe' by lia. by apply Hframe.
Qed.

(** The reads that [CompositeScoring] makes of the results. *)
Lemma mapM_readResult (w : Runtime.World) (bound : nat) (results : list nat)
    (rs : list ScoringResult) :
  Forall2 (Runtime.readsBelow w bound) results rs ->
  exists objects,
    Runtime.mapM Runtime.readResult results w = Some (objects, w)
    /\ Runtime.mapM
         (fun result => Runtime.readArray (Runtime.obj_appliedMultipliers result))
         objects w
       = Some (map appliedMultipliers rs, w)
    /\ map Runtime.obj_feedback objects = map feedback rs
    /\ (forall sum,
          foldl (fun sum result => sum + Runtime.obj_pointsEarned result) sum objects
          = foldl (fun sum result => sum + pointsEarned result) sum rs)
    /\ (forall sum,
          foldl (fun sum result => sum + Runtime.obj_pointsPossible result) sum objects
          = foldl (fun sum result => sum + pointsPossible result) sum rs).
Proof.
  induction 1 as [|result r results rs Hreads _
                    (objects & Hobjects & Harrays & Hfeedback & Hearned & Hpossible)].
  - exists []. done.
  - destruct Hreads as (object & Hcell & Harr & _ & _ & HE & HP & _ & HF).
    exists (object :: objects).
    split.
    { cbn [Runtime.mapM]. unfold Runtime.bind at 1, Runtime.readResult at 1.
      rewrite Hcell. unfold Runtime.bind at 1.
      fold (Runtime.mapM Runtime.readResult). by rewrite Hobjects. }
    split.
    { cbn [Runtime.mapM]. unfold Runtime.bind at 1, Runtime.readArray at 1.
      rewrite Harr. unfold Runtime.bind at 1.
      fold (Runtime.mapM
              (fun result => Runtime.readArray (Runtime.obj_appliedMultipliers result))).
      by rewrite Harrays. }
    split; [cbn; congruence|].
    split; intros sum; cbn [foldl]; rewrite ?HE, ?HP;
      [apply Hearned | apply Hpossible].
Qed.

Lemma aggregate_returns (w : Runtime.World) (results : list nat)
    (rs : list ScoringResult) :
  Forall2 (Runtime.readsBelow w (Runtime.allocated w)) results rs ->
  Runtime.returns (Runtime.CompositeScoring_aggregate results) w
    (CompositeScoring_aggregate rs).
Proof.
  intros (objects & Hobjects & Harrays & Hfeedback & Hearned & Hpossible)
    %mapM_readResult.
  unfold Runtime.returns, Runtime.CompositeScoring_aggregate,
    CompositeScoring_aggregate.
  unfold Runtime.bind at 1. rewrite Hobjects.
  unfold Runtime.bind at 1. rewrite Harrays.
  rewrite Hearned, Hpossible, Hfeedback, <- flat_map_concat_map.
  returns_here.
Qed.

Lemma bind_returns (m : Runtime.M (list nat)) (k : list nat -> Runtime.M nat)
    (w : Runtime.World) (r : ScoringResult) :
  (exists results w',
     m w = Some (results, w')
     /\ Runtime.returns (k results) w' r
     /\ (Runtime.allocated w <= Runtime.allocated w')%nat
     /\ Runtime.randomValues w' = Runtime.randomValues w
     /\ Runtime.draws w' = Runtime.draws w
     /\ forall a, (a < Runtime.allocated w)%nat ->
          Runtime.heap w' !! a = Runtime.heap w !! a) ->
  Runtime.returns (Runtime.bind m k) w r.
Proof.
  intros (results & w1 & Hrun & Hk & Hle & Hrand & Hdraws & Hframe).
  destruct Hk as (result & w2 & object & Hrun' & Hobs & Hcell & Hres & Harr
                  & Hrand' & Hdraws' & Hframe').
  exists result, w2, object. unfold Runtime.bind. rewrite Hrun.
  split; [done|]. split; [done|]. split; [done|].
  split; [lia|]. split; [lia|]. split; [congruence|]. split; [congruence|].
  intros a Ha. rewrite Hframe' by lia. by apply Hframe.
Qed.

(** Started in any world, a strategy returns the address of a new object
    that reads as the result computed by [calculateScore]; it draws no
    random number and writes no cell that was there. *)
Lemma calculateScore_returns (strategy : ScoringStrategy)
    (context : ScoringContext) (w : Runtime.World) :
  Runtime.returns (Runtime.calculateScore strategy context) w
    (calculateScore strategy context).
Proof.
  revert w.
  induction strategy as [ | | | | t base IH | | | | strategies IH]
    using ScoringStrategy_nested_ind; intros w.
  - apply Standard_returns.
  - apply NegativePenalty_returns.
  - apply PartialCredit_returns.
  - apply ConfidenceBased_returns.
  - cbn [Runtime.calculateScore calculateScore]. by apply Threshold_returns.
  - apply TimeBased_returns.
  - apply AdaptiveDifficulty_returns.
  - apply ComboStreak_returns.
  - cbn [Runtime.calculateScore calculateScore].
    apply bind_returns.
    destruct (mapM_returns (fun s => Runtime.calculateScore s context)
                (fun s => calculateScore s context) strategies IH w)
      as (results & w1 & Hrun & Hall & Hle & Hrand & Hdraws & Hframe).
    exists results, w1. split; [done|]. split; [by apply aggregate_returns|].
    done.
Qed.

(** C9.  [calculateScore] run on the store, where results and their arrays
    are cells and [Math.random()] can be called.  Started in any world [w1],
    a strategy returns a result; started again in any world [w2] (the world
    the first call left, or that world after the caller has written to the
    first result or pushed onto its array, after other calls, after any
    draws of [Math.random()]) it returns a result that reads the same in
    every field, which is the result the function [calculateScore]
    computes.  Each call hands back a cell it has allocated itself, draws no
    random number, and writes no cell that was allocated before it. *)
Theorem calculateScore_deterministic (strategy : ScoringStrategy)
    (context : ScoringContext) (w1 w2 : Runtime.World) :
  exists result1 after1 result2 after2 first second,
    Runtime.calculateScore strategy context w1 = Some (result1, after1)
    /\ Runtime.calculateScore strategy context w2 = Some (result2, after2)
    /\ Runtime.observe after1 result1 = Some first
    /\ Runtime.observe after2 result2 = Some second
    /\ (first = second
        /\ pointsEarned first = pointsEarned second
        /\ pointsPossible first = pointsPossible second
        /\ percentage first = percentage second
        /\ feedback first = feedback second
        /\ appliedMultipliers first = appliedMultipliers second)
    /\ first = calculateScore strategy context
    /\ (Runtime.draws after1 = Runtime.draws w1
        /\ Runtime.draws after2 = Runtime.draws w2)
    /\ (Runtime.randomValues after1 = Runtime.randomValues w1
        /\ Runtime.randomValues after2 = Runtime.randomValues w2)
    /\ ((Runtime.allocated w1 <= result1)%nat
        /\ (Runtime.allocated w2 <= result2)%nat)
    /\ (forall a, (a < Runtime.allocated w1)%nat ->
          Runtime.heap after1 !! a = Runtime.heap w1 !! a)
    /\ (forall a, (a < Runtime.allocated w2)%nat ->
          Runtime.heap after2 !! a = Runtime.heap w2 !! a).
Proof.
  destruct (calculateScore_returns strategy context w1)
    as (result1 & after1 & object1 & Hrun1 & Hobs1 & _ & Hres1 & _
        & Hrand1 & Hdraws1 & Hframe1).
  destruct (calculateScore_returns strategy context w2)
    as (result2 & after2 & object2 & Hrun2 & Hobs2 & _ & Hres2 & _
        & Hrand2 & Hdraws2 & Hframe2).
  exists result1, after1, result2, after2.
  exists (calculateScore strategy context), (calculateScore strategy context).
  repeat split; try done; lia.
Qed.

(** The store does tell a computation that draws from one that does not:
    [difficultyVariation] advances the count of draws, and its value changes
    with the number drawn. *)
Lemma difficultyVariation_draws :
  (forall w, exists v after,
     Runtime.difficultyVariation w = Some (v, after)
     /\ Runtime.draws after = S (Runtime.draws w))
  /\ exists v1 after1 v2 after2,
       Runtime.difficultyVariation (Runtime.emptyWorld 0) = Some (v1, after1)
       /\ Runtime.difficultyVariation (Runtime.emptyWorld (ofFrac 9 10))
          = Some (v2, after2)
       /\ v1 <> v2.
Proof.
  split.
  - intros w. by eexists _, _.
  - eexists _, _, _, _. split; [reflexivity|]. split; [reflexivity|].
    cbn [Runtime.emptyWorld Runtime.randomValues Runtime.draws]. num_ne.
Qed.

(** * Further properties of the scoring strategies *)

(** Arithmetic on finite numbers, read on the underlying fractions. *)
Ltac qc_unfold :=
  repeat progress
    (unfold Qcle, Qclt, Qcplus, Qcminus, Qcopp, Qcmult, Qcdiv, Qcinv, Q2Qc,
       Qc_of_Z, inject_Z in *;
     cbn [this] in *; rewrite ?Qred_correct in *).

Lemma nonzero_this (p : Qc) : p <> 0%Qc -> ~ (this p == 0)%Q.
Proof. intros Hp H. apply Hp. by apply Qc_is_canon. Qed.

Lemma div_Num (a p : Qc) : p <> 0%Qc -> (Num a / Num p)%js = Num (a / p)%Qc.
Proof. intros Hp. unfold div. by rewrite decide_False. Qed.

Lemma percentage_full (p : Qc) : p <> 0%Qc -> (Num p / Num p * 100)%js = 100.
Proof.
  intros Hp. rewrite div_Num by done. unfold mul, ofZ. f_equal.
  apply Qc_is_canon. qc_unfold. field. by apply nonzero_this.
Qed.

Lemma percentage_none (p : Qc) : p <> 0%Qc -> (0 / Num p * 100)%js = 0.
Proof.
  intros Hp. unfold ofZ. rewrite div_Num by done. unfold mul. f_equal.
  apply Qc_is_canon. qc_unfold. field. by apply nonzero_this.
Qed.

Lemma clamp_100 : JS.min 100 (JS.max (-100)%Z 100) = 100.
Proof. num_eq. Qed.

Lemma initialStrategies_cases (name : string) (strategy : ScoringStrategy) :
  initialStrategies !! name = Some strategy ->
  strategy ∈ [ StandardScoring; NegativePenaltyScoring 25; PartialCreditScoring;
               ConfidenceBasedScoring_default; ThresholdScoring 40 StandardScoring;
               TimeBasedScoring_default; AdaptiveDifficultyScoring;
               ComboStreakScoring_default ].
Proof.
  intros H%elem_of_list_to_map_2.
  repeat (apply elem_of_cons in H as [[= _ <-]|H]; [set_solver|]).
  by apply elem_of_nil in H.
Qed.

(** X1.  Every strategy of the initial registry gives the same verdict on a plain
    correct answer: when the selected option is the correct one, no
    confidence, time or performance metrics are supplied, the question is of
    difficulty 1 and its points are a finite non-zero number, the answer earns
    exactly [question.points] and the percentage is 100. *)
Theorem registered_strategies_agree_on_plain_correct_answer
    (name : string) (strategy : ScoringStrategy) (context : ScoringContext)
    (p : Qc) (opt : QuestionOption) :
  initialStrategies !! name = Some strategy ->
  points (question context) = Num p -> p <> 0%Qc ->
  difficultyLevel (question context) = 1 ->
  isCorrect (answer context) = true ->
  getSelectedOption (question context) (answer context) = Some opt ->
  opt_isCorrect opt = true ->
  confidenceLevel (answer context) = None ->
  timeSpent (answer context) = None ->
  userPerformance context = None ->
  pointsEarned (calculateScore strategy context) = points (question context)
  /\ percentage (calculateScore strategy context) = 100.
Proof.
  intros Hreg Hp Hp0 Hlevel Hcorrect Hopt Hflag Hconf Htime Hperf.
  apply initialStrategies_cases in Hreg.
  assert (percentage (calculateScore StandardScoring context) = 100
          /\ pointsEarned (calculateScore StandardScoring context)
             = points (question context)) as [Hstd_pct Hstd_earned].
  { cbn. rewrite Hcorrect, Hp. split; [by apply percentage_full | done]. }
  repeat (apply elem_of_cons in Hreg as [->|Hreg]).
  - done.
  - cbn. by rewrite Hcorrect.
  - cbn. unfold PartialCreditScoring_calculateScore. by rewrite Hopt, Hflag.
  - cbn [calculateScore ConfidenceBasedScoring_default].
    unfold ConfidenceBasedScoring_calculateScore. rewrite Hconf, Hcorrect.
    cbn [orElse]. replace (ofZ 3 >=? 4)%js with false by reflexivity.
    cbn [pointsEarned percentage]. rewrite Hp, percentage_full by done.
    split; [done | apply clamp_100].
  - change (calculateScore (ThresholdScoring 40 StandardScoring) context)
      with (ThresholdScoring_apply 40 (calculateScore StandardScoring context)).
    unfold ThresholdScoring_apply. rewrite Hstd_pct.
    replace (ofZ 100 <? 40)%js with false by reflexivity.
    cbn [pointsEarned percentage]. done.
  - split; [by apply (TimeBased_slow_correct context None)|].
    cbn [calculateScore TimeBasedScoring_default].
    unfold TimeBasedScoring_calculateScore.
    rewrite Htime, Hcorrect. cbn [orElse].
    rewrite slow_above_fast, slow_not_below_slow. cbn [andb percentage].
    rewrite Hp, percentage_full by done. num_eq.
  - cbn [calculateScore]. unfold AdaptiveDifficultyScoring_calculateScore.
    rewrite Hcorrect, Hperf. cbn [pointsEarned percentage performanceMultiplier].
    unfold difficultyMultiplier. rewrite Hlevel.
    replace (1 + (ofZ 1 - 1) * ofFrac 1 4)%js with (ofZ 1) by (symmetry; num_eq).
    by rewrite !mul_1_r.
  - cbn [calculateScore ComboStreakScoring_default].
    unfold ComboStreakScoring_calculateScore. rewrite Hcorrect, Hperf.
    cbn [fmap option_fmap option_map orElse].
    replace (JS.min 2 (1 + 0 * ofFrac 1 10))%js with (ofZ 1) by (symmetry; num_eq).
    cbn [pointsEarned percentage]. by rewrite mul_1_r.
  - by apply elem_of_nil in Hreg.
Qed.

Lemma registered_strategies_agree_on_plain_correct_answer_witness :
  pointsEarned (calculateScore ComboStreakScoring_default plainContext) = 10
  /\ percentage (calculateScore ComboStreakScoring_default plainContext) = 100.
Proof.
  apply (registered_strategies_agree_on_plain_correct_answer
           "combo_streak" ComboStreakScoring_default plainContext
           (Qc_of_Z 10) optionA); try reflexivity.
  apply ofZ_nonzero. lia.
Defined.

(** ** Negative penalty *)

(** X2.  [NegativePenaltyScoring] with a penalty between 0 and 100 percent, on
    a question whose points are finite and not negative.  A wrong answer
    earns [-(points * (penalty / 100))]: never a gain, and never a loss of
    more than the points of the question.  The percentage reported for it is
    minus the penalty, between -100 and 0; it is not computed from the
    points, so it is a number even on a question worth nothing.  A correct
    answer earns the points, at 100 percent.  (Only the expressions of the
    code and bounds on them are stated: they hold as well when the product
    and the quotient are rounded to binary64.) *)
Theorem NegativePenalty_loss_bounded (penalty p : Qc)
    (context : ScoringContext) :
  points (question context) = Num p -> (0 <= p)%Qc ->
  (0 <= penalty)%Qc -> (penalty <= Qc_of_Z 100)%Qc ->
  let result := calculateScore (NegativePenaltyScoring (Num penalty)) context in
  pointsPossible result = points (question context)
  /\ if isCorrect (answer context)
     then pointsEarned result = points (question context)
          /\ percentage result = 100
     else pointsEarned result
          = (- (points (question context) * (Num penalty / 100)))%js
          /\ (- points (question context) <=? pointsEarned result)%js = true
          /\ (pointsEarned result <=? 0)%js = true
          /\ percentage result = (- Num penalty)%js
          /\ ((-100)%Z <=? percentage result)%js = true
          /\ (percentage result <=? 0)%js = true.
Proof.
  intros Hp Hp0 Hpen0 Hpen100. cbn [calculateScore].
  unfold NegativePenaltyScoring_calculateScore.
  cbn [pointsEarned pointsPossible percentage]. rewrite Hp.
  assert (Qc_of_Z 100 <> 0%Qc) as H100 by by apply ofZ_nonzero.
  split; [done|].
  destruct (isCorrect (answer context)); [done|].
  unfold ofZ. rewrite !div_Num by done. cbn [mul neg].
  split; [done|].
  assert ((penalty * Qc_of_Z (-1)%Z)%Qc = (- penalty)%Qc) as ->
    by (apply Qc_is_canon; qc_unfold; ring).
  repeat split; try done; apply leb_Num; qc_unfold;
    try setoid_replace (/ 100)%Q with (1 # 100)%Q using relation Qeq by reflexivity;
    nra.
Qed.

Lemma NegativePenalty_loss_bounded_witness :
  let result :=
    calculateScore (NegativePenaltyScoring 25)
      (sampleContext (sampleAnswer "B" false None None)) in
  (- ofZ 10 <=? pointsEarned result)%js = true
  /\ (pointsEarned result <=? 0)%js = true
  /\ percentage result = (- ofZ 25)%js.
Proof.
  assert ((0 <= Qc_of_Z 10)%Qc /\ (0 <= Qc_of_Z 25)%Qc
          /\ (Qc_of_Z 25 <= Qc_of_Z 100)%Qc) as (Hp & H0 & H100) by done.
  destruct (NegativePenalty_loss_bounded (Qc_of_Z 25) (Qc_of_Z 10)
              (sampleContext (sampleAnswer "B" false None None))
              eq_refl Hp H0 H100) as (_ & _ & Hlo & Hhi & Hpct & _).
  split; [exact Hlo | split; [exact Hhi | exact Hpct]].
Defined.

(** ** Partial credit: the resolved option *)

(** X3.  [getSelectedOption] returns the first option that carries the selected
    id, and [undefined] exactly when no option carries it. *)
Theorem getSelectedOption_first_match (q : Question) (a : Answer) :
  match getSelectedOption q a with
  | Some opt =>
      exists before after,
        options q = before ++ opt :: after
        /\ opt_id opt = selectedOptionId a
        /\ Forall (fun o => opt_id o <> selectedOptionId a) before
  | None => Forall (fun o => opt_id o <> selectedOptionId a) (options q)
  end.
Proof.
  unfold getSelectedOption.
  induction (options q) as [|o opts IH]; [by constructor|].
  cbn [List.find]. destruct (String.eqb (opt_id o) (selectedOptionId a)) eqn:E.
  - apply String.eqb_eq in E. exists [], opts. by repeat split.
  - apply String.eqb_neq in E. destruct (List.find _ opts) as [opt|].
    + destruct IH as (before & after & -> & Hid & Hbefore).
      exists (o :: before), after. repeat split; [done|]. by constructor.
    + by constructor.
Qed.

(** X4.  The points and the percentage of [PartialCreditScoring] follow the
    selected option alone: whatever [answer.isCorrect] says, the points
    earned, the points possible, the percentage and the trace are the same. *)
Theorem PartialCredit_ignores_isCorrect (context : ScoringContext) (flag : bool) :
  let result := calculateScore PartialCreditScoring context in
  let flagged :=
    calculateScore PartialCreditScoring
      (withAnswer (withIsCorrect flag (answer context)) context) in
  pointsEarned flagged = pointsEarned result
  /\ pointsPossible flagged = pointsPossible result
  /\ percentage flagged = percentage result
  /\ appliedMultipliers flagged = appliedMultipliers result.
Proof.
  cbn [calculateScore]. unfold PartialCreditScoring_calculateScore.
  cbn [withAnswer withIsCorrect question answer].
  change (getSelectedOption (question context)
            (withIsCorrect flag (answer context)))
    with (getSelectedOption (question context) (answer context)).
  destruct (getSelectedOption (question context) (answer context)); [|done].
  by repeat case_match.
Qed.

(** X5.  Selecting an incorrect option worth [c] percent, with [0 <= c <= 100],
    of a question whose points are finite and not negative earns
    [points * (c / 100)], which lies between 0 and [points], against
    [points] possible.  The percentage reported is [c] itself, not a quotient
    of the two; when [c] is strictly between 0 and 100 the feedback is the
    "partially correct" text, whatever the answer's own [isCorrect] flag.
    (Rounded to binary64 the product stays within the same bounds.) *)
Theorem PartialCredit_partial_option (context : ScoringContext)
    (opt : QuestionOption) (c p : Qc) :
  getSelectedOption (question context) (answer context) = Some opt ->
  opt_isCorrect opt = false ->
  partialCreditPercentage opt = Num c -> (0 <= c)%Qc -> (c <= Qc_of_Z 100)%Qc ->
  points (question context) = Num p -> (0 <= p)%Qc ->
  let result := calculateScore PartialCreditScoring context in
  pointsEarned result = (points (question context) * (Num c / 100))%js
  /\ pointsPossible result = points (question context)
  /\ percentage result = Num c
  /\ (0 <=? pointsEarned result)%js = true
  /\ (pointsEarned result <=? points (question context))%js = true
  /\ appliedMultipliers result = [[Lit "partial_credit"]; [Str (Num c); Lit "%"]]
  /\ ((0 < c)%Qc -> (c < Qc_of_Z 100)%Qc ->
      feedback result
      = [Lit "Bahagyang tama! Nakakuha ka ng "; Str (Num c);
         Lit "% ng puntos. / Partially correct! You earned "; Str (Num c);
         Lit "% of the points."]).
Proof.
  intros Hopt Hwrong Hc Hc0 Hc100 Hp Hp0. cbn [calculateScore].
  unfold PartialCreditScoring_calculateScore. rewrite Hopt, Hwrong, Hc, Hp.
  assert (Qc_of_Z 100 <> 0%Qc) as H100 by by apply ofZ_nonzero.
  assert (Num p * (Num c / 100) = Num (p * (c / Qc_of_Z 100))%Qc)%js as Hearned.
  { unfold ofZ. by rewrite div_Num. }
  assert ((Num (p * (c / Qc_of_Z 100)) <=? Num p)%js = true
          /\ (0 <=? Num (p * (c / Qc_of_Z 100)))%js = true) as [Hle Hge].
  { unfold ofZ. split; apply leb_Num; qc_unfold;
      setoid_replace (/ 100)%Q with (1 # 100)%Q using relation Qeq by reflexivity;
      nra. }
  rewrite Hearned.
  destruct (Num c >? 0)%js eqn:Hpos.
  - cbn [pointsEarned pointsPossible percentage appliedMultipliers feedback].
    split; [done|]. split; [done|]. split; [done|]. split; [done|].
    split; [done|]. split; [done|].
    intros _ Hlt. apply ltb_Num in Hlt. unfold ofZ in *. by rewrite Hpos, Hlt.
  - assert (c = 0%Qc) as ->.
    { apply Qcle_antisym; [|done]. apply Qcnot_lt_le. intros Hlt.
      apply ltb_Num in Hlt. unfold gtb, ofZ in Hpos.
      rewrite Z2Qc_inj_0 in Hpos. congruence. }
    cbn [pointsEarned pointsPossible percentage appliedMultipliers feedback].
    assert (Num (p * (0 / Qc_of_Z 100))%Qc = Num 0%Qc) as Hz.
    { f_equal. apply Qc_is_canon. qc_unfold. field. }
    rewrite Hz, ofZ_0.
    split; [done|]. split; [done|]. split; [done|]. split; [done|].
    split; [by apply leb_Num|]. split; [done|].
    intros Hlt. by apply Qclt_not_eq in Hlt.
Qed.

Lemma PartialCredit_partial_option_witness :
  let result :=
    calculateScore PartialCreditScoring
      (sampleContext (sampleAnswer "B" false None None)) in
  pointsEarned result = (10 * (Num (Qc_of_Z 40) / 100))%js
  /\ percentage result = Num (Qc_of_Z 40)
  /\ (pointsEarned result <=? 10)%js = true.
Proof.
  assert ((0 <= Qc_of_Z 40)%Qc /\ (Qc_of_Z 40 <= Qc_of_Z 100)%Qc
          /\ (0 <= Qc_of_Z 10)%Qc) as (H0 & H100 & Hp) by done.
  destruct (PartialCredit_partial_option
              (sampleContext (sampleAnswer "B" false None None))
              optionB (Qc_of_Z 40) (Qc_of_Z 10)
              eq_refl eq_refl eq_refl H0 H100 eq_refl Hp)
    as (He & _ & Hpct & _ & Hle & _).
  split; [exact He | split; [exact Hpct | exact Hle]].
Defined.

(** ** Threshold *)

(** X6.  [ThresholdScoring] keeps the inner strategy's [pointsPossible], adds one
    tag to its trace, and either zeroes points and percentage (inner
    percentage below the threshold) or leaves them alone.  The percentage it
    reports is therefore never a non-zero value below the threshold. *)
Theorem Threshold_floor (minimumThreshold : number) (baseStrategy : ScoringStrategy)
    (context : ScoringContext) :
  let inner := calculateScore baseStrategy context in
  let result := calculateScore (ThresholdScoring minimumThreshold baseStrategy) context in
  pointsPossible result = pointsPossible inner
  /\ length (appliedMultipliers result) = S (length (appliedMultipliers inner))
  /\ ((percentage inner <? minimumThreshold)%js = false ->
      pointsEarned result = pointsEarned inner
      /\ percentage result = percentage inner
      /\ feedback result = feedback inner)
  /\ ((percentage result <? minimumThreshold)%js = true ->
      percentage result = 0 /\ pointsEarned result = 0).
Proof.
  cbv zeta.
  change (calculateScore (ThresholdScoring minimumThreshold baseStrategy) context)
    with (ThresholdScoring_apply minimumThreshold (calculateScore baseStrategy context)).
  unfold ThresholdScoring_apply.
  destruct (percentage (calculateScore baseStrategy context) <? minimumThreshold)%js
    eqn:Hbelow; cbn [pointsEarned pointsPossible percentage feedback appliedMultipliers];
    rewrite length_app, Nat.add_1_r; repeat split; try done; congruence.
Qed.

Lemma Threshold_floor_witness :
  let result :=
    calculateScore ThresholdScoring_default
      (sampleContext (sampleAnswer "A" true None None)) in
  pointsEarned result = 10 /\ percentage result = 100.
Proof.
  destruct (Threshold_floor 40 StandardScoring
              (sampleContext (sampleAnswer "A" true None None)))
    as (_ & _ & Hpass & _).
  destruct (Hpass eq_refl) as (He & Hp & _).
  cbv zeta. unfold ThresholdScoring_default.
  split; [rewrite He; reflexivity | rewrite Hp; num_eq].
Defined.

(** X7.  Wrapping a strategy twice in the same threshold changes nothing in the
    numbers: points earned, points possible and percentage are those of a
    single wrapping. *)
Theorem Threshold_twice (minimumThreshold : number) (baseStrategy : ScoringStrategy)
    (context : ScoringContext) :
  let once := calculateScore (ThresholdScoring minimumThreshold baseStrategy) context in
  let twice :=
    calculateScore
      (ThresholdScoring minimumThreshold (ThresholdScoring minimumThreshold baseStrategy))
      context in
  pointsEarned twice = pointsEarned once
  /\ pointsPossible twice = pointsPossible once
  /\ percentage twice = percentage once.
Proof.
  cbv zeta.
  change (calculateScore
            (ThresholdScoring minimumThreshold
               (ThresholdScoring minimumThreshold baseStrategy)) context)
    with (ThresholdScoring_apply minimumThreshold
            (ThresholdScoring_apply minimumThreshold
               (calculateScore baseStrategy context))).
  change (calculateScore (ThresholdScoring minimumThreshold baseStrategy) context)
    with (ThresholdScoring_apply minimumThreshold (calculateScore baseStrategy context)).
  generalize (calculateScore baseStrategy context). intros inner.
  unfold ThresholdScoring_apply.
  destruct (percentage inner <? minimumThreshold)%js eqn:Hinner;
    cbn [percentage pointsEarned pointsPossible].
  - by destruct (0 <? minimumThreshold)%js.
  - by rewrite Hinner.
Qed.

(** ** Composite scoring, in general *)

Lemma aggregate_singleton (alone : ScoringResult) :
  let composite := CompositeScoring_aggregate [alone] in
  pointsEarned composite = pointsEarned alone
  /\ pointsPossible composite = pointsPossible alone
  /\ feedback composite = feedback alone
  /\ appliedMultipliers composite = [Lit "composite"] :: appliedMultipliers alone
  /\ percentage composite = (pointsEarned alone / pointsPossible alone * 100)%js.
Proof.
  unfold CompositeScoring_aggregate.
  cbn [foldl flat_map map join pointsEarned pointsPossible percentage feedback
       appliedMultipliers].
  by rewrite !add_0_l, app_nil_r.
Qed.

(** X8.  A composite of one strategy reports that strategy's points earned,
    points possible and feedback, and its trace behind the tag
    ["composite"]; the percentage is recomputed as
    [pointsEarned / pointsPossible * 100]. *)
Theorem Composite_of_one (strategy : ScoringStrategy) (context : ScoringContext) :
  let composite := calculateScore (CompositeScoring [strategy]) context in
  let alone := calculateScore strategy context in
  pointsEarned composite = pointsEarned alone
  /\ pointsPossible composite = pointsPossible alone
  /\ feedback composite = feedback alone
  /\ appliedMultipliers composite = [Lit "composite"] :: appliedMultipliers alone
  /\ percentage composite = (pointsEarned alone / pointsPossible alone * 100)%js.
Proof.
  cbv zeta.
  change (calculateScore (CompositeScoring [strategy]) context)
    with (CompositeScoring_aggregate [calculateScore strategy context]).
  apply aggregate_singleton.
Qed.

(** X9.  Adding a strategy at the end of a composite adds its points earned and
    its points possible to the totals and its trace to the end of the trace. *)
Theorem Composite_snoc (strategies : list ScoringStrategy)
    (strategy : ScoringStrategy) (context : ScoringContext) :
  let before := calculateScore (CompositeScoring strategies) context in
  let last := calculateScore strategy context in
  let after := calculateScore (CompositeScoring (strategies ++ [strategy])) context in
  pointsEarned after = (pointsEarned before + pointsEarned last)%js
  /\ pointsPossible after = (pointsPossible before + pointsPossible last)%js
  /\ appliedMultipliers after = appliedMultipliers before ++ appliedMultipliers last.
Proof.
  cbv zeta. cbn [calculateScore]. rewrite map_app. cbn [map].
  unfold CompositeScoring_aggregate.
  cbn [pointsEarned pointsPossible appliedMultipliers].
  rewrite !foldl_snoc, flat_map_app. cbn [flat_map]. by rewrite app_nil_r.
Qed.

(** ** Time-based scoring: the size of the bonus *)

Lemma truthy_positive (t : Qc) : (0 < t)%Qc -> truthy (Num t) = true.
Proof.
  intros Ht. unfold truthy. destruct (decide (t = 0%Qc)) as [->|]; [|done].
  by apply Qclt_not_eq in Ht.
Qed.

(** The percentage of a score between [p] and [1.5 p], capped at 150. *)
Lemma speed_percentage_range (e p : Qc) :
  (0 < p)%Qc -> (p <= e)%Qc -> (e <= p * Q2Qc (3 # 2))%Qc ->
  (100 <=? JS.min (100 + ofFrac 1 2 * 100) (Num e / Num p * 100))%js = true
  /\ (JS.min (100 + ofFrac 1 2 * 100) (Num e / Num p * 100) <=? 150)%js = true.
Proof.
  intros Hp Hlo Hhi.
  assert (p <> 0%Qc) as Hpne by (intros ->; by apply Qclt_not_eq in Hp).
  rewrite div_Num by done. unfold ofFrac, ofZ. cbn [mul add].
  assert (Qc_of_Z 100 <= e / p * Qc_of_Z 100)%Qc as Hx.
  { qc_unfold. pose proof (Qinv_lt_0_compat _ Hp) as Hinv.
    assert (this p * / this p == 1)%Q as Hone
      by (apply Qmult_inv_r; lra).
    nra. }
  unfold JS.min.
  destruct (Num _ <=? Num (e / p * Qc_of_Z 100))%js eqn:Hcap.
  - split; reflexivity.
  - split; [by apply leb_Num|].
    apply leb_total_Num in Hcap. apply leb_Num in Hcap. apply leb_Num.
    eapply Qcle_trans; [exact Hcap|]. done.
Qed.

(** X10.  With the default parameters, a correct answer to a question with finite
    positive points earns at least [points] and at most [points * 1.5],
    whatever the time (absent, zero, negative, infinite or [NaN]), and its
    percentage lies in [100, 150]; a wrong answer earns 0 at 0 percent. *)
Theorem TimeBased_bonus_range (context : ScoringContext) (p : Qc) :
  points (question context) = Num p -> (0 < p)%Qc ->
  let result := calculateScore TimeBasedScoring_default context in
  (isCorrect (answer context) = true ->
   (points (question context) <=? pointsEarned result)%js = true
   /\ (pointsEarned result <=? points (question context) * ofFrac 3 2)%js = true
   /\ (100 <=? percentage result)%js = true
   /\ (percentage result <=? 150)%js = true)
  /\ (isCorrect (answer context) = false ->
      pointsEarned result = 0 /\ percentage result = 0).
Proof.
  intros Hp Hp0. cbv zeta. cbn [calculateScore TimeBasedScoring_default].
  unfold TimeBasedScoring_calculateScore. rewrite Hp.
  assert (p <> 0%Qc) as Hpne by (intros ->; by apply Qclt_not_eq in Hp0).
  split; intros ->; cbn [andb].
  - set (t := orElse (timeSpent (answer context)) 60).
    assert (forall e, (p <= e)%Qc -> (e <= p * Q2Qc (3 # 2))%Qc ->
              (Num p <=? Num e)%js = true
              /\ (Num e <=? Num p * ofFrac 3 2)%js = true
              /\ (100 <=? JS.min (100 + ofFrac 1 2 * 100) (Num e / Num p * 100))%js = true
              /\ (JS.min (100 + ofFrac 1 2 * 100) (Num e / Num p * 100) <=? 150)%js = true)
      as Hrange.
    { intros e Hlo Hhi. split; [by apply leb_Num|]. split; [by apply leb_Num|].
      by apply speed_percentage_range. }
    destruct (t <=? 10)%js eqn:Hfast.
    + cbn [pointsEarned percentage]. unfold ofFrac. cbn [mul add].
      apply Hrange; qc_unfold; lra.
    + destruct (t <? 60)%js eqn:Hslow.
      * destruct t as [t| | |]; try done.
        assert (Qc_of_Z 10 < t)%Qc as H10.
        { apply Qcnot_le_lt. intros Hle. apply leb_Num in Hle.
          unfold ofZ in Hfast. congruence. }
        apply ltb_Num in Hslow.
        cbn [pointsEarned percentage]. unfold ofFrac, ofZ, sub. cbn [neg add].
        rewrite div_Num by done. cbn [add neg mul].
        apply Hrange; qc_unfold;
          setoid_replace (/ (60 + - (10)))%Q with (1 # 50)%Q
            using relation Qeq by reflexivity;
          nra.
      * cbn [pointsEarned percentage].
        apply Hrange; qc_unfold; lra.
  - cbn [pointsEarned percentage]. rewrite percentage_none by done.
    split; [done | num_eq].
Qed.

Lemma TimeBased_bonus_range_witness :
  let result :=
    calculateScore TimeBasedScoring_default
      (sampleContext (sampleAnswer "A" true None (Some (ofZ 35)))) in
  (10 <=? pointsEarned result)%js = true
  /\ (percentage result <=? 150)%js = true.
Proof.
  assert (0 < Qc_of_Z 10)%Qc as Hp by done.
  destruct (TimeBased_bonus_range
              (sampleContext (sampleAnswer "A" true None (Some (ofZ 35))))
              (Qc_of_Z 10) eq_refl Hp) as [Hcorrect _].
  destruct (Hcorrect eq_refl) as (Hlo & _ & _ & Hhi).
  split; [exact Hlo | exact Hhi].
Defined.

(** The three regimes of the bonus for a correct answer with a positive
    finite time. *)
Lemma TimeBased_earned_cases (context : ScoringContext) (p t : Qc) :
  points (question context) = Num p -> p <> 0%Qc ->
  isCorrect (answer context) = true ->
  (0 < t)%Qc ->
  let earned :=
    pointsEarned
      (calculateScore TimeBasedScoring_default
         (withAnswer (withTimeSpent (Some (Num t)) (answer context)) context)) in
  ((t <= Qc_of_Z 10)%Qc /\ earned = Num (p + p * Q2Qc (1 # 2))%Qc)
  \/ ((Qc_of_Z 10 < t)%Qc /\ (t < Qc_of_Z 60)%Qc
      /\ earned
         = Num (p + p * Q2Qc (1 # 2)
                    * (Qc_of_Z 1
                       - (t - Qc_of_Z 10) / (Qc_of_Z 60 - Qc_of_Z 10)))%Qc)
  \/ ((Qc_of_Z 60 <= t)%Qc /\ earned = Num p).
Proof.
  intros Hp Hpne Hcorrect Ht. cbv zeta.
  cbn [calculateScore TimeBasedScoring_default].
  unfold TimeBasedScoring_calculateScore.
  cbn [withAnswer withTimeSpent question answer timeSpent isCorrect orElse].
  rewrite (truthy_positive t Ht), Hp, Hcorrect. cbn [andb].
  destruct (Num t <=? 10)%js eqn:Hfast.
  - left. split; [by apply leb_Num in Hfast|]. reflexivity.
  - assert (Qc_of_Z 10 < t)%Qc as H10.
    { apply Qcnot_le_lt. intros Hle. apply leb_Num in Hle.
      unfold ofZ in Hfast. congruence. }
    destruct (Num t <? 60)%js eqn:Hslow.
    + right; left. split; [done|]. split; [by apply ltb_Num in Hslow|].
      cbn [pointsEarned]. unfold ofFrac, ofZ, sub. cbn [neg add].
      rewrite div_Num by done. reflexivity.
    + right; right. split; [|reflexivity].
      apply Qcnot_lt_le. intros Hlt. apply ltb_Num in Hlt.
      unfold ofZ in Hslow. congruence.
Qed.

(** X11.  Among correct answers with a positive finite time, a faster answer never
    earns less than a slower one. *)
Theorem TimeBased_faster_is_not_worse (context : ScoringContext) (p t1 t2 : Qc) :
  points (question context) = Num p -> (0 < p)%Qc ->
  isCorrect (answer context) = true ->
  (0 < t1)%Qc -> (t1 <= t2)%Qc ->
  let scoredAt t :=
    calculateScore TimeBasedScoring_default
      (withAnswer (withTimeSpent (Some (Num t)) (answer context)) context) in
  (pointsEarned (scoredAt t2) <=? pointsEarned (scoredAt t1))%js = true.
Proof.
  intros Hp Hp0 Hcorrect Ht1 Ht12. cbv zeta.
  assert (p <> 0%Qc) as Hpne by (intros ->; by apply Qclt_not_eq in Hp0).
  assert (0 < t2)%Qc as Ht2 by (eapply Qclt_le_trans; done).
  destruct (TimeBased_earned_cases context p t1 Hp Hpne Hcorrect Ht1)
    as [[H1 ->]|[(H1 & H1' & ->)|[H1 ->]]];
  destruct (TimeBased_earned_cases context p t2 Hp Hpne Hcorrect Ht2)
    as [[H2 ->]|[(H2 & H2' & ->)|[H2 ->]]];
  apply leb_Num; qc_unfold;
    try setoid_replace (/ (60 + - (10)))%Q with (1 # 50)%Q
      using relation Qeq by reflexivity;
    nra.
Qed.

Lemma TimeBased_faster_is_not_worse_witness :
  let scoredAt t :=
    calculateScore TimeBasedScoring_default
      (sampleContext (sampleAnswer "A" true None (Some (Num t)))) in
  (pointsEarned (scoredAt (Qc_of_Z 35)) <=? pointsEarned (scoredAt (Qc_of_Z 5)))%js
  = true.
Proof.
  assert ((0 < Qc_of_Z 10)%Qc /\ (0 < Qc_of_Z 5)%Qc
          /\ (Qc_of_Z 5 <= Qc_of_Z 35)%Qc) as (Hp & Ht & Hle) by done.
  exact (TimeBased_faster_is_not_worse
           (sampleContext (sampleAnswer "A" true None None))
           (Qc_of_Z 10) (Qc_of_Z 5) (Qc_of_Z 35) eq_refl Hp eq_refl Ht Hle).
Defined.

(** X12.  A correct answer within the fast threshold is reported above 100
    percent (and at most 150) by [TimeBasedScoring] alone, but at exactly
    100 percent by a composite of that one strategy: the composite divides
    the points earned, [points + points * 0.5], by the inflated
    [pointsPossible], [points * (1 + 0.5)].  (Taken alone the percentage is
    150 here, and within a rounding error of 150 in binary64; the two numbers
    the composite divides are equal there as well.) *)
Theorem TimeBased_percentage_alone_and_composed (context : ScoringContext)
    (p t : Qc) :
  points (question context) = Num p -> (0 < p)%Qc ->
  isCorrect (answer context) = true ->
  timeSpent (answer context) = Some (Num t) ->
  (0 < t)%Qc -> (t <= Qc_of_Z 10)%Qc ->
  let alone := calculateScore TimeBasedScoring_default context in
  let composed :=
    calculateScore (CompositeScoring [TimeBasedScoring_default]) context in
  (100 <? percentage alone)%js = true
  /\ (percentage alone <=? 150)%js = true
  /\ percentage composed = 100
  /\ pointsEarned composed = pointsEarned alone
  /\ pointsPossible composed = pointsPossible alone.
Proof.
  intros Hp Hp0 Hcorrect Htime Ht Hfast alone composed. subst alone composed.
  assert (p <> 0%Qc) as Hpne by (intros ->; by apply Qclt_not_eq in Hp0).
  change (calculateScore (CompositeScoring [TimeBasedScoring_default]) context)
    with (CompositeScoring_aggregate
            [calculateScore TimeBasedScoring_default context]).
  destruct (aggregate_singleton (calculateScore TimeBasedScoring_default context))
    as (-> & -> & _ & _ & ->).
  cbn [calculateScore TimeBasedScoring_default].
  unfold TimeBasedScoring_calculateScore.
  rewrite Htime, Hp, Hcorrect. cbn [orElse]. rewrite (truthy_positive t Ht).
  assert ((Num t <=? 10)%js = true) as -> by (by apply leb_Num).
  cbn [andb pointsEarned pointsPossible percentage].
  unfold ofFrac, ofZ. cbn [mul add].
  assert (0 < p + p * Q2Qc (1 # 2))%Qc as Hsum by (qc_unfold; lra).
  assert (0 < p * (Qc_of_Z 1 + Q2Qc (1 # 2)))%Qc as Hprod by (qc_unfold; lra).
  apply Qclt_not_eq, not_eq_sym in Hprod.
  rewrite !div_Num by done. cbn [mul].
  assert ((p + p * Q2Qc (1 # 2)) / p * Qc_of_Z 100 = Qc_of_Z 150)%Qc as ->.
  { apply Qc_is_canon. qc_unfold. field. by apply nonzero_this. }
  split; [reflexivity|]. split; [reflexivity|].
  split; [|done].
  f_equal. apply Qc_is_canon. qc_unfold. field. lra.
Qed.

Lemma TimeBased_percentage_alone_and_composed_witness :
  let context := sampleContext (sampleAnswer "A" true None (Some (Num (Qc_of_Z 5)))) in
  (100 <? percentage (calculateScore TimeBasedScoring_default context))%js = true
  /\ percentage (calculateScore (CompositeScoring [TimeBasedScoring_default]) context)
     = 100.
Proof.
  assert ((0 < Qc_of_Z 10)%Qc /\ (0 < Qc_of_Z 5)%Qc
          /\ (Qc_of_Z 5 <= Qc_of_Z 10)%Qc) as (Hp & Ht & Hle) by done.
  destruct (TimeBased_percentage_alone_and_composed
              (sampleContext (sampleAnswer "A" true None (Some (Num (Qc_of_Z 5)))))
              (Qc_of_Z 10) (Qc_of_Z 5) eq_refl Hp eq_refl eq_refl Ht Hle)
    as (Habove & _ & Hcomposed & _).
  split; [exact Habove | exact Hcomposed].
Defined.

(** ** Adaptive difficulty scoring *)

(** X13.  For a correct answer to a question with finite positive points and a
    level of at least 1, [AdaptiveDifficultyScoring] reports 100 percent while
    the points earned are [pointsPossible] times the performance multiplier:
    more than [pointsPossible] for a recent accuracy below 60, less for one
    above 90, and exactly [pointsPossible] otherwise. *)
Theorem AdaptiveDifficulty_earned_against_possible (context : ScoringContext)
    (perf : UserPerformanceMetrics) (p l : Qc) :
  points (question context) = Num p -> (0 < p)%Qc ->
  difficultyLevel (question context) = Num l -> (Qc_of_Z 1 <= l)%Qc ->
  userPerformance context = Some perf ->
  isCorrect (answer context) = true ->
  let result := calculateScore AdaptiveDifficultyScoring context in
  percentage result = 100
  /\ pointsEarned result
     = (pointsPossible result * performanceMultiplier (Some perf))%js
  /\ ((recentAccuracy perf <? 60)%js = true ->
      (pointsPossible result <? pointsEarned result)%js = true)
  /\ ((recentAccuracy perf <? 60)%js = false ->
      (recentAccuracy perf >? 90)%js = true ->
      (pointsEarned result <? pointsPossible result)%js = true)
  /\ ((recentAccuracy perf <? 60)%js = false ->
      (recentAccuracy perf >? 90)%js = false ->
      pointsEarned result = pointsPossible result).
Proof.
  intros Hp Hp0 Hl Hl1 Hperf Hcorrect. cbv zeta. cbn [calculateScore].
  unfold AdaptiveDifficultyScoring_calculateScore, difficultyMultiplier.
  rewrite Hp, Hl, Hperf, Hcorrect.
  cbn [pointsEarned pointsPossible percentage performanceMultiplier].
  unfold ofFrac, ofZ, sub. cbn [neg add mul].
  split; [done|]. split; [done|].
  repeat split; intros Hlow; rewrite Hlow; [|intros ->..].
  - apply ltb_Num. qc_unfold. nra.
  - apply ltb_Num. qc_unfold. nra.
  - cbn [mul]. f_equal. by rewrite Z2Qc_inj_1, Qcmult_1_r.
Qed.

Lemma AdaptiveDifficulty_earned_against_possible_witness :
  let result :=
    calculateScore AdaptiveDifficultyScoring
      {| question := sampleQuestion "q1" 5;
         answer := sampleAnswer "A" true None None;
         userPerformance := Some (performanceOf 95 0) |} in
  percentage result = 100
  /\ (pointsEarned result <? pointsPossible result)%js = true.
Proof.
  assert ((0 < Qc_of_Z 10)%Qc /\ (Qc_of_Z 1 <= Qc_of_Z 5)%Qc) as [Hp Hl] by done.
  destruct (AdaptiveDifficulty_earned_against_possible
              {| question := sampleQuestion "q1" 5;
                 answer := sampleAnswer "A" true None None;
                 userPerformance := Some (performanceOf 95 0) |}
              (performanceOf 95 0) (Qc_of_Z 10) (Qc_of_Z 5)
              eq_refl Hp eq_refl Hl eq_refl eq_refl) as (Hpct & _ & _ & Hhigh & _).
  split; [exact Hpct | exact (Hhigh eq_refl eq_refl)].
Defined.

(** ** Combo streak scoring *)

Lemma orElse_zero_default (c : Qc) : orElse (Some (Num c)) 0 = Num c.
Proof.
  unfold orElse, truthy. destruct (decide (c = 0%Qc)) as [->|]; [|done].
  apply ofZ_0.
Qed.

(** X14.  For a question with finite positive points and a run of [c >= 0] correct
    answers in the metrics, [pointsPossible] lies between [points] and
    [points * 2], and is [points * 2] from a run of 10 on; a correct answer
    earns all of it at 100 percent, a wrong one nothing at 0 percent. *)
Theorem ComboStreak_multiplier_capped (context : ScoringContext)
    (perf : UserPerformanceMetrics) (p c : Qc) :
  points (question context) = Num p -> (0 < p)%Qc ->
  userPerformance context = Some perf ->
  consecutiveCorrect perf = Num c -> (0 <= c)%Qc ->
  let result := calculateScore ComboStreakScoring_default context in
  (points (question context) <=? pointsPossible result)%js = true
  /\ (pointsPossible result <=? points (question context) * 2)%js = true
  /\ ((Qc_of_Z 10 <= c)%Qc ->
      pointsPossible result = (points (question context) * 2)%js)
  /\ (isCorrect (answer context) = true ->
      pointsEarned result = pointsPossible result /\ percentage result = 100)
  /\ (isCorrect (answer context) = false ->
      pointsEarned result = 0 /\ percentage result = 0).
Proof.
  intros Hp Hp0 Hperf Hc Hc0. cbv zeta.
  cbn [calculateScore ComboStreakScoring_default].
  unfold ComboStreakScoring_calculateScore. rewrite Hp, Hperf.
  cbn [fmap option_fmap option_map]. rewrite Hc, orElse_zero_default.
  assert (exists m, JS.min 2 (1 + Num c * ofFrac 1 10) = Num m
                    /\ (Qc_of_Z 1 <= m)%Qc /\ (m <= Qc_of_Z 2)%Qc
                    /\ ((Qc_of_Z 10 <= c)%Qc -> m = Qc_of_Z 2)) as (m & -> & Hm1 & Hm2 & Hcap).
  { unfold ofFrac, ofZ. cbn [mul add]. unfold JS.min.
    destruct (Num (Qc_of_Z 2) <=? Num _)%js eqn:Hle.
    - exists (Qc_of_Z 2). by repeat split.
    - eexists. split; [reflexivity|]. apply leb_total_Num, leb_Num in Hle.
      repeat split; [qc_unfold; lra | done |].
      intros H10. apply Qcle_antisym; [done|]. qc_unfold. lra. }
  destruct (isCorrect (answer context));
    cbn [pointsEarned pointsPossible percentage];
    (split; [apply leb_Num; qc_unfold; nra|]);
    (split; [apply leb_Num; qc_unfold; nra|]);
    (split; [by intros ->%Hcap|]);
    by split.
Qed.

Lemma ComboStreak_multiplier_capped_witness :
  let result :=
    calculateScore ComboStreakScoring_default
      {| question := sampleQuestion "q1" 3;
         answer := sampleAnswer "A" true None None;
         userPerformance := Some (performanceOf 95 12) |} in
  pointsPossible result = (10 * 2)%js
  /\ pointsEarned result = pointsPossible result.
Proof.
  assert ((0 < Qc_of_Z 10)%Qc /\ (0 <= Qc_of_Z 12)%Qc
          /\ (Qc_of_Z 10 <= Qc_of_Z 12)%Qc) as (Hp & Hc & Hrun) by done.
  destruct (ComboStreak_multiplier_capped
              {| question := sampleQuestion "q1" 3;
                 answer := sampleAnswer "A" true None None;
                 userPerformance := Some (performanceOf 95 12) |}
              (performanceOf 95 12) (Qc_of_Z 10) (Qc_of_Z 12)
              eq_refl Hp eq_refl eq_refl Hc) as (_ & _ & Hcap & Hcorrect & _).
  split; [exact (Hcap Hrun) | exact (proj1 (Hcorrect eq_refl))].
Defined.

(** ** The strategy factory *)

(** X15.  Registering a strategy makes its name resolve to it, and leaves the
    resolution of every other name alone unless the name registered is
    ["standard"], the fallback, in which case the unknown names follow it. *)
Theorem registerStrategy_getStrategy (name other : string)
    (strategy : ScoringStrategy) (strategies : gmap string ScoringStrategy) :
  getStrategy (registerStrategy name strategy strategies) name = Some strategy
  /\ (other <> name -> name <> "standard"%string ->
      getStrategy (registerStrategy name strategy strategies) other
      = getStrategy strategies other)
  /\ (other <> name -> is_Some (strategies !! other) ->
      getStrategy (registerStrategy name strategy strategies) other
      = getStrategy strategies other)
  /\ (name = "standard"%string -> other <> name -> strategies !! other = None ->
      getStrategy (registerStrategy name strategy strategies) other = Some strategy).
Proof.
  unfold getStrategy, registerStrategy. repeat split.
  - by rewrite lookup_insert_eq.
  - intros Hother Hname. rewrite lookup_insert_ne by done.
    destruct (strategies !! other); [done|]. by rewrite lookup_insert_ne.
  - intros Hother [s Hs]. rewrite lookup_insert_ne by done. by rewrite Hs.
  - intros -> Hother Hnone. rewrite lookup_insert_ne by done.
    by rewrite Hnone, lookup_insert_eq.
Qed.

Lemma registerStrategy_getStrategy_witness :
  getStrategy (registerStrategy "composite" (CompositeScoring []) initialStrategies)
    "threshold"
  = getStrategy initialStrategies "threshold".
Proof.
  destruct (registerStrategy_getStrategy "composite" "threshold"
              (CompositeScoring []) initialStrategies) as (_ & Hother & _).
  apply Hother; discriminate.
Defined.

(** X16.  However many strategies have been registered on top of the initial
    registry, and under whatever names, [getStrategy] finds a strategy for
    every name. *)
Theorem getStrategy_always_resolves
    (registrations : list (string * ScoringStrategy)) (name : string) :
  is_Some
    (getStrategy
       (foldl (fun strategies entry => registerStrategy entry.1 entry.2 strategies)
          initialStrategies registrations)
       name).
Proof.
  assert (forall strategies : gmap string ScoringStrategy,
            is_Some (strategies !! "standard"%string) ->
            is_Some
              (getStrategy
                 (foldl (fun strategies entry =>
                           registerStrategy entry.1 entry.2 strategies)
                    strategies registrations)
                 name)) as Hinv.
  { induction registrations as [|[n s] rest IH]; intros strategies Hstd.
    - cbn [foldl]. unfold getStrategy. by destruct (strategies !! name).
    - cbn [foldl]. apply IH. unfold registerStrategy. cbn [fst snd].
      destruct (decide (n = "standard"%string)) as [->|Hne].
      + rewrite lookup_insert_eq. by eexists.
      + by rewrite lookup_insert_ne. }
  apply Hinv. by eexists.
Qed.

(** X17.  In the initial registry every name other than the eight registered ones
    resolves to [StandardScoring]; ["composite"] is such a name. *)
Theorem getStrategy_unknown_name (name : string) :
  name ∉ [ "standard"; "negative_penalty"; "partial_credit"; "confidence_based";
           "threshold"; "time_based"; "adaptive_difficulty"; "combo_streak" ]%string ->
  getStrategy initialStrategies name = Some StandardScoring.
Proof.
  intros Hname. apply getStrategy_initial_fallback.
  unfold initialStrategies. apply not_elem_of_list_to_map_1. exact Hname.
Qed.

Lemma getStrategy_unknown_name_witness :
  getStrategy initialStrategies "composite" = Some StandardScoring.
Proof.
  apply getStrategy_unknown_name.
  intros H. repeat (apply elem_of_cons in H as [H|H]; [discriminate H|]).
  by apply elem_of_nil in H.
Defined.

(** ** Feedback *)

(** X18.  Whatever the verdict, the points and the language, a number printed in
    the feedback is printed with one decimal and is positive: points lost are
    shown by their absolute value. *)
Theorem formatFeedback_prints_positive (correct : bool) (earned : number)
    (language : string) (n : number) (d : nat) :
  Fixed n d ∈ formatFeedback correct earned language ->
  (n >? 0)%js = true /\ d = 1%nat.
Proof.
  unfold formatFeedback.
  assert ((earned <? 0)%js = true -> (abs earned >? 0)%js = true) as Habs.
  { unfold gtb. destruct earned as [q| | |]; try done.
    intros Hq. unfold ofZ in *. rewrite Z2Qc_inj_0 in *.
    apply ltb_Num in Hq. unfold abs.
    destruct (q ?= 0)%Qc eqn:Hcmp.
    - apply Qceq_alt in Hcmp as ->. by apply Qclt_not_eq in Hq.
    - apply ltb_Num. qc_unfold. lra.
    - apply Qcgt_alt in Hcmp. exfalso. qc_unfold. lra. }
  destruct (String.eqb language "tl"), correct;
    destruct (earned >? 0)%js eqn:Hpos; destruct (earned <? 0)%js eqn:Hneg;
    intros H;
    repeat (apply elem_of_cons in H as [H|H]; [try discriminate H|]);
    try (by apply elem_of_nil in H);
    injection H as -> ->; auto.
Qed.

Lemma formatFeedback_prints_positive_witness :
  (abs (- ofFrac 5 2) >? 0)%js = true.
Proof.
  apply (formatFeedback_prints_positive false (- ofFrac 5 2)%js "tl"
           (abs (- ofFrac 5 2)%js) 1).
  apply elem_of_cons. right. apply elem_of_cons. left.
  replace (- ofFrac 5 2 <? 0)%js with true by reflexivity. reflexivity.
Defined.

(** * Further properties of the adaptive selection *)

Lemma abs_leb (x : Qc) (b : Z) :
  (Num (Qc_of_Z (- b)) <=? Num x)%js = true -> (Num x <=? Num (Qc_of_Z b))%js = true ->
  (abs (Num x) <=? b)%js = true.
Proof.
  intros Hlo%leb_Num Hhi%leb_Num. rewrite Z2Qc_inj_opp in Hlo.
  unfold abs. destruct (x ?= 0)%Qc; unfold ofZ; apply leb_Num; qc_unfold; lra.
Qed.

Lemma abs_leb_inv (x : Qc) (b : Z) :
  (abs (Num x) <=? b)%js = true ->
  (Qc_of_Z (- b) <= x)%Qc /\ (x <= Qc_of_Z b)%Qc.
Proof.
  unfold abs. rewrite Z2Qc_inj_opp.
  destruct (x ?= 0)%Qc eqn:Hcmp; unfold ofZ; intros H%leb_Num.
  - apply Qceq_alt in Hcmp as ->. qc_unfold. lra.
  - apply Qclt_alt in Hcmp. qc_unfold. lra.
  - apply Qcgt_alt in Hcmp. qc_unfold. lra.
Qed.

Section MoreSelectionFacts.

Variable sortRandomly : list Question -> list Question.
Hypothesis sortRandomly_permutes : forall l, sortRandomly l ≡ₚ l.

Abbreviation select' := (selectAdaptiveQuestions sortRandomly).

(** Whatever is returned passed the filter. *)
Lemma select_in_band availableQuestions count userPerformance currentDifficulty q :
  q ∈ select' availableQuestions count userPerformance currentDifficulty ->
  nearTarget (targetDifficulty userPerformance currentDifficulty) q = true.
Proof.
  destruct (select_is_prefix sortRandomly availableQuestions count
              userPerformance currentDifficulty) as [k ->].
  intros Hq%subseteq_take. rewrite sortRandomly_permutes in Hq.
  by apply list_elem_of_In, filter_In in Hq as [_ Hq].
Qed.

(** A count that reaches the size of the band returns the whole band. *)
Lemma select_whole_band availableQuestions (n : Z) userPerformance currentDifficulty :
  (Z.of_nat
     (length (List.filter
                (nearTarget (targetDifficulty userPerformance currentDifficulty))
                availableQuestions)) <= n)%Z ->
  select' availableQuestions (ofZ n) userPerformance currentDifficulty
  ≡ₚ List.filter (nearTarget (targetDifficulty userPerformance currentDifficulty))
       availableQuestions.
Proof.
  intros Hn. unfold selectAdaptiveQuestions.
  set (band := List.filter _ availableQuestions) in *.
  pose proof (Permutation_length (sortRandomly_permutes band)) as Hlen.
  rewrite slice_from_start, min_ofZ, relativeIndex_ofZ by lia.
  rewrite take_ge by lia. apply sortRandomly_permutes.
Qed.

(** X19.  From a current difficulty within [1, 5] the target moves by at most one
    level, so every question returned lies within two levels of the current
    difficulty. *)
Theorem selection_stays_near_current (availableQuestions : list Question)
    (count : number) (userPerformance : UserPerformanceMetrics)
    (current : Qc) :
  (Qc_of_Z 1 <= current)%Qc -> (current <= Qc_of_Z 5)%Qc ->
  (abs (targetDifficulty userPerformance (Num current) - Num current) <=? 1)%js = true
  /\ (forall q,
        q ∈ select' availableQuestions count userPerformance (Num current) ->
        (abs (difficultyLevel q - Num current) <=? 2)%js = true).
Proof.
  intros Hlo Hhi.
  assert (exists t, targetDifficulty userPerformance (Num current) = Num t
                    /\ (current - Qc_of_Z 1 <= t)%Qc
                    /\ (t <= current + Qc_of_Z 1)%Qc) as (t & Ht & Ht1 & Ht2).
  { unfold targetDifficulty, JS.min, JS.max, sub, neg, add, ofZ.
    repeat case_match; eexists; (split; [reflexivity|]); to_Q; qc_unfold;
      split; lra. }
  split.
  - rewrite Ht. unfold sub. cbn [neg add].
    apply abs_leb; apply leb_Num; rewrite ?Z2Qc_inj_opp; qc_unfold; lra.
  - intros q Hq.
    pose proof (select_in_band _ _ _ _ _ Hq) as Hband.
    unfold nearTarget in Hband. rewrite Ht in Hband.
    destruct (difficultyLevel q) as [l| | |]; try done.
    unfold sub in *. cbn [neg add] in *.
    apply abs_leb_inv in Hband as [Hb1 Hb2]. rewrite Z2Qc_inj_opp in Hb1.
    apply abs_leb; apply leb_Num; rewrite ?Z2Qc_inj_opp; qc_unfold; lra.
Qed.

(** X20.  The count decides how much of the shuffled band is returned: all of it
    when the count is an integer at least its size or [Infinity], none of it
    when the count is [NaN] or [-Infinity], and all but the last [k]
    questions when the count is the negative integer [-k]. *)
Theorem selection_count_edges (availableQuestions : list Question)
    (count : number) (userPerformance : UserPerformanceMetrics)
    (currentDifficulty : number) :
  let band :=
    List.filter (nearTarget (targetDifficulty userPerformance currentDifficulty))
      availableQuestions in
  let result := select' availableQuestions count userPerformance currentDifficulty in
  (forall n : Z, count = ofZ n -> (Z.of_nat (length band) <= n)%Z -> result ≡ₚ band)
  /\ (count = Infinity -> result ≡ₚ band)
  /\ (count = NaN \/ count = NegInfinity -> result = [])
  /\ (forall k : Z, count = ofZ (- k) -> (0 < k)%Z ->
        length result = (length band - Z.to_nat k)%nat).
Proof.
  cbv zeta. unfold selectAdaptiveQuestions.
  set (band := List.filter _ availableQuestions).
  pose proof (Permutation_length (sortRandomly_permutes band)) as Hlen.
  rewrite slice_from_start.
  repeat split.
  - intros n -> Hn. fold band.
    pose proof (select_whole_band availableQuestions n userPerformance
                  currentDifficulty Hn) as Hall.
    unfold selectAdaptiveQuestions in Hall. fold band in Hall.
    by rewrite slice_from_start in Hall.
  - intros ->.
    change (JS.min Infinity (Z.of_nat (length (sortRandomly band))))
      with (ofZ (Z.of_nat (length (sortRandomly band)))).
    rewrite relativeIndex_ofZ by lia.
    rewrite take_ge by lia. apply sortRandomly_permutes.
  - by intros [-> | ->].
  - intros k -> Hk. rewrite min_ofZ, Z.min_l by lia.
    unfold relativeIndex, ofZ, Qc_of_Z. cbn [this inject_Z Qnum Qden].
    rewrite Z.quot_1_r. destruct (Z.ltb_spec (- k) 0); [|lia].
    rewrite length_take. lia.
Qed.

End MoreSelectionFacts.

Lemma selection_stays_near_current_witness :
  (abs (targetDifficulty steadyPerformance (Num (Qc_of_Z 3)) - Num (Qc_of_Z 3)) <=? 1)%js
  = true
  /\ (abs (difficultyLevel (sampleQuestion "d1" 4) - Num (Qc_of_Z 3)) <=? 2)%js = true.
Proof.
  assert ((Qc_of_Z 1 <= Qc_of_Z 3)%Qc /\ (Qc_of_Z 3 <= Qc_of_Z 5)%Qc)
    as [Hlo Hhi] by done.
  destruct (selection_stays_near_current (@rev Question) rev_permutes
              samplePool 4 steadyPerformance (Qc_of_Z 3) Hlo Hhi) as [Htarget Hnear].
  split; [exact Htarget|]. apply Hnear.
  apply list_elem_of_In. vm_compute. right. left. reflexivity.
Defined.

Lemma selection_count_edges_witness :
  selectAdaptiveQuestions (@rev Question) samplePool 50 steadyPerformance 3
  ≡ₚ List.filter (nearTarget (targetDifficulty steadyPerformance 3)) samplePool
  /\ length (selectAdaptiveQuestions (@rev Question) samplePool (- 2)%Z
               steadyPerformance 3) = 4%nat.
Proof.
  destruct (selection_count_edges (@rev Question) rev_permutes samplePool 50
              steadyPerformance 3) as (Hall & _).
  destruct (selection_count_edges (@rev Question) rev_permutes samplePool (- 2)%Z
              steadyPerformance 3) as (_ & _ & _ & Hneg).
  split.
  - apply (Hall 50%Z eq_refl). vm_compute. discriminate.
  - exact (Hneg 2%Z eq_refl ltac:(lia)).
Defined.

(** * Properties of the mock data generator *)

(** [Math.max(1, Math.min(5, x))] on a finite [x]. *)
Lemma clamp_difficulty (x : Qc) :
  exists d,
    JS.max 1 (JS.min 5 (Num x)) = Num d
    /\ (Qc_of_Z 1 <= d)%Qc /\ (d <= Qc_of_Z 5)%Qc
    /\ (forall b, (Qc_of_Z 1 <= b)%Qc -> (b <= Qc_of_Z 5)%Qc ->
          (b - Qc_of_Z 1 <= x)%Qc -> (x <= b + Qc_of_Z 1)%Qc ->
          (b - Qc_of_Z 1 <= d)%Qc /\ (d <= b + Qc_of_Z 1)%Qc).
Proof.
  unfold JS.min, JS.max, ofZ.
  destruct (Num (Qc_of_Z 5) <=? Num x)%js eqn:H5.
  - exists (Qc_of_Z 5). split; [reflexivity|]. to_Q. qc_unfold.
    repeat split; try lra; intros; qc_unfold; lra.
  - destruct (Num (Qc_of_Z 1) <=? Num x)%js eqn:H1.
    + exists x. split; [reflexivity|]. to_Q. qc_unfold.
      repeat split; try lra; intros; qc_unfold; lra.
    + exists (Qc_of_Z 1). split; [reflexivity|]. to_Q. qc_unfold.
      repeat split; try lra; intros; qc_unfold; lra.
Qed.

(** [Math.floor(r * 3) - 1] is -1, 0 or 1 for a draw [r] in [0, 1). *)
Lemma difficultyVariation_range (r : Qc) :
  exists v : Z,
    (floor (Num r * 3) - 1)%js = ofZ v
    /\ ((0 <= r)%Qc -> (r < Qc_of_Z 1)%Qc -> (-1 <= v <= 1)%Z).
Proof.
  exists (Qfloor (r * Qc_of_Z 3)%Qc - 1)%Z. split.
  - unfold floor, sub, ofZ. cbn [mul neg add]. f_equal.
    by rewrite Z2Qc_inj_sub.
  - intros Hr0 Hr1.
    pose proof (Qfloor_le (r * Qc_of_Z 3)%Qc) as Hlo.
    pose proof (Qlt_floor (r * Qc_of_Z 3)%Qc) as Hhi.
    set (f := Qfloor (r * Qc_of_Z 3)%Qc) in *.
    assert (inject_Z f < 3)%Q as Hf3 by (qc_unfold; lra).
    assert (0 < inject_Z (f + 1))%Q as Hf0 by (qc_unfold; lra).
    change 3%Q with (inject_Z 3) in Hf3. change 0%Q with (inject_Z 0) in Hf0.
    rewrite <- Zlt_Qlt in Hf3, Hf0. lia.
Qed.

Lemma indexed_id_inj (a b c : string) :
  Inj (=) (=) (fun i : nat => a +:+ b +:+ c +:+ indexToString i).
Proof.
  intros i j H.
  apply (inj (String.app a)), (inj (String.app b)), (inj (String.app c)) in H.
  by apply (inj pretty) in H.
Qed.

Section MockDataFacts.

Variable random : nat -> number.

Abbreviation mock := (mockQuestion random).

Lemma mockQuestion_template (topic : string) (baseDifficulty : number) (i : nat) :
  exists template,
    template ∈ filipinoQuestions
    /\ options (mock topic baseDifficulty i)
       = imap (fun idx opt =>
                 {| opt_id := "opt_" +:+ indexToString i +:+ "_" +:+ indexToString idx;
                    opt_isCorrect := correct opt;
                    partialCreditPercentage := partial opt |})
              (template_options template).
Proof.
  unfold mockQuestion. cbn [options].
  change (length filipinoQuestions) with 3%nat.
  pose proof (Nat.mod_upper_bound i 3 ltac:(lia)) as Hlt.
  destruct (i mod 3)%nat as [|[|[|k]]]; [..|lia];
    eexists; (split; [|reflexivity]); unfold filipinoQuestions; cbn;
    repeat first [ by apply list_elem_of_here | apply list_elem_of_further ].
Qed.

Lemma mockQuestion_difficulty (topic : string) (b r : Qc) (i : nat) :
  random i = Num r ->
  exists d,
    difficultyLevel (mock topic (Num b) i) = Num d
    /\ points (mock topic (Num b) i) = Num d
    /\ (Qc_of_Z 1 <= d)%Qc /\ (d <= Qc_of_Z 5)%Qc
    /\ ((0 <= r)%Qc -> (r < Qc_of_Z 1)%Qc ->
        (Qc_of_Z 1 <= b)%Qc -> (b <= Qc_of_Z 5)%Qc ->
        (abs (Num d - Num b) <=? 1)%js = true).
Proof.
  intros Hr.
  destruct (difficultyVariation_range r) as (v & Hv & Hvrange).
  destruct (clamp_difficulty (b + Qc_of_Z v)) as (d & Hd & Hd1 & Hd5 & Hnear).
  exists d. unfold mockQuestion. cbn [difficultyLevel points]. rewrite Hr, Hv.
  repeat split; try done.
  intros Hr0 Hr1 Hb1 Hb5. specialize (Hvrange Hr0 Hr1).
  destruct (Hnear b Hb1 Hb5) as [Hlo Hhi].
  - assert (Qc_of_Z (-1)%Z <= Qc_of_Z v)%Qc
      by (apply (proj1 (Z2Qc_inj_le _ _)); lia).
    qc_unfold. lra.
  - assert (Qc_of_Z v <= Qc_of_Z 1)%Qc by (apply (proj1 (Z2Qc_inj_le _ _)); lia).
    qc_unfold. lra.
  - unfold sub. cbn [neg add].
    apply abs_leb; apply leb_Num; rewrite ?Z2Qc_inj_opp; qc_unfold; lra.
Qed.

(** X21.  Every generated question is well formed: its difficulty is clamped to
    [1, 5] and is also its point value, it has four options with distinct
    ids of which exactly one is correct; and when the base difficulty lies in
    [1, 5] and the draw in [0, 1), the difficulty is within one level of the
    base.  (Base difficulty and draw are finite numbers.) *)
Theorem mockQuestion_well_formed (topic : string) (b r : Qc) (i : nat) :
  random i = Num r ->
  let q := mock topic (Num b) i in
  (1 <=? difficultyLevel q)%js = true
  /\ (difficultyLevel q <=? 5)%js = true
  /\ points q = difficultyLevel q
  /\ length (options q) = 4%nat
  /\ length (List.filter opt_isCorrect (options q)) = 1%nat
  /\ NoDup (map opt_id (options q))
  /\ ((0 <= r)%Qc -> (r < Qc_of_Z 1)%Qc ->
      (Qc_of_Z 1 <= b)%Qc -> (b <= Qc_of_Z 5)%Qc ->
      (abs (difficultyLevel q - Num b) <=? 1)%js = true).
Proof.
  intros Hr. cbv zeta.
  destruct (mockQuestion_difficulty topic b r i Hr)
    as (d & Hlevel & Hpoints & Hd1 & Hd5 & Hnear).
  destruct (mockQuestion_template topic (Num b) i) as (template & Hin & ->).
  rewrite Hlevel, Hpoints.
  split; [by apply leb_Num|]. split; [by apply leb_Num|]. split; [done|].
  assert (template = default noTemplate (filipinoQuestions !! 0%nat)
          \/ template = default noTemplate (filipinoQuestions !! 1%nat)
          \/ template = default noTemplate (filipinoQuestions !! 2%nat))
    as Hcases.
  { unfold filipinoQuestions in Hin.
    repeat (apply elem_of_cons in Hin as [->|Hin]; [by auto|]).
    by apply elem_of_nil in Hin. }
  split; [by destruct Hcases as [->|[->| ->]]|].
  split; [by destruct Hcases as [->|[->| ->]]|].
  split.
  - assert (map opt_id
              (imap (fun idx opt =>
                       {| opt_id := "opt_" +:+ indexToString i +:+ "_"
                                    +:+ indexToString idx;
                          opt_isCorrect := correct opt;
                          partialCreditPercentage := partial opt |})
                    (template_options template))
            = (fun idx => "opt_" +:+ indexToString i +:+ "_" +:+ indexToString idx)
                <$> [0; 1; 2; 3]%nat) as ->.
    { by destruct Hcases as [->|[->| ->]]. }
    apply (@NoDup_fmap_2 _ _ _ (indexed_id_inj _ _ _)).
    apply NoDup_ListNoDup. repeat constructor; cbn; intuition discriminate.
  - exact Hnear.
Qed.

End MockDataFacts.

Section GeneratorFacts.

Variable random : nat -> number.

Lemma generateLoop_counted (topic : string) (baseDifficulty : number) (n : nat) :
  forall fuel i questions,
    (i <= n)%nat -> (n - i < fuel)%nat ->
    generateLoop random fuel topic (ofZ (Z.of_nat n)) baseDifficulty i questions
    = Some (questions
            ++ map (mockQuestion random topic baseDifficulty) (seq i (n - i))).
Proof.
  induction fuel as [|fuel IH]; intros i questions Hi Hfuel; [lia|].
  cbn [generateLoop].
  destruct (ofZ (Z.of_nat i) <? ofZ (Z.of_nat n))%js eqn:Hlt.
  - apply ltb_ofZ in Hlt. rewrite IH by lia.
    replace (n - i)%nat with (S (n - S i)) by lia.
    cbn [seq map]. by rewrite <- app_assoc.
  - assert (i = n) as ->.
    { destruct (decide (i = n)) as [|Hne]; [done|].
      assert (Z.of_nat i < Z.of_nat n)%Z as H%ltb_ofZ by lia. congruence. }
    rewrite Nat.sub_diag. cbn [seq map]. by rewrite app_nil_r.
Qed.

Lemma generateLoop_forever (topic : string) (baseDifficulty : number) :
  forall fuel i questions,
    generateLoop random fuel topic Infinity baseDifficulty i questions = None.
Proof. induction fuel as [|fuel IH]; intros i questions; [done|]. apply IH. Qed.

(** X22.  The generator's loop.  For a count that is a natural number [n] it ends
    after [n] iterations with the [n] questions of the indices [0 .. n-1];
    for a count that is [NaN] or at most 0 it ends at once with no question;
    for the count [Infinity] it never ends. *)
Theorem generateMockQuestions_loop (fuel : nat) (topic : string)
    (count baseDifficulty : number) :
  (forall n : nat, count = ofZ (Z.of_nat n) -> (n < fuel)%nat ->
     generateMockQuestions random fuel topic count baseDifficulty
     = Some (map (mockQuestion random topic baseDifficulty) (seq 0 n)))
  /\ (count = NaN \/ (count <=? 0)%js = true -> (0 < fuel)%nat ->
      generateMockQuestions random fuel topic count baseDifficulty = Some [])
  /\ (count = Infinity ->
      generateMockQuestions random fuel topic count baseDifficulty = None).
Proof.
  unfold generateMockQuestions. repeat split.
  - intros n -> Hn. rewrite generateLoop_counted by lia.
    by rewrite Nat.sub_0_r.
  - intros Hcount Hfuel. destruct fuel as [|fuel]; [lia|]. cbn [generateLoop].
    assert ((ofZ (Z.of_nat 0) <? count)%js = false) as ->; [|done].
    destruct Hcount as [->|Hle]; [done|].
    apply not_true_is_false. intros Hlt%ltb_leb_false.
    change (ofZ (Z.of_nat 0)) with (ofZ 0) in Hlt. congruence.
  - intros ->. apply generateLoop_forever.
Qed.

(** X23.  The questions generated for one topic have pairwise distinct ids. *)
Theorem generateMockQuestions_distinct_ids (fuel : nat) (topic : string)
    (n : nat) (baseDifficulty : number) (questions : list Question) :
  generateMockQuestions random fuel topic (ofZ (Z.of_nat n)) baseDifficulty
  = Some questions ->
  length questions = n /\ NoDup (map q_id questions).
Proof.
  unfold generateMockQuestions. intros H.
  destruct (decide (n < fuel)%nat) as [Hfuel|Hfuel].
  - rewrite generateLoop_counted in H by lia. injection H as <-.
    rewrite Nat.sub_0_r. cbn [app]. split; [by rewrite length_map, length_seq|].
    rewrite map_map. cbn [mockQuestion q_id].
    apply (@NoDup_fmap_2 _ _ _ (indexed_id_inj _ _ _)). apply NoDup_seq.
  - assert (forall f i (l : list Question), (f + i <= n)%nat ->
              generateLoop random f topic (ofZ (Z.of_nat n)) baseDifficulty i l
              = None) as Hnone.
    { induction f as [|f IH]; intros i l Hi; [done|]. cbn [generateLoop].
      assert (Z.of_nat i < Z.of_nat n)%Z as ->%ltb_ofZ by lia.
      apply IH. lia. }
    rewrite Hnone in H by lia. done.
Qed.

End GeneratorFacts.

Lemma generateMockQuestions_loop_witness :
  generateMockQuestions (fun _ => ofFrac 1 2) 6 "t" 5 3
  = Some (map (mockQuestion (fun _ => ofFrac 1 2) "t" 3) (seq 0 5)).
Proof.
  destruct (generateMockQuestions_loop (fun _ => ofFrac 1 2) 6 "t" 5 3)
    as (Hcounted & _).
  exact (Hcounted 5%nat eq_refl ltac:(lia)).
Defined.

Lemma generateMockQuestions_distinct_ids_witness :
  NoDup (map q_id (map (mockQuestion (fun _ => ofFrac 1 2) "t" 3) (seq 0 5))).
Proof.
  apply (generateMockQuestions_distinct_ids (fun _ => ofFrac 1 2) 6 "t" 5 3).
  reflexivity.
Defined.

Lemma mockQuestion_well_formed_witness :
  let q := mockQuestion (fun _ => ofFrac 1 2) "t" (Num (Qc_of_Z 3)) 4 in
  points q = difficultyLevel q
  /\ length (List.filter opt_isCorrect (options q)) = 1%nat
  /\ (abs (difficultyLevel q - Num (Qc_of_Z 3)) <=? 1)%js = true.
Proof.
  destruct (mockQuestion_well_formed (fun _ => ofFrac 1 2) "t" (Qc_of_Z 3)
              (Q2Qc (1 # 2)) 4 eq_refl) as (_ & _ & Hpoints & _ & Hone & _ & Hnear).
  assert ((0 <= Q2Qc (1 # 2))%Qc /\ (Q2Qc (1 # 2) < Qc_of_Z 1)%Qc
          /\ (Qc_of_Z 1 <= Qc_of_Z 3)%Qc /\ (Qc_of_Z 3 <= Qc_of_Z 5)%Qc)
    as (H0 & H1 & Hlo & Hhi) by done.
  split; [exact Hpoints | split; [exact Hone | exact (Hnear H0 H1 Hlo Hhi)]].
Defined.

(** * Properties of the quiz controller *)

Lemma truthyString_Some (o : option string) (s : string) :
  truthyString o = Some s -> o = Some s /\ s <> EmptyString.
Proof. destruct o as [[|]|]; naive_solver. Qed.

Lemma truthyString_nonempty (s : string) :
  s <> EmptyString -> truthyString (Some s) = Some s.
Proof. by destruct s. Qed.

Lemma ownSession_Some (activeSessions : gmap string QuizSession)
    (sessionId user : string) (session : QuizSession) :
  ownSession activeSessions sessionId user = Some session ->
  activeSessions !! sessionId = Some session /\ userId session = user.
Proof.
  unfold ownSession. destruct (activeSessions !! sessionId) as [s|]; [|done].
  destruct (String.eqb_spec (userId s) user); naive_solver.
Qed.

Lemma filter_all {A : Type} (f : A -> bool) (l : list A) :
  (forall x, x ∈ l -> f x = true) -> List.filter f l = l.
Proof.
  induction l as [|x l IH]; intros Hall; [done|]. cbn [List.filter].
  rewrite (Hall x) by apply list_elem_of_here.
  f_equal. apply IH. intros y Hy. apply Hall. by apply list_elem_of_further.
Qed.

Lemma lengthOf_snoc {A : Type} (l : list A) (x : A) :
  lengthOf (l ++ [x]) = (lengthOf l + 1)%js.
Proof.
  unfold lengthOf, ofZ. cbn [add]. rewrite length_app, Nat.add_1_r.
  by rewrite <- Z2Qc_inj_add, Nat2Z.inj_succ, Z.add_1_r.
Qed.

Section StartQuizFacts.

Variable random : nat -> number.
Variable sortRandomly : list Question -> list Question.
Hypothesis sortRandomly_permutes : forall l, sortRandomly l ≡ₚ l.
Hypothesis random_unit_interval :
  forall i, exists r, random i = Num r /\ (0 <= r)%Qc /\ (r < Qc_of_Z 1)%Qc.

(** X24.  Starting a quiz with a count of [n] questions and a difficulty within
    [1, 5] stores a session that holds exactly the [n] generated questions, in
    some order: every generated question lies within one level of the
    requested difficulty, so the selection drops none.  The session starts
    consistent, with no answer and a raw score of 0. *)
Theorem startQuiz_keeps_every_generated_question (fuel : nat)
    (newSessionId : string) (now : number) (user topic : string) (n : nat)
    (b : Qc) (algorithm : option string)
    (activeSessions : gmap string QuizSession) :
  user <> EmptyString -> topic <> EmptyString -> (n < fuel)%nat ->
  (Qc_of_Z 1 <= b)%Qc -> (b <= Qc_of_Z 5)%Qc ->
  exists data session,
    startQuiz random sortRandomly fuel newSessionId now (Some user)
      {| StartQuiz.topicId := Some topic;
         StartQuiz.questionCount := Some (ofZ (Z.of_nat n));
         StartQuiz.difficultyLevel := Some (Num b);
         StartQuiz.scoringAlgorithm := algorithm |}
      activeSessions
    = Some (Success data, <[newSessionId := session]> activeSessions)
    /\ questions session ≡ₚ map (mockQuestion random topic (Num b)) (seq 0 n)
    /\ totalQuestions session = ofZ (Z.of_nat n)
    /\ StartQuiz.totalQuestions data = ofZ (Z.of_nat n)
    /\ length (StartQuiz.questions data) = n
    /\ answers session = [] /\ rawScore session = 0
    /\ userId session = user
    /\ consistentSession session.
Proof.
  intros Huser Htopic Hfuel Hb1 Hb5. unfold startQuiz.
  cbn [StartQuiz.topicId StartQuiz.questionCount StartQuiz.difficultyLevel
       StartQuiz.scoringAlgorithm orDefault].
  rewrite !truthyString_nonempty by done.
  set (pool := map (mockQuestion random topic (Num b)) (seq 0 n)).
  assert (generateMockQuestions random fuel topic (ofZ (Z.of_nat n)) (Num b)
          = Some pool) as ->.
  { unfold generateMockQuestions. rewrite generateLoop_counted by lia.
    by rewrite Nat.sub_0_r. }
  assert (targetDifficulty (getUserPerformanceMetrics user topic) (Num b) = Num b)
    as Htarget by reflexivity.
  assert (List.filter (nearTarget (Num b)) pool = pool) as Hband.
  { apply filter_all. intros q (i & -> & _)%list_elem_of_fmap.
    destruct (random_unit_interval i) as (r & Hr & Hr0 & Hr1).
    destruct (mockQuestion_difficulty random topic b r i Hr)
      as (d & Hlevel & _ & _ & _ & Hnear).
    unfold nearTarget. rewrite Hlevel. by apply Hnear. }
  assert (selectAdaptiveQuestions sortRandomly pool (ofZ (Z.of_nat n))
            (getUserPerformanceMetrics user topic) (Num b) ≡ₚ pool) as Hall.
  { rewrite <- Hband at 2. rewrite <- Htarget at 2.
    apply select_whole_band; [done|]. rewrite Htarget, Hband.
    unfold pool. rewrite length_map, length_seq. lia. }
  set (selected := selectAdaptiveQuestions sortRandomly pool _ _ _) in *.
  assert (length selected = n) as Hlen.
  { rewrite (Permutation_length Hall). unfold pool.
    by rewrite length_map, length_seq. }
  eexists _, _. split; [reflexivity|].
  cbn [questions totalQuestions answers rawScore userId StartQuiz.totalQuestions
       StartQuiz.questions].
  unfold lengthOf. rewrite length_map, Hlen.
  repeat split; try done.
  - cbn. apply NoDup_nil_2.
  - cbn. intros a Ha. by apply elem_of_nil in Ha.
  - cbn. unfold lengthOf. by rewrite Hlen.
Qed.

End StartQuizFacts.

Lemma half_in_unit_interval (i : nat) :
  exists r, (fun _ : nat => ofFrac 1 2) i = Num r
            /\ (0 <= r)%Qc /\ (r < Qc_of_Z 1)%Qc.
Proof. by exists (Q2Qc (1 # 2)). Qed.

Lemma startQuiz_keeps_every_generated_question_witness :
  exists data session,
    startQuiz (fun _ => ofFrac 1 2) (@rev Question) 6 "s1" 0 (Some "u"%string)
      {| StartQuiz.topicId := Some "t"%string;
         StartQuiz.questionCount := Some (ofZ (Z.of_nat 5));
         StartQuiz.difficultyLevel := Some (Num (Qc_of_Z 3));
         StartQuiz.scoringAlgorithm := None |} ∅
    = Some (Success data, <["s1"%string := session]> ∅)
    /\ length (StartQuiz.questions data) = 5%nat
    /\ consistentSession session.
Proof.
  assert ((Qc_of_Z 1 <= Qc_of_Z 3)%Qc /\ (Qc_of_Z 3 <= Qc_of_Z 5)%Qc)
    as [Hlo Hhi] by done.
  destruct (startQuiz_keeps_every_generated_question (fun _ => ofFrac 1 2)
              (@rev Question) rev_permutes half_in_unit_interval
              6 "s1" 0 "u" "t" 5 (Qc_of_Z 3) None ∅)
    as (data & session & Heq & _ & _ & _ & Hlen & _ & _ & _ & Hcons);
    [discriminate | discriminate | lia | exact Hlo | exact Hhi |].
  exists data, session. split; [exact Heq | split; [exact Hlen | exact Hcons]].
Defined.

(** ** submitAnswer *)

Lemma find_questionId_None (answers : list Answer) (id : string) :
  List.find (fun a => String.eqb (questionId a) id) answers = None ->
  id ∉ map questionId answers.
Proof.
  intros Hnone (a & -> & Ha)%list_elem_of_fmap.
  apply list_elem_of_In in Ha.
  pose proof (find_none _ _ Hnone a Ha) as H. cbn in H.
  by rewrite String.eqb_refl in H.
Qed.

(** X25.  What [submitAnswer] changes.  A rejected request changes nothing.  An
    accepted one replaces the requester's own session, and nothing else, by a
    session with one more answer, to a question of the session not answered
    before, whose verdict is the flag of the selected option of that stored
    question ([false] when no option has the selected id), and with the
    points earned added to the raw score. *)
Theorem submitAnswer_effect (strategies : gmap string ScoringStrategy)
    (user : option string) (body : SubmitAnswer.body)
    (activeSessions : gmap string QuizSession) :
  match submitAnswer strategies user body activeSessions with
  | (Success data, after) =>
      exists before question answer,
        user = Some (userId before)
        /\ activeSessions !! SubmitAnswer.sessionId body = Some before
        /\ after
           = <[SubmitAnswer.sessionId body :=
                 ({| session_id := session_id before;
                    userId := userId before;
                    topicId := topicId before;
                    questions := questions before;
                    currentQuestionIndex := currentQuestionIndex before + 1;
                    totalQuestions := totalQuestions before;
                    rawScore := rawScore before + SubmitAnswer.pointsEarned data;
                    maxPossibleScore := maxPossibleScore before;
                    scoringAlgorithm := scoringAlgorithm before;
                    session_difficultyLevel := session_difficultyLevel before;
                    startedAt := startedAt before;
                    answers := answers before ++ [answer] |})]> activeSessions
        /\ question ∈ questions before
        /\ q_id question = SubmitAnswer.questionId body
        /\ (SubmitAnswer.questionId body ∉ map questionId (answers before))
        /\ questionId answer = SubmitAnswer.questionId body
        /\ selectedOptionId answer = SubmitAnswer.selectedOptionId body
        /\ isCorrect answer = SubmitAnswer.isCorrect data
        /\ SubmitAnswer.isCorrect data
           = match getSelectedOption question answer with
             | Some opt => opt_isCorrect opt
             | None => false
             end
  | (_, after) => after = activeSessions
  end.
Proof.
  unfold submitAnswer.
  destruct (truthyString user) as [u|] eqn:Huser; [|done].
  apply truthyString_Some in Huser as [-> Hu].
  destruct (ownSession activeSessions (SubmitAnswer.sessionId body) u)
    as [before|] eqn:Hown; [|done].
  apply ownSession_Some in Hown as [Hlookup <-].
  destruct (List.find _ (questions before)) as [question|] eqn:Hquestion; [|done].
  destruct (List.find _ (answers before)) as [?|] eqn:Hanswered; [done|].
  destruct (getStrategy strategies (scoringAlgorithm before)) as [strategy|]; [|done].
  apply find_some in Hquestion as [Hin Hid]. apply String.eqb_eq in Hid.
  apply find_questionId_None in Hanswered.
  eexists before, question, _. cbn [SubmitAnswer.pointsEarned SubmitAnswer.isCorrect].
  repeat split; try done. by apply list_elem_of_In.
Qed.

Lemma submitAnswer_state (strategies : gmap string ScoringStrategy)
    (user : option string) (body : SubmitAnswer.body)
    (activeSessions : gmap string QuizSession) :
  let '(response, after) := submitAnswer strategies user body activeSessions in
  (after = activeSessions /\ forall data, response <> Success data)
  \/ exists before (answer : Answer * ScoringResult),
       activeSessions !! SubmitAnswer.sessionId body = Some before
       /\ questionId answer.1 = SubmitAnswer.questionId body
       /\ (questionId answer.1 ∉ map questionId (answers before))
       /\ questionId answer.1 ∈ map q_id (questions before)
       /\ after
          = <[SubmitAnswer.sessionId body :=
                ({| session_id := session_id before;
                    userId := userId before;
                    topicId := topicId before;
                    questions := questions before;
                    currentQuestionIndex := currentQuestionIndex before + 1;
                    totalQuestions := totalQuestions before;
                    rawScore := rawScore before + pointsEarned answer.2;
                    maxPossibleScore := maxPossibleScore before;
                    scoringAlgorithm := scoringAlgorithm before;
                    session_difficultyLevel := session_difficultyLevel before;
                    startedAt := startedAt before;
                    answers := answers before ++ [answer.1] |})]> activeSessions
       /\ (forall data, response = Success data ->
             SubmitAnswer.questionsRemaining data
             = (totalQuestions before - lengthOf (answers before ++ [answer.1]))%js
             /\ SubmitAnswer.currentScore data
                = ((rawScore before + pointsEarned answer.2)
                   / maxPossibleScore before * 100)%js).
Proof.
  unfold submitAnswer.
  destruct (truthyString user) as [u|] eqn:Huser; [|by left].
  destruct (ownSession activeSessions (SubmitAnswer.sessionId body) u)
    as [before|] eqn:Hown; [|by left].
  apply ownSession_Some in Hown as [Hlookup <-].
  destruct (List.find _ (questions before)) as [question|] eqn:Hquestion; [|by left].
  destruct (List.find _ (answers before)) as [?|] eqn:Hanswered; [by left|].
  destruct (getStrategy strategies (scoringAlgorithm before)) as [strategy|]; [|by left].
  apply find_some in Hquestion as [Hin Hid]. apply String.eqb_eq in Hid.
  apply find_questionId_None in Hanswered.
  match goal with
  | |- context [rawScore before + pointsEarned ?r] =>
      match goal with
      | |- context [answers before ++ [?a]] => right; exists before, (a, r)
      end
  end.
  cbn [fst snd questionId].
  split; [done|]. split; [done|]. split; [done|].
  split; [rewrite <- Hid; apply list_elem_of_fmap_2; by apply list_elem_of_In|].
  split; [reflexivity|]. by intros data [= <-].
Qed.

(** X26.  [submitAnswer] keeps sessions consistent, and on consistent sessions the
    number of questions remaining that it reports is not negative. *)
Theorem submitAnswer_keeps_sessions_consistent
    (strategies : gmap string ScoringStrategy)
    (user : option string) (body : SubmitAnswer.body)
    (activeSessions : gmap string QuizSession) :
  (forall id session, activeSessions !! id = Some session ->
     consistentSession session) ->
  let '(response, after) := submitAnswer strategies user body activeSessions in
  (forall id session, after !! id = Some session -> consistentSession session)
  /\ (forall data, response = Success data ->
        (0 <=? SubmitAnswer.questionsRemaining data)%js = true).
Proof.
  intros Hconsistent.
  pose proof (submitAnswer_state strategies user body activeSessions) as Hstate.
  destruct (submitAnswer strategies user body activeSessions)
    as [response after] eqn:Hsubmit.
  destruct Hstate
    as [[-> Hrejected]
       |(before & answer & Hlookup & _ & Hnew & Hquestion & -> & Hremaining)].
  - split; [done|]. intros data ->. by destruct (Hrejected data).
  - destruct (Hconsistent _ _ Hlookup) as (Hnodup & Hknown & Htotal & Hindex).
    assert (consistentSession
              {| session_id := session_id before;
                 userId := userId before;
                 topicId := topicId before;
                 questions := questions before;
                 currentQuestionIndex := currentQuestionIndex before + 1;
                 totalQuestions := totalQuestions before;
                 rawScore := rawScore before + pointsEarned answer.2;
                 maxPossibleScore := maxPossibleScore before;
                 scoringAlgorithm := scoringAlgorithm before;
                 session_difficultyLevel := session_difficultyLevel before;
                 startedAt := startedAt before;
                 answers := answers before ++ [answer.1] |}) as Hafter.
    { unfold consistentSession.
      cbn [answers questions totalQuestions currentQuestionIndex].
      repeat split.
      - rewrite map_app. cbn [map]. apply NoDup_app. repeat split; [done| |].
        + intros id Hid Hlast. apply list_elem_of_singleton in Hlast as ->. done.
        + apply NoDup_singleton.
      - intros a [Ha|Ha]%elem_of_app; [by apply Hknown|].
        apply list_elem_of_singleton in Ha as ->. done.
      - done.
      - by rewrite lengthOf_snoc, Hindex. }
    split.
    + intros id session. destruct (decide (id = SubmitAnswer.sessionId body)) as [->|Hne].
      * rewrite lookup_insert_eq. by intros [= <-].
      * rewrite lookup_insert_ne by done. apply Hconsistent.
    + intros data Hdata. apply Hremaining in Hdata as [-> _].
      rewrite Htotal. unfold lengthOf, ofZ, sub. cbn [neg add].
      rewrite <- Z2Qc_inj_opp, <- Z2Qc_inj_add. apply leb_ofZ.
      destruct Hafter as (Hnodup' & Hknown' & _).
      cbn [answers questions] in *.
      assert (length (map questionId (answers before ++ [answer.1]))
              <= length (map q_id (questions before)))%nat as Hle.
      { apply submseteq_length, NoDup_submseteq; [done|].
        intros id (a & -> & Ha)%list_elem_of_fmap. by apply Hknown'. }
      rewrite !length_map in Hle. lia.
Qed.

Lemma sampleSessions_consistent (id : string) (session : QuizSession) :
  sampleSessions !! id = Some session -> consistentSession session.
Proof.
  unfold sampleSessions. intros [_ <-]%lookup_singleton_Some.
  repeat split; cbn.
  - apply NoDup_nil_2.
  - intros a Ha. by apply elem_of_nil in Ha.
Qed.

Lemma submitAnswer_keeps_sessions_consistent_witness :
  match (submitAnswer initialStrategies (Some "u"%string) sampleSubmission
           sampleSessions).1 with
  | Success data => (0 <=? SubmitAnswer.questionsRemaining data)%js = true
  | _ => True
  end.
Proof.
  pose proof (submitAnswer_keeps_sessions_consistent initialStrategies
                (Some "u"%string) sampleSubmission sampleSessions
                sampleSessions_consistent) as H.
  destruct (submitAnswer initialStrategies (Some "u"%string) sampleSubmission
              sampleSessions) as [response after].
  destruct response as [data| |]; [|exact I|exact I].
  exact (proj2 H data eq_refl).
Defined.

Lemma find_questionId_Some (answers : list Answer) (id : string) :
  id ∈ map questionId answers ->
  is_Some (List.find (fun a => String.eqb (questionId a) id) answers).
Proof.
  intros Hin. destruct (List.find _ answers) eqn:Hfind; [by eexists|].
  by apply find_questionId_None in Hfind.
Qed.

(** The sessions a completion leaves: the same, or the same without the
    session named. *)
Lemma completeQuiz_state (user : option string) (sessionId : string)
    (activeSessions : gmap string QuizSession) :
  (completeQuiz user sessionId activeSessions).2 = activeSessions
  \/ (completeQuiz user sessionId activeSessions).2
     = delete sessionId activeSessions.
Proof.
  unfold completeQuiz.
  destruct (truthyString user) as [u|]; [|by left].
  destruct (ownSession activeSessions sessionId u); [by right | by left].
Qed.

(** The sessions a started quiz leaves: the same, or the same with one
    session stored under the generated id. *)
Lemma startQuiz_state (random : nat -> number)
    (sortRandomly : list Question -> list Question) (fuel : nat)
    (newSessionId : string) (now : number) (user : option string)
    (body : StartQuiz.body) (activeSessions after : gmap string QuizSession)
    (response : Response StartQuiz.data) :
  startQuiz random sortRandomly fuel newSessionId now user body activeSessions
  = Some (response, after) ->
  after = activeSessions
  \/ exists session, after = <[newSessionId := session]> activeSessions.
Proof.
  unfold startQuiz.
  destruct (truthyString user) as [u|]; [|intros [= _ <-]; by left].
  destruct (truthyString (StartQuiz.topicId body)) as [topic|];
    [|intros [= _ <-]; by left].
  destruct (generateMockQuestions _ _ _ _ _) as [mockQuestions|]; [|done].
  intros [= _ <-]. right. by eexists.
Qed.

(** An accepted answer closes its question. *)
Lemma submitAnswer_closes (strategies : gmap string ScoringStrategy)
    (user : option string) (body : SubmitAnswer.body)
    (activeSessions after : gmap string QuizSession) (data : SubmitAnswer.data) :
  submitAnswer strategies user body activeSessions = (Success data, after) ->
  questionClosed (SubmitAnswer.sessionId body) (SubmitAnswer.questionId body) after.
Proof.
  intros Hfirst.
  pose proof (submitAnswer_state strategies user body activeSessions) as Hstate.
  rewrite Hfirst in Hstate.
  destruct Hstate as [[_ Hrejected]|(before & answer & _ & Hid & _ & _ & -> & _)];
    [by destruct (Hrejected data)|].
  unfold questionClosed. rewrite lookup_insert_eq. cbn [answers].
  rewrite map_app, <- Hid. cbn [map]. set_solver.
Qed.

(** No request reopens a closed question, unless it starts a quiz under the
    id of that very session. *)
Lemma handle_keeps_closed (sessionId question : string) (request : Request)
    (activeSessions after : gmap string QuizSession) :
  startsSession sessionId request = false ->
  handle request activeSessions = Some after ->
  questionClosed sessionId question activeSessions ->
  questionClosed sessionId question after.
Proof.
  intros Hstart Hhandle Hclosed.
  destruct request
    as [strategies user body | user completed
        | random sortRandomly fuel newSessionId now user body];
    cbn [handle startsSession] in *.
  - injection Hhandle as <-.
    pose proof (submitAnswer_state strategies user body activeSessions) as Hstate.
    destruct (submitAnswer strategies user body activeSessions)
      as [response after'].
    cbn [snd].
    destruct Hstate as [[-> _]|(before & answer & Hlookup & _ & _ & _ & -> & _)];
      [done|].
    unfold questionClosed in *.
    destruct (decide (SubmitAnswer.sessionId body = sessionId)) as [<-|Hne].
    + rewrite lookup_insert_eq. rewrite Hlookup in Hclosed. cbn [answers].
      rewrite map_app. apply elem_of_app. by left.
    + by rewrite lookup_insert_ne.
  - injection Hhandle as <-.
    destruct (completeQuiz_state user completed activeSessions) as [->| ->];
      [done|].
    unfold questionClosed in *.
    destruct (decide (completed = sessionId)) as [<-|Hne].
    + by rewrite lookup_delete_eq.
    + by rewrite lookup_delete_ne.
  - destruct (startQuiz _ _ _ _ _ _ _ _) as [[response after']|] eqn:Hquiz;
      [|done].
    injection Hhandle as <-.
    apply startQuiz_state in Hquiz as [->|[session ->]]; [done|].
    unfold questionClosed in *.
    apply String.eqb_neq in Hstart. by rewrite lookup_insert_ne.
Qed.

Lemma handleAll_keeps_closed (sessionId question : string)
    (requests : list Request) (activeSessions later : gmap string QuizSession) :
  Forall (fun request => startsSession sessionId request = false) requests ->
  handleAll requests activeSessions = Some later ->
  questionClosed sessionId question activeSessions ->
  questionClosed sessionId question later.
Proof.
  intros Hrequests. revert activeSessions.
  induction Hrequests as [|request rest Hrequest _ IH];
    intros activeSessions Hall Hclosed; cbn [handleAll] in Hall.
  - by injection Hall as <-.
  - destruct (handle request activeSessions) as [after|] eqn:Hhandle; [|done].
    eapply IH; [done|]. by eapply handle_keeps_closed.
Qed.

(** A submission for a closed question is rejected and changes nothing. *)
Lemma closed_question_rejected (strategies : gmap string ScoringStrategy)
    (user : option string) (body : SubmitAnswer.body)
    (activeSessions : gmap string QuizSession) :
  questionClosed (SubmitAnswer.sessionId body) (SubmitAnswer.questionId body)
    activeSessions ->
  exists status message,
    submitAnswer strategies user body activeSessions
    = (Failure status message, activeSessions).
Proof.
  unfold questionClosed, submitAnswer, ownSession.
  destruct (truthyString user) as [u|]; [|by eexists _, _].
  destruct (activeSessions !! SubmitAnswer.sessionId body) as [session|];
    [|by eexists _, _].
  intros Hclosed.
  destruct (String.eqb (userId session) u); [|by eexists _, _].
  destruct (List.find _ (questions session)); [|by eexists _, _].
  destruct (find_questionId_Some _ _ Hclosed) as [a ->]. by eexists _, _.
Qed.

(** X27.  Once an answer to a question has been accepted, every later
    submission for that question in that session is rejected, whoever sends
    it and whatever it selects, and changes nothing: however many requests
    to submit answers, to complete quizzes and to start quizzes have been
    handled in between, each taken up when the one before it has been
    answered, as long as no quiz started in between was given the id of that
    very session. *)
Theorem submitAnswer_accepts_a_question_once
    (strategies strategies' : gmap string ScoringStrategy)
    (user user' : option string) (body body' : SubmitAnswer.body)
    (activeSessions after later : gmap string QuizSession)
    (data : SubmitAnswer.data) (requests : list Request) :
  submitAnswer strategies user body activeSessions = (Success data, after) ->
  Forall (fun request => startsSession (SubmitAnswer.sessionId body) request = false)
    requests ->
  handleAll requests after = Some later ->
  SubmitAnswer.sessionId body' = SubmitAnswer.sessionId body ->
  SubmitAnswer.questionId body' = SubmitAnswer.questionId body ->
  exists status message,
    submitAnswer strategies' user' body' later = (Failure status message, later).
Proof.
  intros Hfirst Hrequests Hlater Hsession Hquestion.
  apply closed_question_rejected. rewrite Hsession, Hquestion.
  eapply handleAll_keeps_closed; [done..|]. by eapply submitAnswer_closes.
Qed.

Lemma submitAnswer_accepts_a_question_once_witness :
  exists later status message,
    handleAll laterRequests
      (submitAnswer initialStrategies (Some "u"%string) sampleSubmission
         sampleSessions).2
    = Some later
    /\ submitAnswer initialStrategies (Some "u"%string) sampleSubmission later
       = (Failure status message, later).
Proof.
  destruct (submitAnswer initialStrategies (Some "u"%string) sampleSubmission
              sampleSessions) as [response after] eqn:Hfirst.
  destruct response as [data| |];
    [|by vm_compute in Hfirst|by vm_compute in Hfirst].
  assert (after
          = (submitAnswer initialStrategies (Some "u"%string) sampleSubmission
               sampleSessions).2) as Hafter by by rewrite Hfirst.
  destruct (handleAll laterRequests after) as [later|] eqn:Hlater;
    [|by rewrite Hafter in Hlater; vm_compute in Hlater].
  exists later.
  destruct (submitAnswer_accepts_a_question_once initialStrategies
              initialStrategies (Some "u"%string) (Some "u"%string)
              sampleSubmission sampleSubmission sampleSessions after later data
              laterRequests Hfirst) as (status & message & Hrejected);
    [by repeat constructor|done..|].
  by exists status, message.
Defined.

(** ** completeQuiz and getSessionStatus *)

(** X28.  Completing a quiz removes the session and nothing else; from then on
    every request that names the session is answered "session not found" by
    all three handlers, whoever sends it.  A rejected completion changes
    nothing. *)
Theorem completeQuiz_removes_the_session (user : option string)
    (sessionId : string) (activeSessions : gmap string QuizSession) :
  match completeQuiz user sessionId activeSessions with
  | (Success data, after) =>
      after = delete sessionId activeSessions
      /\ (forall other, other <> sessionId ->
            after !! other = activeSessions !! other)
      /\ (forall (requester : string) strategies body now,
            requester <> EmptyString ->
            SubmitAnswer.sessionId body = sessionId ->
            submitAnswer strategies (Some requester) body after
            = (sessionNotFound, after)
            /\ completeQuiz (Some requester) sessionId after
               = (sessionNotFound, after)
            /\ getSessionStatus now (Some requester) sessionId after
               = sessionNotFound)
  | (_, after) => after = activeSessions
  end.
Proof.
  unfold completeQuiz at 1.
  destruct (truthyString user) as [u|]; [|done].
  destruct (ownSession activeSessions sessionId u) as [session|]; [|done].
  split; [done|]. split.
  - intros other Hother. by rewrite lookup_delete_ne.
  - intros requester strategies body now Hrequester Hbody.
    unfold submitAnswer, completeQuiz, getSessionStatus, ownSession.
    rewrite truthyString_nonempty by done.
    by rewrite Hbody, lookup_delete_eq.
Qed.

Lemma completeQuiz_removes_the_session_witness :
  getSessionStatus 0 (Some "u"%string) "s1"
    (completeQuiz (Some "u"%string) "s1" sampleSessions).2
  = sessionNotFound.
Proof.
  pose proof (completeQuiz_removes_the_session (Some "u"%string) "s1"
                sampleSessions) as H.
  destruct (completeQuiz (Some "u"%string) "s1" sampleSessions)
    as [response after] eqn:Hcomplete.
  destruct response as [data| |];
    [|by vm_compute in Hcomplete|by vm_compute in Hcomplete].
  destruct H as (_ & _ & Hgone).
  assert ("u"%string <> EmptyString) as Hu by discriminate.
  exact (proj2 (proj2 (Hgone "u"%string initialStrategies sampleSubmission 0
                         Hu eq_refl))).
Defined.

(** [leb] and [ltb] decide the order on numbers that are not [NaN]. *)
Lemma ltb_or_geb (x y : number) :
  x <> NaN -> y <> NaN -> (x <? y)%js = negb (x >=? y)%js.
Proof.
  intros Hx Hy. unfold geb.
  destruct x as [a| | |], y as [b| | |]; try done.
  destruct (Num a <? Num b)%js eqn:Hlt.
  - by rewrite (ltb_leb_false _ _ Hlt).
  - symmetry. apply negb_false_iff, leb_Num, Qcnot_lt_le.
    intros H%ltb_Num. congruence.
Qed.

Lemma summary_flags (score : number) :
  score <> NaN ->
  let flags :=
    ((score >=? 90)%js, (score >=? 75)%js && (score <? 90)%js, (score <? 75)%js) in
  flags = (true, false, false) \/ flags = (false, true, false)
  \/ flags = (false, false, true).
Proof.
  intros Hscore. cbv zeta.
  rewrite (ltb_or_geb score 90), (ltb_or_geb score 75) by done.
  destruct (score >=? 90)%js eqn:H90, (score >=? 75)%js eqn:H75; cbn;
    first [by left | by right; left | by right; right | idtac].
  exfalso. unfold geb, ofZ in *. destruct score as [q| | |]; try done.
  apply leb_Num in H90. apply leb_total_Num, leb_Num in H75.
  qc_unfold. lra.
Qed.

(** X29.  The summary and the achievements of a completed quiz.  Exactly one of
    [excellent], [good] and [needsImprovement] is set, unless the final score
    is [NaN] (a session whose maximal score and raw score are both 0), in
    which case none is.  A session completed without any answer counts no
    correct answer and no time, and is awarded ["SPEED_MASTER"]. *)
Theorem completeQuiz_summary (user : option string) (sessionId : string)
    (activeSessions after : gmap string QuizSession) (data : CompleteQuiz.data)
    (session : QuizSession) :
  completeQuiz user sessionId activeSessions = (Success data, after) ->
  activeSessions !! sessionId = Some session ->
  let summary := CompleteQuiz.summary data in
  let flags :=
    (CompleteQuiz.excellent summary, CompleteQuiz.good summary,
     CompleteQuiz.needsImprovement summary) in
  CompleteQuiz.finalScore data
  = (rawScore session / maxPossibleScore session * 100)%js
  /\ (CompleteQuiz.finalScore data <> NaN ->
      flags = (true, false, false) \/ flags = (false, true, false)
      \/ flags = (false, false, true))
  /\ (CompleteQuiz.finalScore data = NaN -> flags = (false, false, false))
  /\ (answers session = [] ->
      CompleteQuiz.correctAnswers data = 0
      /\ CompleteQuiz.timeSpent data = 0
      /\ "SPEED_MASTER"%string ∈ CompleteQuiz.newAchievements data).
Proof.
  intros Hcomplete Hlookup. unfold completeQuiz in Hcomplete.
  destruct (truthyString user) as [u|]; [|done].
  destruct (ownSession activeSessions sessionId u) as [s|] eqn:Hown; [|done].
  apply ownSession_Some in Hown as [Hs _].
  assert (s = session) as -> by congruence.
  injection Hcomplete as <- _. cbv zeta.
  cbn [CompleteQuiz.summary CompleteQuiz.finalScore CompleteQuiz.excellent
       CompleteQuiz.good CompleteQuiz.needsImprovement
       CompleteQuiz.correctAnswers CompleteQuiz.timeSpent
       CompleteQuiz.newAchievements].
  set (score := (rawScore session / maxPossibleScore session * 100)%js).
  split; [done|]. split; [|split].
  - intros Hscore. by apply summary_flags.
  - by intros ->.
  - intros ->. cbn [List.filter foldl]. repeat split.
    replace (ofZ 0 <? 300)%js with true by reflexivity.
    apply elem_of_app. right. apply list_elem_of_here.
Qed.

Lemma completeQuiz_summary_witness :
  "SPEED_MASTER"%string
  ∈ CompleteQuiz.newAchievements
      match (completeQuiz (Some "u"%string) "s1" sampleSessions).1 with
      | Success data => data
      | _ =>
          {| CompleteQuiz.sessionId := ""; CompleteQuiz.finalScore := 0;
             CompleteQuiz.rawScore := 0; CompleteQuiz.maxPossibleScore := 0;
             CompleteQuiz.totalQuestions := 0; CompleteQuiz.correctAnswers := 0;
             CompleteQuiz.incorrectAnswers := 0; CompleteQuiz.timeSpent := 0;
             CompleteQuiz.averageTimePerQuestion := 0;
             CompleteQuiz.newAchievements := [];
             CompleteQuiz.analysis :=
               {| CompleteQuiz.topicId := ""; CompleteQuiz.accuracy := 0;
                  CompleteQuiz.averageTime := 0 |};
             CompleteQuiz.summary :=
               {| CompleteQuiz.excellent := false; CompleteQuiz.good := false;
                  CompleteQuiz.needsImprovement := false |};
             CompleteQuiz.recommendation := "" |}
      end.
Proof.
  destruct (completeQuiz (Some "u"%string) "s1" sampleSessions)
    as [response after] eqn:Hcomplete.
  destruct response as [data| |];
    [|by vm_compute in Hcomplete|by vm_compute in Hcomplete].
  destruct (completeQuiz_summary (Some "u"%string) "s1" sampleSessions after data
              sampleSession Hcomplete eq_refl) as (_ & _ & _ & Hempty).
  exact (proj2 (proj2 (Hempty eq_refl))).
Defined.

(** X30.  Right after an accepted answer, [getSessionStatus] reports for the same
    user the score that [submitAnswer] returned, and the number of answers
    given so far. *)
Theorem getSessionStatus_after_submitAnswer
    (strategies : gmap string ScoringStrategy) (user : option string)
    (body : SubmitAnswer.body) (now : number)
    (activeSessions after : gmap string QuizSession) (data : SubmitAnswer.data)
    (before : QuizSession) :
  submitAnswer strategies user body activeSessions = (Success data, after) ->
  activeSessions !! SubmitAnswer.sessionId body = Some before ->
  exists status,
    getSessionStatus now user (SubmitAnswer.sessionId body) after = Success status
    /\ SessionStatus.currentScore status = SubmitAnswer.currentScore data
    /\ SessionStatus.questionsAnswered status = (lengthOf (answers before) + 1)%js
    /\ SessionStatus.totalQuestions status = totalQuestions before
    /\ SessionStatus.currentDifficulty status = session_difficultyLevel before.
Proof.
  intros Hsubmit Hbefore.
  pose proof (submitAnswer_state strategies user body activeSessions) as Hstate.
  rewrite Hsubmit in Hstate.
  destruct Hstate as [[_ Hrejected]|(s & answer & Hs & _ & _ & _ & -> & Hdata)];
    [by destruct (Hrejected data)|].
  assert (s = before) as -> by congruence.
  destruct (Hdata data eq_refl) as [_ Hscore].
  unfold submitAnswer in Hsubmit. unfold getSessionStatus.
  destruct (truthyString user) as [u|]; [|done].
  destruct (ownSession activeSessions (SubmitAnswer.sessionId body) u)
    as [s|] eqn:Hown; [|done].
  apply ownSession_Some in Hown as [Hs' Hu].
  assert (s = before) as -> by congruence.
  unfold ownSession. rewrite lookup_insert_eq. cbn [userId].
  rewrite Hu, String.eqb_refl.
  eexists. split; [reflexivity|].
  cbn [SessionStatus.currentScore SessionStatus.questionsAnswered
       SessionStatus.totalQuestions SessionStatus.currentDifficulty
       rawScore maxPossibleScore answers totalQuestions session_difficultyLevel].
  by rewrite lengthOf_snoc, Hscore.
Qed.

Lemma getSessionStatus_after_submitAnswer_witness :
  exists status,
    getSessionStatus 0 (Some "u"%string) "s1"
      (submitAnswer initialStrategies (Some "u"%string) sampleSubmission
         sampleSessions).2
    = Success status
    /\ SessionStatus.questionsAnswered status = (lengthOf (@nil Answer) + 1)%js.
Proof.
  destruct (submitAnswer initialStrategies (Some "u"%string) sampleSubmission
              sampleSessions) as [response after] eqn:Hsubmit.
  destruct response as [data| |];
    [|by vm_compute in Hsubmit|by vm_compute in Hsubmit].
  destruct (getSessionStatus_after_submitAnswer initialStrategies
              (Some "u"%string) sampleSubmission 0 sampleSessions after data
              sampleSession Hsubmit eq_refl) as (status & Hstatus & _ & Hcount & _).
  exists status. split; [exact Hstatus | exact Hcount].
Defined.
